(** * The triage game's round-resolution engine

    A shallow embedding of [game/engine/config.py], [game/engine/game_state.py]
    and [game/engine/stochastic_model.py], followed by the properties of the
    engine that the design document states.

    Conventions of the embedding:
    - a Python [int] is a [Z]; a Python [float] is a primitive binary64 [float],
      so every constant and every product below is the one CPython computes;
    - a [dict] iterated with [.items()] is an association list in insertion
      order;
    - objects mutated in place (the game state, the hospital, a patient, the
      round summary) are passed in and handed back;
    - the module-level generator [_rng] is a tape of draws with a cursor, and
      every function that calls [_rng] takes the generator and hands it back;
    - a Python exception is [None]. *)

From Stdlib Require Import ZArith List String Bool Lia Floats DecimalString.
Import ListNotations.

#[local] Set Warnings "-inexact-float".
#[local] Open Scope string_scope.
#[local] Open Scope list_scope.
#[local] Open Scope Z_scope.

(* ===================================================================== *)
(** ** The Python runtime the engine relies on *)
(* ===================================================================== *)

(** [min(a, b)] and [max(a, b)] on floats: CPython keeps the first argument
    unless the second compares strictly smaller (resp. larger), so a NaN in
    second position is dropped. *)
Definition py_min (a b : float) : float := if (b <? a)%float then b else a.
Definition py_max (a b : float) : float := if (a <? b)%float then b else a.

(** [float(n)] for an [int]: correctly rounded, [OverflowError] when the
    result would not be finite. *)
Definition int_to_float (n : Z) : option float :=
  match binary_normalize prec emax n 0 false with
  | S754_infinity _ => None
  | sf => Some (SF2Prim sf)
  end.

(** [int(round(x))]: nearest integer, ties to even; [ValueError] on NaN and
    [OverflowError] on an infinity. *)
Definition py_round (x : float) : option Z :=
  match Prim2SF x with
  | S754_zero _ => Some 0
  | S754_finite s m e =>
      let n :=
        match e with
        | Zneg k =>
            let d := Z.pow_pos 2 k in
            let q := Z.pos m / d in
            match Z.compare (2 * (Z.pos m mod d)) d with
            | Lt => q
            | Gt => q + 1
            | Eq => if Z.even q then q else q + 1
            end
        | _ => Z.pos m * 2 ^ e
        end in
      Some (if s then - n else n)
  | S754_infinity _ | S754_nan => None
  end.

(** [str(n)] for an [int], as an f-string prints it, and the f-string
    itself: its pieces joined. *)
Definition str (n : Z) : string := NilZero.string_of_int (Z.to_int n).

Definition fstring (pieces : list string) : string :=
  String.concat EmptyString pieces.

(** The generator.  One cell of the tape is consumed by each call of
    [random()], [choice(seq)] or [randint(a, b)]; the cell carries the float
    in [0,1) that [random()] would return and the integer from which the
    index below [n] is taken. *)
Record Draw := mkDraw { as_float : float; as_index : nat }.

Record Rng := mkRng { tape : nat -> Draw; cursor : nat }.

Definition advance (r : Rng) : Rng :=
  {| tape := tape r; cursor := S (cursor r) |}.

Definition rng_random (r : Rng) : float * Rng :=
  (as_float (tape r (cursor r)), advance r).

Definition rng_randbelow (n : nat) (r : Rng) : nat * Rng :=
  ((as_index (tape r (cursor r)) mod n)%nat, advance r).

(** [choice([x, y, ...])] on a literal, non-empty list. *)
Definition rng_choice {A : Type} (x : A) (xs : list A) (r : Rng) : A * Rng :=
  let (i, r') := rng_randbelow (List.length (x :: xs)) r in
  (nth i (x :: xs) x, r').

(** [randint(a, b)], both ends included; the engine only calls it on the
    constant ranges of [config.py], where [a <= b]. *)
Definition rng_randint (a b : Z) (r : Rng) : Z * Rng :=
  let (i, r') := rng_randbelow (Z.to_nat (b - a + 1)) r in
  (a + Z.of_nat i, r').

(* ===================================================================== *)
(** ** config.py *)
(* ===================================================================== *)

Inductive DifficultyLevel := BASIC | STOCHASTIC.

Definition TOTAL_ROUNDS : Z := 5.

Definition INITIAL_SURVIVAL_SCORE : float := 100.0.
Definition INITIAL_STAFF_STRESS : float := 10.0.
Definition INITIAL_REPUTATION : float := 60.0.

Definition BASIC_PATIENTS_PER_ROUND : Z * Z := (3, 4).
Definition STOCH_PATIENTS_PER_ROUND : Z * Z := (4, 7).

Definition BASIC_SEVERE_PROB : float := 0.25.
Definition STOCH_SEVERE_PROB : float := 0.45.

Definition BASIC_DETERIORATE_PROB : float := 0.15.
Definition STOCH_DETERIORATE_PROB : float := 0.35.

Definition MAX_BEDS : Z := 5.
Definition MAX_STAFF_CAPACITY : Z := 4.

Definition MIN_SURVIVAL_TO_WIN : float := 70.0.
Definition MAX_STAFF_STRESS_TO_WIN : float := 40.0.
Definition MIN_REPUTATION_TO_WIN : float := 50.0.

(* ===================================================================== *)
(** ** game_state.py *)
(* ===================================================================== *)

Inductive SeverityLevel := MILD | MODERATE | SEVERE | CRITICAL.

Inductive TriageDecision := TREAT_NOW | MONITOR | DEFER | TRANSFER.

Definition SeverityLevel_eqb (a b : SeverityLevel) : bool :=
  match a, b with
  | MILD, MILD | MODERATE, MODERATE | SEVERE, SEVERE | CRITICAL, CRITICAL => true
  | _, _ => false
  end.

Definition TriageDecision_eqb (a b : TriageDecision) : bool :=
  match a, b with
  | TREAT_NOW, TREAT_NOW | MONITOR, MONITOR | DEFER, DEFER | TRANSFER, TRANSFER => true
  | _, _ => false
  end.

Record Patient := mkPatient {
  id : Z;
  name : string;
  severity_visible : SeverityLevel;
  severity_hidden_true : SeverityLevel;
  arrival_round : Z;
  is_treated : bool;
  is_alive : bool;
  has_left : bool
}.

Record HospitalState := mkHospital {
  available_beds : Z;
  staff_capacity_this_round : Z;
  survival_score : float;
  staff_stress : float;
  reputation : float
}.

Record RoundSummary := mkSummary {
  round_number : Z;
  decisions : list (Z * TriageDecision);
  patients_treated : list Z;
  patients_died : list Z;
  patients_deteriorated : list Z;
  notes : list string
}.

Record GameState := mkGame {
  difficulty : DifficultyLevel;
  current_round : Z;
  patients : list Patient;
  history : list RoundSummary;
  hospital : HospitalState;
  next_patient_id : Z
}.

(** Field assignments. *)
Definition set_severity_hidden_true (p : Patient) (s : SeverityLevel) : Patient :=
  mkPatient (id p) (name p) (severity_visible p) s (arrival_round p)
            (is_treated p) (is_alive p) (has_left p).
Definition set_is_treated (p : Patient) (b : bool) : Patient :=
  mkPatient (id p) (name p) (severity_visible p) (severity_hidden_true p)
            (arrival_round p) b (is_alive p) (has_left p).
Definition set_is_alive (p : Patient) (b : bool) : Patient :=
  mkPatient (id p) (name p) (severity_visible p) (severity_hidden_true p)
            (arrival_round p) (is_treated p) b (has_left p).
Definition set_has_left (p : Patient) (b : bool) : Patient :=
  mkPatient (id p) (name p) (severity_visible p) (severity_hidden_true p)
            (arrival_round p) (is_treated p) (is_alive p) b.

Definition set_available_beds (h : HospitalState) (n : Z) : HospitalState :=
  mkHospital n (staff_capacity_this_round h) (survival_score h) (staff_stress h)
             (reputation h).
Definition set_staff_capacity_this_round (h : HospitalState) (n : Z) : HospitalState :=
  mkHospital (available_beds h) n (survival_score h) (staff_stress h) (reputation h).
Definition set_survival_score (h : HospitalState) (x : float) : HospitalState :=
  mkHospital (available_beds h) (staff_capacity_this_round h) x (staff_stress h)
             (reputation h).
Definition set_staff_stress (h : HospitalState) (x : float) : HospitalState :=
  mkHospital (available_beds h) (staff_capacity_this_round h) (survival_score h) x
             (reputation h).
Definition set_reputation (h : HospitalState) (x : float) : HospitalState :=
  mkHospital (available_beds h) (staff_capacity_this_round h) (survival_score h)
             (staff_stress h) x.

Definition set_hospital (g : GameState) (h : HospitalState) : GameState :=
  mkGame (difficulty g) (current_round g) (patients g) (history g) h
         (next_patient_id g).
Definition set_patients (g : GameState) (ps : list Patient) : GameState :=
  mkGame (difficulty g) (current_round g) ps (history g) (hospital g)
         (next_patient_id g).

Definition add_note (s : RoundSummary) (n : string) : RoundSummary :=
  mkSummary (round_number s) (decisions s) (patients_treated s) (patients_died s)
            (patients_deteriorated s) (notes s ++ [n]).
Definition add_treated (s : RoundSummary) (pid : Z) : RoundSummary :=
  mkSummary (round_number s) (decisions s) (patients_treated s ++ [pid])
            (patients_died s) (patients_deteriorated s) (notes s).
Definition add_died (s : RoundSummary) (pid : Z) : RoundSummary :=
  mkSummary (round_number s) (decisions s) (patients_treated s)
            (patients_died s ++ [pid]) (patients_deteriorated s) (notes s).
Definition add_deteriorated (s : RoundSummary) (pid : Z) : RoundSummary :=
  mkSummary (round_number s) (decisions s) (patients_treated s) (patients_died s)
            (patients_deteriorated s ++ [pid]) (notes s).

(** [Patient(id=.., name=.., ...)] with the dataclass defaults. *)
Definition new_patient (pid : Z) (nm : string) (vis tru : SeverityLevel)
    (arrival : Z) : Patient :=
  mkPatient pid nm vis tru arrival false true false.

(** [HospitalState()] and [GameState(difficulty=d)]. *)
Definition new_hospital : HospitalState :=
  mkHospital MAX_BEDS MAX_STAFF_CAPACITY INITIAL_SURVIVAL_SCORE
             INITIAL_STAFF_STRESS INITIAL_REPUTATION.

Definition new_game (d : DifficultyLevel) : GameState :=
  mkGame d 1 [] [] new_hospital 1.

(** [RoundSummary(round_number=n)]. *)
Definition new_summary (n : Z) : RoundSummary := mkSummary n [] [] [] [] [].

(** [GameState.get_patient_by_id]: the first roster entry with that id. *)
Fixpoint find_patient (ps : list Patient) (pid : Z) : option Patient :=
  match ps with
  | [] => None
  | p :: rest => if id p =? pid then Some p else find_patient rest pid
  end.

Definition get_patient_by_id (g : GameState) (pid : Z) : option Patient :=
  find_patient (patients g) pid.

(** The roster after the object that [get_patient_by_id] returned has been
    mutated into [p'] (the engine never assigns [id], so the object is still
    the first entry with that id). *)
Fixpoint store_first (ps : list Patient) (p' : Patient) : list Patient :=
  match ps with
  | [] => []
  | p :: rest => if id p =? id p' then p' :: rest else p :: store_first rest p'
  end.

Definition store_patient (g : GameState) (p' : Patient) : GameState :=
  set_patients g (store_first (patients g) p').

Definition add_round_summary (g : GameState) (s : RoundSummary) : GameState :=
  mkGame (difficulty g) (current_round g) (patients g) (history g ++ [s])
         (hospital g) (next_patient_id g).

Definition increment_round (g : GameState) : GameState :=
  mkGame (difficulty g) (current_round g + 1) (patients g) (history g)
         (set_staff_capacity_this_round (hospital g) MAX_STAFF_CAPACITY)
         (next_patient_id g).

(** [GameState.is_game_over].  The three metric tests compare a float with an
    [int] literal, which Python does exactly: [<= 0] is [<= 0.0] and [>= 100]
    is [>= 100.0]. *)
Definition is_game_over (g : GameState) : bool :=
  if TOTAL_ROUNDS <? current_round g then true
  else if (survival_score (hospital g) <=? 0.0)%float then true
  else if (100.0 <=? staff_stress (hospital g))%float then true
  else if (reputation (hospital g) <=? 0.0)%float then true
  else false.

(** [GameState.has_player_won]: [None], [False] or [True]. *)
Definition has_player_won (g : GameState) : option bool :=
  if negb (is_game_over g) then None
  else if current_round g <=? TOTAL_ROUNDS then Some false
  else if ((MIN_SURVIVAL_TO_WIN <=? survival_score (hospital g))
           && (staff_stress (hospital g) <=? MAX_STAFF_STRESS_TO_WIN)
           && (MIN_REPUTATION_TO_WIN <=? reputation (hospital g)))%float
       then Some true
       else Some false.

(** [GameState.alive_patients]: the list comprehension over the roster. *)
Definition alive_patients (g : GameState) : list Patient :=
  filter (fun p => is_alive p && negb (is_treated p) && negb (has_left p))
         (patients g).

(* ===================================================================== *)
(** ** stochastic_model.py: internal helpers *)
(* ===================================================================== *)

Definition _patients_per_round (d : DifficultyLevel) : Z * Z :=
  match d with
  | BASIC => BASIC_PATIENTS_PER_ROUND
  | STOCHASTIC => STOCH_PATIENTS_PER_ROUND
  end.

Definition _severe_probability (d : DifficultyLevel) : float :=
  match d with
  | BASIC => BASIC_SEVERE_PROB
  | STOCHASTIC => STOCH_SEVERE_PROB
  end.

Definition _deterioration_probability (d : DifficultyLevel) : float :=
  match d with
  | BASIC => BASIC_DETERIORATE_PROB
  | STOCHASTIC => STOCH_DETERIORATE_PROB
  end.

Definition _sample_true_severity (severe_prob : float) (r : Rng)
    : SeverityLevel * Rng :=
  let (x, r) := rng_random r in
  if (x <? severe_prob)%float then
    let (y, r) := rng_random r in
    (if (y <? 0.6)%float then SEVERE else CRITICAL, r)
  else
    let (y, r) := rng_random r in
    (if (y <? 0.5)%float then MILD else MODERATE, r).

Definition _severity_to_int (sev : SeverityLevel) : Z :=
  match sev with
  | MILD => 0
  | MODERATE => 1
  | SEVERE => 2
  | CRITICAL => 3
  end.

Definition _int_to_severity (idx : Z) : SeverityLevel :=
  let idx := Z.max 0 (Z.min 3 idx) in
  if idx =? 0 then MILD
  else if idx =? 1 then MODERATE
  else if idx =? 2 then SEVERE
  else CRITICAL.

(** The offset that [_noisy_visible_severity] draws; [delta] in the source. *)
Definition noise_delta (d : DifficultyLevel) (r : Rng) : Z * Rng :=
  let (x, r) := rng_random r in
  match d with
  | BASIC =>
      if (x <? 0.8)%float then (0, r)
      else rng_choice (-1) [1] r
  | STOCHASTIC =>
      if (x <? 0.6)%float then (0, r)
      else if (x <? 0.9)%float then rng_choice (-1) [1] r
      else rng_choice (-2) [2] r
  end.

Definition _noisy_visible_severity (true_severity : SeverityLevel)
    (d : DifficultyLevel) (r : Rng) : SeverityLevel * Rng :=
  let true_idx := _severity_to_int true_severity in
  let (delta, r) := noise_delta d r in
  let visible_idx := true_idx + delta in
  (_int_to_severity visible_idx, r).

Definition _death_probability (true_severity : SeverityLevel) (treated : bool)
    (decision : TriageDecision) : float :=
  let base :=
    match true_severity with
    | MILD => 0.01
    | MODERATE => 0.05
    | SEVERE => 0.15
    | CRITICAL => 0.30
    end%float in
  if treated then
    match true_severity with
    | SEVERE | CRITICAL => (base * 0.25)%float
    | _ => (base * 0.10)%float
    end
  else
    match decision with
    | MONITOR => (base * 1.2)%float
    | DEFER => (base * 2.0)%float
    | TRANSFER => (base * 1.5)%float
    | TREAT_NOW => base
    end.

(** The three clamps that close [_update_metrics_for_patient_outcome] and
    [apply_player_decisions]: [max(0.0, min(100.0, x))]. *)
Definition clamp_metric (x : float) : float := py_max 0.0 (py_min 100.0 x).

Definition clamp_metrics (h : HospitalState) : HospitalState :=
  let h := set_survival_score h (clamp_metric (survival_score h)) in
  let h := set_staff_stress h (clamp_metric (staff_stress h)) in
  set_reputation h (clamp_metric (reputation h)).

Definition _update_metrics_for_patient_outcome (game_state : GameState)
    (patient : Patient) (died : bool) (decision : TriageDecision) : GameState :=
  let h := hospital game_state in
  let h :=
    if died then
      let h := set_survival_score h (survival_score h - 4.0)%float in
      let h := set_reputation h (reputation h - 2.0)%float in
      set_staff_stress h (staff_stress h + 3.0)%float
    else
      let h := set_survival_score h (survival_score h + 0.5)%float in
      set_reputation h (reputation h + 0.5)%float in
  let h :=
    match decision with
    | TREAT_NOW =>
        let h := set_staff_stress h (staff_stress h + 1.0)%float in
        set_reputation h (reputation h + 0.5)%float
    | MONITOR => set_staff_stress h (staff_stress h + 0.5)%float
    | DEFER => set_reputation h (reputation h - 1.0)%float
    | TRANSFER =>
        if (available_beds h <=? 0) || (staff_capacity_this_round h <=? 0)
        then set_reputation h (reputation h + 0.5)%float
        else set_reputation h (reputation h - 1.0)%float
    end in
  set_hospital game_state (clamp_metrics h).

(** Returns the flag, the patient object after the call and the generator.
    [game_state] is a parameter of the source that its body never reads. *)
Definition _deteriorate_severity_if_needed (game_state : GameState)
    (patient : Patient) (deterioration_prob : float) (r : Rng)
    : bool * Patient * Rng :=
  if negb (is_alive patient) || is_treated patient || has_left patient then
    (false, patient, r)
  else
    let (x, r) := rng_random r in
    if (x <? deterioration_prob)%float then
      let current_idx := _severity_to_int (severity_hidden_true patient) in
      if current_idx <? _severity_to_int CRITICAL then
        let new_idx := current_idx + 1 in
        (true, set_severity_hidden_true patient (_int_to_severity new_idx), r)
      else (false, patient, r)
    else (false, patient, r).

Definition _describe_severity (sev : SeverityLevel) : string :=
  match sev with
  | MILD => "mild"
  | MODERATE => "moderate"
  | SEVERE => "severe"
  | CRITICAL => "critical"
  end.

Definition decision_label (decision : TriageDecision) : string :=
  match decision with
  | TREAT_NOW => "treat now"
  | MONITOR => "monitor"
  | DEFER => "defer"
  | TRANSFER => "transfer"
  end.

(** [quality] in [_explain_decision_and_outcome]: the chain of tests on the
    decision and the true severity at decision time. *)
Definition quality (decision : TriageDecision)
    (true_severity_at_decision : SeverityLevel) : string :=
  let high :=
    match true_severity_at_decision with
    | SEVERE | CRITICAL => true
    | _ => false
    end in
  let low :=
    match true_severity_at_decision with
    | MILD | MODERATE => true
    | _ => false
    end in
  if TriageDecision_eqb decision TREAT_NOW && high then
    "aligned with the high true risk"
  else if TriageDecision_eqb decision TREAT_NOW && low then
    "conservative, using resources on a lower-risk patient"
  else if (TriageDecision_eqb decision MONITOR || TriageDecision_eqb decision DEFER)
          && high then
    "risky given the underlying severity"
  else if TriageDecision_eqb decision TRANSFER && high then
    "high-risk, depending on external capacity"
  else
    "reasonable for the estimated risk".

(** [explanation] in [_explain_decision_and_outcome]. *)
Definition explanation (pid : Z) (visible_severity true_severity_at_decision : SeverityLevel)
    (decision : TriageDecision) (treated_this_round died : bool) : string :=
  let visible_text := _describe_severity visible_severity in
  let true_text := _describe_severity true_severity_at_decision in
  let outcome_text := if died then "died this round" else "survived this round" in
  let uncertainty_part :=
    if negb (SeverityLevel_eqb visible_severity true_severity_at_decision) then
      fstring ["Note: the patient appeared "; visible_text; ", ";
               "but was actually "; true_text;
               ", illustrating diagnostic uncertainty."]
    else
      fstring ["In this case, the visible severity ("; visible_text; ") matched ";
               "the true severity, so uncertainty played a smaller role."] in
  let treatment_part :=
    if treated_this_round
    then "You allocated scarce beds/staff to this patient."
    else "You did not allocate full treatment capacity this round." in
  fstring ["Patient "; str pid; ": appeared "; visible_text;
           ", true severity "; true_text; ". ";
           "You chose to "; decision_label decision; ", which was ";
           quality decision true_severity_at_decision; ". ";
           "As a result, the patient "; outcome_text; ". ";
           treatment_part; " "; uncertainty_part].

Definition _explain_decision_and_outcome (summary : RoundSummary)
    (patient : Patient) (visible_severity true_severity_at_decision : SeverityLevel)
    (decision : TriageDecision) (treated_this_round died : bool) : RoundSummary :=
  add_note summary
    (explanation (id patient) visible_severity true_severity_at_decision
                 decision treated_this_round died).

(** The two notes of the bed-outage branch of [_apply_environment_shocks]. *)
Definition bed_outage_scenario : string :=
  ("Scenario: A burst pipe floods one of the surgical wards. "
   ++ "Facilities management has to close several rooms for emergency repairs, "
   ++ "leaving you with fewer usable beds.")%string.

Definition bed_outage_event (original new_beds : Z) : string :=
  fstring ["Environment event: a ward outage made some beds unavailable ";
           "("; str original; " → "; str new_beds; " beds) this round, tightening your ";
           "capacity for new admissions."].

Definition _apply_environment_shocks (game_state : GameState)
    (summary : RoundSummary) (base_deterioration_prob : float) (r : Rng)
    : option (float * GameState * RoundSummary * Rng) :=
  match difficulty game_state with
  | BASIC => Some (base_deterioration_prob, game_state, summary, r)
  | STOCHASTIC =>
      let h := hospital game_state in
      let (roll, r) := rng_random r in
      if (roll <? 0.20)%float then
        let original := staff_capacity_this_round h in
        match int_to_float original with
        | None => None
        | Some original_f =>
            match py_round (original_f * 0.6)%float with
            | None => None
            | Some rounded =>
                let new_capacity := Z.max 1 rounded in
                let h := set_staff_capacity_this_round h new_capacity in
                let summary := add_note summary
                  ("Scenario: A respiratory virus has spread among hospital staff. "
                   ++ "Several nurses and residents call in sick just before the shift, "
                   ++ "forcing you to manage with fewer people on the floor.")%string in
                let summary := add_note summary
                  (fstring
                     ["Environment event: unexpected staff shortage reduced staff capacity ";
                      "from "; str original; " to "; str new_capacity;
                      " this round, making 'Treat now' ";
                      "decisions more expensive."]) in
                Some (base_deterioration_prob, set_hospital game_state h, summary, r)
            end
        end
      else if (roll <? 0.40)%float then
        let original := available_beds h in
        if 0 <? original then
          let reduction := Z.max 1 (original / 2) in
          let new_beds := Z.max 0 (original - reduction) in
          let h := set_available_beds h new_beds in
          let summary := add_note summary bed_outage_scenario in
          let summary := add_note summary (bed_outage_event original new_beds) in
          Some (base_deterioration_prob, set_hospital game_state h, summary, r)
        else Some (base_deterioration_prob, game_state, summary, r)
      else if (roll <? 0.60)%float then
        let new_prob := py_min 0.9 (base_deterioration_prob * 1.7)%float in
        let summary := add_note summary
          ("Scenario: A multi-vehicle highway collision and a local festival outbreak "
           ++ "hit the region at the same time. Incoming patients are more unstable, "
           ++ "and those waiting in the hospital are at higher risk of sudden decline.")%string in
        let summary := add_note summary
          ("Environment event: deterioration risk for untreated patients increased "
           ++ "this round due to the external surge in severe cases.")%string in
        Some (new_prob, game_state, summary, r)
      else
        let (quiet_roll, r) := rng_random r in
        if (quiet_roll <? 0.5)%float then
          Some (base_deterioration_prob, game_state,
                add_note summary
                  ("Scenario: This round represents a relatively routine shift. "
                   ++ "Uncertainty still exists at the patient level, but there are no "
                   ++ "major external disruptions to hospital operations.")%string, r)
        else
          Some (base_deterioration_prob, game_state,
                add_note summary
                  ("Scenario: Community conditions are stable this round. "
                   ++ "Your main challenge is triaging with incomplete information "
                   ++ "rather than reacting to large external crises.")%string, r)
  end.

(* ===================================================================== *)
(** ** stochastic_model.py: public API *)
(* ===================================================================== *)

Definition set_next_patient_id (g : GameState) (n : Z) : GameState :=
  mkGame (difficulty g) (current_round g) (patients g) (history g) (hospital g) n.

(** The body of [for _ in range(num_new)], run [n] times. *)
Fixpoint generate_loop (n : nat) (severe_prob : float) (game_state : GameState)
    (new_patients : list Patient) (r : Rng) : list Patient * GameState * Rng :=
  match n with
  | O => (new_patients, game_state, r)
  | S n =>
      let (true_severity, r) := _sample_true_severity severe_prob r in
      let (visible_severity, r) :=
        _noisy_visible_severity true_severity (difficulty game_state) r in
      let pid := next_patient_id game_state in
      let game_state := set_next_patient_id game_state (next_patient_id game_state + 1) in
      let name := fstring ["Patient "; str pid] in
      let p := new_patient pid name visible_severity true_severity
                           (current_round game_state) in
      let game_state := set_patients game_state (patients game_state ++ [p]) in
      generate_loop n severe_prob game_state (new_patients ++ [p]) r
  end.

Definition generate_new_patients_for_round (game_state : GameState) (r : Rng)
    : list Patient * GameState * Rng :=
  let (min_p, max_p) := _patients_per_round (difficulty game_state) in
  let severe_prob := _severe_probability (difficulty game_state) in
  let (num_new, r) := rng_randint min_p max_p r in
  generate_loop (Z.to_nat num_new) severe_prob game_state [] r.

(** What [apply_player_decisions] has in hand between two statements: the game
    state, the summary under construction and the generator. *)
Record RoundState := mkRound {
  rs_game : GameState;
  rs_summary : RoundSummary;
  rs_rng : Rng
}.

Definition coercion_note (pid : Z) : string :=
  fstring ["Patient "; str pid; ": you attempted to treat, ";
           "but there were no beds or staff left, so the decision ";
           "effectively became 'defer'."].

(** "For treat / monitor / defer, compute outcome": the tail of the loop body,
    reached with the decision as it stands after a possible coercion. *)
Definition resolve_outcome (st : RoundState) (pid : Z) (patient : Patient)
    (visible_at_decision true_severity_at_decision : SeverityLevel)
    (decision : TriageDecision) (treated_this_round : bool) : RoundState :=
  let death_prob :=
    _death_probability (severity_hidden_true patient) treated_this_round decision in
  let (x, r) := rng_random (rs_rng st) in
  let died := (x <? death_prob)%float in
  let patient := if died then set_is_alive patient false else patient in
  let summary := if died then add_died (rs_summary st) pid else rs_summary st in
  let game_state := store_patient (rs_game st) patient in
  let game_state := _update_metrics_for_patient_outcome game_state patient died decision in
  let summary :=
    _explain_decision_and_outcome summary patient visible_at_decision
      true_severity_at_decision decision treated_this_round died in
  mkRound game_state summary r.

(** The [TRANSFER] branch, which ends in [continue]. *)
Definition transfer_patient (st : RoundState) (pid : Z) (patient : Patient)
    (visible_at_decision true_severity_at_decision : SeverityLevel) : RoundState :=
  let decision := TRANSFER in
  let patient := set_has_left patient true in
  let death_prob := _death_probability (severity_hidden_true patient) false decision in
  let (x, r) := rng_random (rs_rng st) in
  let died := (x <? death_prob)%float in
  let patient := set_is_alive patient (negb died) in
  let summary := if died then add_died (rs_summary st) pid else rs_summary st in
  let game_state := store_patient (rs_game st) patient in
  let game_state := _update_metrics_for_patient_outcome game_state patient died decision in
  let summary :=
    _explain_decision_and_outcome summary patient visible_at_decision
      true_severity_at_decision decision false died in
  mkRound game_state summary r.

(** One turn of [for pid, decision in decisions.items()]. *)
Definition decision_step (st : RoundState) (entry : Z * TriageDecision) : RoundState :=
  let (pid, decision) := entry in
  match get_patient_by_id (rs_game st) pid with
  | None => st
  | Some patient =>
      if negb (is_alive patient) || has_left patient then st
      else
        let true_severity_at_decision := severity_hidden_true patient in
        let visible_at_decision := severity_visible patient in
        match decision with
        | TREAT_NOW =>
            let h := hospital (rs_game st) in
            if (0 <? staff_capacity_this_round h) && (0 <? available_beds h) then
              let patient := set_is_treated patient true in
              let h := set_staff_capacity_this_round h (staff_capacity_this_round h - 1) in
              let h := set_available_beds h (available_beds h - 1) in
              let game_state := set_hospital (store_patient (rs_game st) patient) h in
              let summary := add_treated (rs_summary st) pid in
              resolve_outcome (mkRound game_state summary (rs_rng st)) pid patient
                visible_at_decision true_severity_at_decision TREAT_NOW true
            else
              let summary := add_note (rs_summary st) (coercion_note (id patient)) in
              resolve_outcome (mkRound (rs_game st) summary (rs_rng st)) pid patient
                visible_at_decision true_severity_at_decision DEFER false
        | TRANSFER =>
            transfer_patient st pid patient visible_at_decision true_severity_at_decision
        | MONITOR | DEFER =>
            resolve_outcome st pid patient visible_at_decision
              true_severity_at_decision decision false
        end
  end.

Definition deterioration_note (pid : Z) : string :=
  fstring ["Patient "; str pid; ": condition deteriorated due to the ";
           "stochastic environment (random health changes over time). ";
           "This models how patients can worsen even without a new decision."].

(** "2) Deterioration": [for patient in game_state.patients], handing back the
    roster with every patient as the loop left it. *)
Fixpoint deterioration_pass (game_state : GameState) (roster : list Patient)
    (deterioration_prob : float) (summary : RoundSummary) (r : Rng)
    : list Patient * RoundSummary * Rng :=
  match roster with
  | [] => ([], summary, r)
  | patient :: rest =>
      if negb (is_alive patient) || has_left patient then
        let '(rest, summary, r) :=
          deterioration_pass game_state rest deterioration_prob summary r in
        (patient :: rest, summary, r)
      else if is_treated patient then
        let '(rest, summary, r) :=
          deterioration_pass game_state rest deterioration_prob summary r in
        (patient :: rest, summary, r)
      else
        let '(worsened, patient, r) :=
          _deteriorate_severity_if_needed game_state patient deterioration_prob r in
        let summary :=
          if worsened
          then add_note (add_deteriorated summary (id patient))
                        (deterioration_note (id patient))
          else summary in
        let '(rest, summary, r) :=
          deterioration_pass game_state rest deterioration_prob summary r in
        (patient :: rest, summary, r)
  end.

(** "3) Recompute available beds": the count the loop accumulates. *)
Fixpoint occupied_beds (roster : list Patient) : Z :=
  match roster with
  | [] => 0
  | p :: rest =>
      (if is_alive p && is_treated p && negb (has_left p) then 1 else 0)
      + occupied_beds rest
  end.

Definition set_decisions (s : RoundSummary) (d : list (Z * TriageDecision))
    : RoundSummary :=
  mkSummary (round_number s) d (patients_treated s) (patients_died s)
            (patients_deteriorated s) (notes s).

(** Steps 2 and 3 and the final clamp of [apply_player_decisions]: what
    follows the loop over the decisions. *)
Definition finish_round (deterioration_prob : float) (st : RoundState) : RoundState :=
  let '(roster, summary, r) :=
    deterioration_pass (rs_game st) (patients (rs_game st)) deterioration_prob
                       (rs_summary st) (rs_rng st) in
  let game_state := set_patients (rs_game st) roster in
  let h := hospital game_state in
  let h := set_available_beds h
             (Z.max 0 (MAX_BEDS - occupied_beds (patients game_state))) in
  let h := clamp_metrics h in
  mkRound (set_hospital game_state h) summary r.

(** What precedes the loop: the fresh summary with a copy of the submitted
    map, the base deterioration probability and the environment shock. *)
Definition start_round (game_state : GameState)
    (submitted : list (Z * TriageDecision)) (r : Rng) : option (float * RoundState) :=
  let summary := new_summary (current_round game_state) in
  let summary := set_decisions summary submitted in
  let deterioration_prob := _deterioration_probability (difficulty game_state) in
  match _apply_environment_shocks game_state summary deterioration_prob r with
  | None => None
  | Some (deterioration_prob, game_state, summary, r) =>
      Some (deterioration_prob, mkRound game_state summary r)
  end.

Definition apply_player_decisions (game_state : GameState)
    (submitted : list (Z * TriageDecision)) (r : Rng) : option RoundState :=
  match start_round game_state submitted r with
  | None => None
  | Some (deterioration_prob, st) =>
      Some (finish_round deterioration_prob (fold_left decision_step submitted st))
  end.

(** The state of the loop when it reaches the [k]-th entry of the submitted
    map: the entries before it have been processed. *)
Definition state_at (game_state : GameState) (submitted : list (Z * TriageDecision))
    (r : Rng) (k : nat) : option RoundState :=
  match start_round game_state submitted r with
  | None => None
  | Some (_, st) => Some (fold_left decision_step (firstn k submitted) st)
  end.

(* ===================================================================== *)
(** ** Vocabulary of the properties *)
(* ===================================================================== *)

(** A metric lies in [0,100]. *)
Definition metric_in_range (x : float) : bool :=
  ((0.0 <=? x) && (x <=? 100.0))%float.

(** The beds that treated, living, present patients occupy never exceed what
    the hospital has, and the free beds are not negative. *)
Definition beds_consistent (g : GameState) : Prop :=
  0 <= available_beds (hospital g)
  /\ occupied_beds (patients g) + available_beds (hospital g) <= MAX_BEDS.

Definition staff_in_range (g : GameState) : Prop :=
  0 <= staff_capacity_this_round (hospital g) <= MAX_STAFF_CAPACITY.

(** The states a game goes through: a new game, then any sequence of the
    engine's two operations and of the two [GameState] methods the caller runs
    between rounds. *)
Inductive reachable : GameState -> Prop :=
| reach_new (d : DifficultyLevel) : reachable (new_game d)
| reach_generate (g : GameState) (r : Rng) :
    reachable g ->
    reachable (snd (fst (generate_new_patients_for_round g r)))
| reach_apply (g : GameState) (submitted : list (Z * TriageDecision)) (r : Rng)
    (out : RoundState) :
    reachable g ->
    apply_player_decisions g submitted r = Some out ->
    reachable (rs_game out)
| reach_summary (g : GameState) (s : RoundSummary) :
    reachable g -> reachable (add_round_summary g s)
| reach_increment (g : GameState) :
    reachable g -> reachable (increment_round g).

(** What a round never rewrites in a patient. *)
Definition patient_identity (p : Patient) : Z * string * SeverityLevel * Z :=
  (id p, name p, severity_visible p, arrival_round p).

(** The next float the generator will hand out. *)
Definition next_float (r : Rng) : float := as_float (tape r (cursor r)).

Definition metrics_in_range (h : HospitalState) : Prop :=
  metric_in_range (survival_score h) = true
  /\ metric_in_range (staff_stress h) = true
  /\ metric_in_range (reputation h) = true.

(** Sample inputs: a generator reading a finite list of draws (and a late
    draw of 0.99 past its end), and games built by the engine itself. *)
Definition draws (l : list Draw) : Rng :=
  mkRng (fun n => nth n l (mkDraw 0.99 0)) 0.

Definition flt (x : float) : Draw := mkDraw x 0.

Definition sample_basic_game : GameState :=
  snd (fst (generate_new_patients_for_round (new_game BASIC)
              (draws [mkDraw 0 0; flt 0.1; flt 0.7; flt 0.9; mkDraw 0 1;
                      flt 0.5; flt 0.2; flt 0.1; flt 0.9; flt 0.9]))).

Definition sample_decisions : list (Z * TriageDecision) :=
  [(1, TREAT_NOW); (2, TRANSFER); (3, DEFER)].

Definition sample_round_draws : Rng :=
  draws [flt 0.5; flt 0.01; flt 0.5; flt 0.1; flt 0.6].

Definition result_of (o : option RoundState) (fallback : RoundState) : RoundState :=
  match o with
  | Some st => st
  | None => fallback
  end.

Definition sample_basic_result : RoundState :=
  result_of (apply_player_decisions sample_basic_game sample_decisions sample_round_draws)
            (mkRound sample_basic_game (new_summary 0) sample_round_draws).

(** The death-probability table as the design document words it: a base rate
    by severity and a multiplier by treatment and decision. *)
Definition claimed_base_rate (sev : SeverityLevel) : float :=
  match sev with
  | MILD => 0.01
  | MODERATE => 0.05
  | SEVERE => 0.15
  | CRITICAL => 0.30
  end.

Definition claimed_multiplier (sev : SeverityLevel) (treated : bool)
    (decision : TriageDecision) : float :=
  if treated then
    match sev with
    | SEVERE | CRITICAL => 0.25
    | MILD | MODERATE => 0.10
    end
  else
    match decision with
    | MONITOR => 1.2
    | DEFER => 2.0
    | TRANSFER => 1.5
    | TREAT_NOW => 1.0
    end.

(** The bed-outage sentence of the design document, read at one call of
    [_apply_environment_shocks]: the beds go down by [max(1, beds // 2)], not
    below 0, and two notes are appended, the framing and the change. *)
Definition bed_outage_as_claimed (g : GameState) (summary : RoundSummary)
    (base : float) (r : Rng) : Prop :=
  let original := available_beds (hospital g) in
  exists prob g' summary' r' framing change,
    _apply_environment_shocks g summary base r = Some (prob, g', summary', r')
    /\ available_beds (hospital g') = Z.max 0 (original - Z.max 1 (original / 2))
    /\ notes summary' = notes summary ++ [framing; change].

(** A Stochastic game with the given number of free beds, and a generator
    whose next draw, the shock roll, is 0.3. *)
Definition stochastic_game_with_beds (beds : Z) : GameState :=
  set_hospital (new_game STOCHASTIC) (set_available_beds new_hospital beds).

Definition outage_roll : Rng := draws [flt 0.3].

Definition sample_patient : Patient := new_patient 7 "Patient 7" MODERATE SEVERE 2.

Definition sample_patient_later : Patient :=
  mkPatient 7 "Renamed" MILD CRITICAL 3 true true false.

Definition sample_summary : RoundSummary :=
  add_note (new_summary 2) "An earlier note.".

(** One if the patient occupies a bed, else zero: the summand of
    [occupied_beds]. *)
Definition occupies_bed (p : Patient) : Z :=
  if is_alive p && is_treated p && negb (has_left p) then 1 else 0.

(** What [apply_player_decisions] leaves alone in the game state. *)
Definition same_frame (g g' : GameState) : Prop :=
  current_round g' = current_round g
  /\ difficulty g' = difficulty g
  /\ next_patient_id g' = next_patient_id g
  /\ history g' = history g
  /\ map patient_identity (patients g') = map patient_identity (patients g).

(** The summary only grows during a round: the recorded decision map and the
    round number stay, and notes are appended. *)
Definition summary_grows (s s' : RoundSummary) : Prop :=
  decisions s' = decisions s
  /\ round_number s' = round_number s
  /\ exists more : list string, notes s' = notes s ++ more.

(** The loop state of the sample round when it reaches its entry number [k]. *)
Definition sample_state_at (k : nat) : RoundState :=
  result_of (state_at sample_basic_game sample_decisions sample_round_draws k)
            (mkRound sample_basic_game (new_summary 0) sample_round_draws).

(** A round on a full hospital: the three sample patients, no bed free. *)
Definition sample_full_game : GameState :=
  set_hospital sample_basic_game (set_available_beds new_hospital 0).

Definition sample_full_decisions : list (Z * TriageDecision) :=
  [(3, MONITOR); (1, TREAT_NOW); (2, TRANSFER)].

Definition sample_full_state_at (k : nat) : RoundState :=
  result_of (state_at sample_full_game sample_full_decisions sample_round_draws k)
            (mkRound sample_full_game (new_summary 0) sample_round_draws).

Definition sample_full_result : RoundState :=
  result_of (apply_player_decisions sample_full_game sample_full_decisions
               sample_round_draws)
            (mkRound sample_full_game (new_summary 0) sample_round_draws).

Definition sample_critical_patient : Patient :=
  new_patient 1 "Patient 1" CRITICAL CRITICAL 1.

Definition sample_mild_patient : Patient :=
  new_patient 2 "Patient 2" MILD MILD 1.

(** Reads fields through the field assignments, and nothing else. *)
Ltac read_fields :=
  cbn [rs_game rs_summary rs_rng fst snd
       difficulty current_round patients history hospital next_patient_id
       available_beds staff_capacity_this_round survival_score staff_stress reputation
       set_hospital set_patients set_next_patient_id store_patient
       set_available_beds set_staff_capacity_this_round set_survival_score
       set_staff_stress set_reputation clamp_metrics] in *.

(** A Stochastic game played by the engine until no bed is free: four of the
    first arrivals are treated in round 1, a fifth patient in round 2, and
    every draw is the late draw 0.99, so that nobody dies and no shock hits. *)
Definition full_ward_round_1 : GameState :=
  snd (fst (generate_new_patients_for_round (new_game STOCHASTIC) (draws []))).

Definition full_ward_result_1 : RoundState :=
  result_of (apply_player_decisions full_ward_round_1
               [(1, TREAT_NOW); (2, TREAT_NOW); (3, TREAT_NOW); (4, TREAT_NOW)]
               (draws []))
            (mkRound full_ward_round_1 (new_summary 0) (draws [])).

Definition full_ward_round_2 : GameState :=
  snd (fst (generate_new_patients_for_round
              (increment_round
                 (add_round_summary (rs_game full_ward_result_1)
                                    (rs_summary full_ward_result_1)))
              (draws []))).

Definition full_ward_result_2 : RoundState :=
  result_of (apply_player_decisions full_ward_round_2 [(5, TREAT_NOW)] (draws []))
            (mkRound full_ward_round_2 (new_summary 0) (draws [])).

Definition full_ward_game : GameState :=
  increment_round
    (add_round_summary (rs_game full_ward_result_2) (rs_summary full_ward_result_2)).

(** The largest offset [_noisy_visible_severity] can draw on a tier. *)
Definition noise_bound (d : DifficultyLevel) : Z :=
  match d with
  | BASIC => 1
  | STOCHASTIC => 2
  end.

(** A patient as [generate_new_patients_for_round] creates it in state [g]. *)
Definition freshly_arrived (g : GameState) (p : Patient) : Prop :=
  is_alive p = true /\ is_treated p = false /\ has_left p = false
  /\ arrival_round p = current_round g
  /\ name p = fstring ["Patient "; str (id p)]
  /\ Z.abs (_severity_to_int (severity_visible p)
            - _severity_to_int (severity_hidden_true p))
     <= noise_bound (difficulty g).

(** Ids are handed out once: the roster has no two patients with the same id,
    and every id is at least 1 and below the next id to hand out. *)
Definition ids_in_order (g : GameState) : Prop :=
  NoDup (map id (patients g))
  /\ Forall (fun i => 1 <= i < next_patient_id g) (map id (patients g))
  /\ 1 <= next_patient_id g.

(** Splits a conjunction and nothing else. *)
Ltac split_ands := repeat match goal with |- _ /\ _ => split end.

(** What a round may do to one roster entry: the identity stays; a dead
    patient stays dead, a departed one stays away, a treated one stays marked;
    the true severity does not improve; and an entry that is dead or has left
    when the round starts is not written at all. *)
Definition only_advances (p p' : Patient) : Prop :=
  patient_identity p' = patient_identity p
  /\ (is_alive p = false -> is_alive p' = false)
  /\ (has_left p = true -> has_left p' = true)
  /\ (is_treated p = true -> is_treated p' = true)
  /\ _severity_to_int (severity_hidden_true p)
     <= _severity_to_int (severity_hidden_true p')
     <= _severity_to_int (severity_hidden_true p) + 1
  /\ (is_alive p = false \/ has_left p = true -> p' = p).

(** The entry names no patient the loop would process: the id is not in the
    roster, or its patient is dead or has left. *)
Definition stale_entry (g : GameState) (entry : Z * TriageDecision) : Prop :=
  match get_patient_by_id g (fst entry) with
  | None => True
  | Some p => is_alive p = false \/ has_left p = true
  end.

(** What the decision loop may do to one roster entry: as [only_advances],
    with the true severity untouched. *)
Definition turns_advance (p p' : Patient) : Prop :=
  patient_identity p' = patient_identity p
  /\ severity_hidden_true p' = severity_hidden_true p
  /\ (is_alive p = false -> is_alive p' = false)
  /\ (has_left p = true -> has_left p' = true)
  /\ (is_treated p = true -> is_treated p' = true)
  /\ (is_alive p = false \/ has_left p = true -> p' = p).

(** What the deterioration pass may do to one roster entry: nothing, or one
    rank up for a patient that is alive, untreated, present and not yet
    Critical. *)
Definition may_deteriorate (p p' : Patient) : Prop :=
  p' = p
  \/ (is_alive p = true /\ is_treated p = false /\ has_left p = false
      /\ _severity_to_int (severity_hidden_true p) < 3
      /\ p' = set_severity_hidden_true p
                (_int_to_severity (_severity_to_int (severity_hidden_true p) + 1))).



(* ===================================================================== *)
(** ** Properties *)
(* ===================================================================== *)

(** *** Comparisons of binary64 floats *)

Lemma SFcompare_swap (a b : spec_float) :
  SFcompare b a = option_map CompOpp (SFcompare a b).
Proof.
  destruct a as [sa|sa| |sa ma ea], b as [sb|sb| |sb mb eb]; simpl;
    try reflexivity;
    try (destruct sa; reflexivity); try (destruct sb; reflexivity);
    try (destruct sa, sb; reflexivity).
  destruct sa, sb; simpl; try reflexivity;
    rewrite (Z.compare_antisym ea eb);
    destruct (ea ?= eb)%Z; simpl; try reflexivity;
    change (Pos.compare_cont Eq mb ma) with (Pos.compare mb ma);
    change (Pos.compare_cont Eq ma mb) with (Pos.compare ma mb);
    rewrite (Pos.compare_antisym ma mb); destruct (ma ?= mb)%positive; reflexivity.
Qed.

Lemma ltb_leb (a b : float) : (a <? b)%float = true -> (a <=? b)%float = true.
Proof.
  rewrite ltb_spec, leb_spec. unfold SFltb, SFleb.
  destruct (SFcompare (Prim2SF a) (Prim2SF b)) as [[]|]; congruence.
Qed.

Lemma leb_not_ltb (a b : float) : (a <=? b)%float = true -> (b <? a)%float = false.
Proof.
  rewrite ltb_spec, leb_spec. unfold SFltb, SFleb.
  rewrite (SFcompare_swap (Prim2SF a) (Prim2SF b)).
  destruct (SFcompare (Prim2SF a) (Prim2SF b)) as [[]|]; simpl; congruence.
Qed.

Lemma clamp_metric_in_range (x : float) : metric_in_range (clamp_metric x) = true.
Proof.
  unfold clamp_metric, py_min, py_max, metric_in_range.
  destruct (x <? 100.0)%float eqn:Hhi.
  - destruct (0.0 <? x)%float eqn:Hlo.
    + rewrite (ltb_leb _ _ Hlo), (ltb_leb _ _ Hhi). reflexivity.
    + reflexivity.
  - reflexivity.
Qed.

(** *** Metrics stay in [0,100] *)

Lemma clamp_metrics_in_range (h : HospitalState) : metrics_in_range (clamp_metrics h).
Proof.
  unfold metrics_in_range, clamp_metrics; simpl.
  repeat split; apply clamp_metric_in_range.
Qed.

Lemma update_metrics_in_range (g : GameState) (p : Patient) (died : bool)
    (decision : TriageDecision) :
  metrics_in_range (hospital (_update_metrics_for_patient_outcome g p died decision)).
Proof.
  unfold _update_metrics_for_patient_outcome; simpl. apply clamp_metrics_in_range.
Qed.

Lemma finish_round_hospital (prob : float) (st : RoundState) :
  exists h, hospital (rs_game (finish_round prob st)) = clamp_metrics h.
Proof.
  unfold finish_round.
  destruct (deterioration_pass _ _ _ _ _) as [[roster summary] r]; simpl.
  eexists; reflexivity.
Qed.

(** C1. Whatever the game state, the submitted decisions and the draws, when
    [apply_player_decisions] returns, the survival score, the staff stress and
    the reputation of the hospital all lie in [0,100]. *)
Theorem apply_player_decisions_metrics_in_range :
  forall (g : GameState) (submitted : list (Z * TriageDecision)) (r : Rng)
         (out : RoundState),
    apply_player_decisions g submitted r = Some out ->
    metric_in_range (survival_score (hospital (rs_game out))) = true
    /\ metric_in_range (staff_stress (hospital (rs_game out))) = true
    /\ metric_in_range (reputation (hospital (rs_game out))) = true.
Proof.
  intros g submitted r out Hrun.
  unfold apply_player_decisions in Hrun.
  destruct (start_round g submitted r) as [[prob st]|]; [|discriminate].
  injection Hrun as <-.
  destruct (finish_round_hospital prob (fold_left decision_step submitted st)) as [h ->].
  apply clamp_metrics_in_range.
Qed.

Lemma apply_player_decisions_metrics_in_range_witness :
  metric_in_range (survival_score (hospital (rs_game sample_basic_result))) = true
  /\ metric_in_range (staff_stress (hospital (rs_game sample_basic_result))) = true
  /\ metric_in_range (reputation (hospital (rs_game sample_basic_result))) = true.
Proof.
  apply (apply_player_decisions_metrics_in_range
           sample_basic_game sample_decisions sample_round_draws sample_basic_result).
  vm_compute. reflexivity.
Defined.

(** *** The severity and probability model *)

(** C3. For every true severity, treatment flag and decision,
    [_death_probability] is the base rate of the severity (0.01, 0.05, 0.15,
    0.30) times 0.25 for a treated Severe or Critical patient, 0.10 for any
    other treated patient, and for an untreated one 1.2 under Monitor, 2.0
    under Defer, 1.5 under Transfer and 1.0 otherwise; a treated Critical
    patient gets 0.30 * 0.25 = 0.075. *)
Theorem death_probability_table :
  forall (sev : SeverityLevel) (treated : bool) (decision : TriageDecision),
    _death_probability sev treated decision
    = (claimed_base_rate sev * claimed_multiplier sev treated decision)%float
    /\ _death_probability CRITICAL true decision = (0.30 * 0.25)%float
    /\ _death_probability CRITICAL true decision = 0.075%float.
Proof.
  intros sev treated decision.
  repeat split; destruct sev, treated, decision; reflexivity.
Qed.

Lemma severity_to_int_range (sev : SeverityLevel) : 0 <= _severity_to_int sev <= 3.
Proof. destruct sev; simpl; lia. Qed.

Lemma int_to_severity_rank (idx : Z) :
  _severity_to_int (_int_to_severity idx) = Z.max 0 (Z.min 3 idx).
Proof.
  unfold _int_to_severity.
  destruct (Z.max 0 (Z.min 3 idx) =? 0) eqn:E0; [simpl; lia|].
  destruct (Z.max 0 (Z.min 3 idx) =? 1) eqn:E1; [simpl; lia|].
  destruct (Z.max 0 (Z.min 3 idx) =? 2) eqn:E2; [simpl; lia|].
  simpl; lia.
Qed.

(** C6. [_deteriorate_severity_if_needed] never lowers the rank of the true
    severity and never takes it past Critical (rank 3); unless the patient is
    alive, untreated and still present it answers [false], changes nothing and
    draws nothing; when it answers [true] the rank went up by exactly one, and
    when it answers [false] the patient is unchanged. *)
Theorem deteriorate_severity_monotone :
  forall (g : GameState) (p : Patient) (prob : float) (r : Rng),
    let '(worsened, p', r') := _deteriorate_severity_if_needed g p prob r in
    _severity_to_int (severity_hidden_true p)
      <= _severity_to_int (severity_hidden_true p') <= 3
    /\ (is_alive p && negb (is_treated p) && negb (has_left p) = false ->
        worsened = false /\ p' = p /\ r' = r)
    /\ (worsened = true ->
        _severity_to_int (severity_hidden_true p')
        = _severity_to_int (severity_hidden_true p) + 1)
    /\ (worsened = false -> p' = p).
Proof.
  intros g p prob r. unfold _deteriorate_severity_if_needed.
  pose proof (severity_to_int_range (severity_hidden_true p)) as Hrank.
  destruct (is_alive p), (is_treated p), (has_left p); simpl;
    try (repeat split; (lia || congruence || discriminate)).
  destruct (as_float (tape r (cursor r)) <? prob)%float; simpl.
  - destruct (_severity_to_int (severity_hidden_true p) <? 3) eqn:Hlt; simpl.
    + apply Z.ltb_lt in Hlt. rewrite int_to_severity_rank.
      repeat split; (lia || congruence || discriminate).
    + repeat split; (lia || congruence || discriminate).
  - repeat split; (lia || congruence || discriminate).
Qed.

Lemma SFltb_trans (a b c : spec_float) :
  SFltb a b = true -> SFltb b c = true -> SFltb a c = true.
Proof.
  unfold SFltb, SFcompare.
  destruct a as [sa|sa| |sa ma ea], b as [sb|sb| |sb mb eb], c as [sc|sc| |sc mc ec];
    try discriminate;
    try (destruct sa; try discriminate); try (destruct sb; try discriminate);
    try (destruct sc; try discriminate); try reflexivity;
    change (Pos.compare_cont Eq ma mb) with (Pos.compare ma mb);
    change (Pos.compare_cont Eq mb mc) with (Pos.compare mb mc);
    change (Pos.compare_cont Eq ma mc) with (Pos.compare ma mc);
    destruct (Z.compare_spec ea eb), (Z.compare_spec eb ec), (Z.compare_spec ea ec);
    try discriminate; try reflexivity; try lia; subst;
    destruct (Pos.compare_spec ma mb), (Pos.compare_spec mb mc),
             (Pos.compare_spec ma mc);
    simpl; try discriminate; try reflexivity; try lia.
Qed.

Lemma ltb_trans (a b c : float) :
  (a <? b)%float = true -> (b <? c)%float = true -> (a <? c)%float = true.
Proof. rewrite !ltb_spec. apply SFltb_trans. Qed.

Lemma choice_of_two (a b : Z) (r : Rng) :
  snd (rng_choice a [b] r) = advance r
  /\ (fst (rng_choice a [b] r) = a \/ fst (rng_choice a [b] r) = b).
Proof.
  unfold rng_choice, rng_randbelow. cbn [fst snd List.length].
  split; [reflexivity|].
  assert (Hlt : (as_index (tape r (cursor r)) mod 2 < 2)%nat)
    by (apply Nat.mod_upper_bound; discriminate).
  destruct (as_index (tape r (cursor r)) mod 2)%nat as [|[|k]]; simpl; auto.
  exfalso. lia.
Qed.

Lemma choice_of_two_pick (a b : Z) (r : Rng) :
  fst (rng_choice a [b] r)
  = if (as_index (tape r (cursor r)) mod 2 =? 0)%nat then a else b.
Proof.
  unfold rng_choice, rng_randbelow. cbn [fst snd List.length].
  assert (Hlt : (as_index (tape r (cursor r)) mod 2 < 2)%nat)
    by (apply Nat.mod_upper_bound; discriminate).
  destruct (as_index (tape r (cursor r)) mod 2)%nat as [|[|k]]; simpl; auto.
  exfalso. lia.
Qed.

(** C7. [_noisy_visible_severity] adds an integer offset to the rank of the
    true severity and clamps the sum to [0,3].  On Basic the offset is 0 when
    the first draw is below 0.8 and -1 or +1 otherwise; on Stochastic it is 0
    below 0.6, -1 or +1 in [0.6,0.9) and -2 or +2 from 0.9 on.  A nonzero
    offset costs exactly one more draw, and that draw picks the sign:
    [choice([-k, k])] answers [-k] when the draw lands on index 0 and [+k]
    when it lands on index 1, so both signs occur.  A zero offset costs no
    further draw. *)
Theorem noisy_visible_severity_offset :
  forall (sev : SeverityLevel) (d : DifficultyLevel) (r : Rng),
    let x := next_float r in
    let pick := (as_index (tape r (S (cursor r))) mod 2)%nat in
    let sign := if (pick =? 0)%nat then -1 else 1 in
    let '(vis, r') := _noisy_visible_severity sev d r in
    exists delta : Z,
      _severity_to_int vis = Z.max 0 (Z.min 3 (_severity_to_int sev + delta))
      /\ (delta = 0 -> r' = advance r)
      /\ (delta <> 0 -> r' = advance (advance r))
      /\ match d with
         | BASIC =>
             ((x <? 0.8)%float = true -> delta = 0)
             /\ ((x <? 0.8)%float = false ->
                 (delta = -1 \/ delta = 1) /\ delta = sign * 1)
         | STOCHASTIC =>
             ((x <? 0.6)%float = true -> delta = 0)
             /\ ((0.6 <=? x)%float = true -> (x <? 0.9)%float = true ->
                 (delta = -1 \/ delta = 1) /\ delta = sign * 1)
             /\ ((0.9 <=? x)%float = true ->
                 (delta = -2 \/ delta = 2) /\ delta = sign * 2)
         end.
Proof.
  intros sev d r x pick sign.
  unfold _noisy_visible_severity, noise_delta, rng_random.
  fold (next_float r). fold x.
  assert (Hband : (x <? 0.6)%float = true -> (x <? 0.9)%float = true).
  { intros H. apply (ltb_trans x 0.6 0.9 H). reflexivity. }
  assert (Hpick : forall k : Z,
             0 < k ->
             let '(delta, r') := rng_choice (- k) [k] (advance r) in
             r' = advance (advance r)
             /\ delta <> 0
             /\ (delta = - k \/ delta = k)
             /\ delta = sign * k).
  { intros k Hk.
    destruct (choice_of_two (- k) k (advance r)) as [Hr Hv].
    pose proof (choice_of_two_pick (- k) k (advance r)) as Hsign.
    destruct (rng_choice (- k) [k] (advance r)) as [delta r'].
    cbn [fst snd] in Hr, Hv, Hsign. cbn [tape cursor advance] in Hsign.
    fold pick in Hsign.
    split; [exact Hr|]. split; [destruct Hv; lia|]. split; [exact Hv|].
    subst sign. rewrite Hsign. destruct (pick =? 0)%nat; lia. }
  destruct d.
  - destruct (x <? 0.8)%float eqn:H8.
    + exists 0. rewrite int_to_severity_rank.
      split; [reflexivity|]. split; [reflexivity|]. split; [intros H; lia|].
      split; [reflexivity|discriminate].
    + specialize (Hpick 1 ltac:(lia)). change (- (1)) with (-1) in Hpick.
      destruct (rng_choice (-1) [1] (advance r)) as [delta r'].
      destruct Hpick as (Hr & Hnz & Hv & Hs).
      exists delta. rewrite int_to_severity_rank.
      split; [reflexivity|]. split; [intros H; contradiction|].
      split; [intros _; exact Hr|].
      split; [discriminate|]. intros _. split; [exact Hv|exact Hs].
  - destruct (x <? 0.6)%float eqn:H6.
    + exists 0. rewrite int_to_severity_rank.
      split; [reflexivity|]. split; [reflexivity|]. split; [intros H; lia|].
      split; [reflexivity|]. split.
      * intros Hge. apply leb_not_ltb in Hge. congruence.
      * intros Hge. apply leb_not_ltb in Hge. rewrite (Hband eq_refl) in Hge.
        discriminate.
    + destruct (x <? 0.9)%float eqn:H9.
      * specialize (Hpick 1 ltac:(lia)). change (- (1)) with (-1) in Hpick.
        destruct (rng_choice (-1) [1] (advance r)) as [delta r'].
        destruct Hpick as (Hr & Hnz & Hv & Hs).
        exists delta. rewrite int_to_severity_rank.
        split; [reflexivity|]. split; [intros H; contradiction|].
        split; [intros _; exact Hr|].
        split; [discriminate|]. split.
        -- intros _ _. split; [exact Hv|exact Hs].
        -- intros Hge. apply leb_not_ltb in Hge. congruence.
      * specialize (Hpick 2 ltac:(lia)). change (- (2)) with (-2) in Hpick.
        destruct (rng_choice (-2) [2] (advance r)) as [delta r'].
        destruct Hpick as (Hr & Hnz & Hv & Hs).
        exists delta. rewrite int_to_severity_rank.
        split; [reflexivity|]. split; [intros H; contradiction|].
        split; [intros _; exact Hr|].
        split; [discriminate|]. split.
        -- intros _ Hlt. congruence.
        -- intros _. split; [exact Hv|exact Hs].
Qed.

(** *** Environment shocks *)

Lemma bed_outage_branch (g : GameState) (summary : RoundSummary) (base : float)
    (r : Rng) :
  difficulty g = STOCHASTIC ->
  (0.20 <=? next_float r)%float = true ->
  (next_float r <? 0.40)%float = true ->
  _apply_environment_shocks g summary base r
  = let original := available_beds (hospital g) in
    if 0 <? original then
      let new_beds := Z.max 0 (original - Z.max 1 (original / 2)) in
      Some (base, set_hospital g (set_available_beds (hospital g) new_beds),
            add_note (add_note summary bed_outage_scenario)
                     (bed_outage_event original new_beds),
            advance r)
    else Some (base, g, summary, advance r).
Proof.
  intros Hd Hlo Hhi. unfold _apply_environment_shocks, rng_random.
  fold (next_float r). rewrite Hd, (leb_not_ltb _ _ Hlo), Hhi. reflexivity.
Qed.

(** C8, as the code has it.  On the Stochastic tier, when the shock roll lands
    in [0.20,0.40) and at least one bed is free, the free beds go down by
    [max(1, beds // 2)], not below 0 (5 beds become 3), the deterioration
    probability is untouched, and exactly two notes are appended: the scenario
    framing and the change in beds.  When no bed is free, the branch changes
    neither the hospital nor the notes. *)
Theorem bed_outage_when_beds_are_free :
  forall (g : GameState) (summary : RoundSummary) (base : float) (r : Rng),
    difficulty g = STOCHASTIC ->
    (0.20 <=? next_float r)%float = true ->
    (next_float r <? 0.40)%float = true ->
    let original := available_beds (hospital g) in
    let new_beds := Z.max 0 (original - Z.max 1 (original / 2)) in
    (0 < original ->
     _apply_environment_shocks g summary base r
     = Some (base, set_hospital g (set_available_beds (hospital g) new_beds),
             add_note (add_note summary bed_outage_scenario)
                      (bed_outage_event original new_beds),
             advance r)
     /\ bed_outage_as_claimed g summary base r)
    /\ (original = 5 -> new_beds = 3)
    /\ (original <= 0 ->
        _apply_environment_shocks g summary base r = Some (base, g, summary, advance r)).
Proof.
  intros g summary base r Hd Hlo Hhi original new_beds.
  pose proof (bed_outage_branch g summary base r Hd Hlo Hhi) as Hrun.
  cbv zeta in Hrun. fold original in Hrun. fold new_beds in Hrun.
  split; [|split].
  - intros Hpos. apply Z.ltb_lt in Hpos. rewrite Hpos in Hrun.
    split; [exact Hrun|].
    unfold bed_outage_as_claimed. fold original.
    do 6 eexists. split; [exact Hrun|]. split; [reflexivity|].
    simpl. rewrite <- app_assoc. reflexivity.
  - intros H5. unfold new_beds. rewrite H5. reflexivity.
  - intros Hnone. apply Z.ltb_ge in Hnone. rewrite Hnone in Hrun. exact Hrun.
Qed.

Lemma bed_outage_when_beds_are_free_witness :
  _apply_environment_shocks (stochastic_game_with_beds 5) sample_summary 0.35 outage_roll
  = Some (0.35%float, stochastic_game_with_beds 3,
          add_note (add_note sample_summary bed_outage_scenario) (bed_outage_event 5 3),
          advance outage_roll).
Proof.
  apply (bed_outage_when_beds_are_free (stochastic_game_with_beds 5) sample_summary
           0.35 outage_roll); reflexivity || (simpl; lia).
Defined.

(** C8 as worded fails where no bed is free: in a game that the engine has
    played until all five beds are taken, a shock roll of 0.3 makes the branch
    append no note at all. *)
Lemma bed_outage_silent_without_beds :
  reachable full_ward_game
  /\ difficulty full_ward_game = STOCHASTIC
  /\ available_beds (hospital full_ward_game) = 0
  /\ (0.20 <=? next_float outage_roll)%float = true
  /\ (next_float outage_roll <? 0.40)%float = true
  /\ ~ bed_outage_as_claimed full_ward_game sample_summary 0.35 outage_roll.
Proof.
  split.
  { apply reach_increment, reach_summary.
    apply (reach_apply full_ward_round_2 [(5, TREAT_NOW)] (draws []));
      [|vm_compute; reflexivity].
    apply reach_generate, reach_increment, reach_summary.
    apply (reach_apply full_ward_round_1
             [(1, TREAT_NOW); (2, TREAT_NOW); (3, TREAT_NOW); (4, TREAT_NOW)]
             (draws []));
      [|vm_compute; reflexivity].
    apply reach_generate, reach_new. }
  split; [reflexivity|]. split; [vm_compute; reflexivity|].
  split; [reflexivity|]. split; [reflexivity|].
  intros (prob & g' & summary' & r' & framing & change & Hrun & _ & Hnotes).
  rewrite (bed_outage_branch full_ward_game sample_summary 0.35 outage_roll
             eq_refl eq_refl eq_refl) in Hrun.
  change (available_beds (hospital full_ward_game)) with 0 in Hrun.
  cbv zeta in Hrun. cbn [Z.ltb Z.compare] in Hrun. injection Hrun as _ _ <- _.
  apply (f_equal (@List.length string)) in Hnotes.
  rewrite length_app in Hnotes. simpl in Hnotes. lia.
Qed.

(** *** The narrative explanation *)

Lemma resolve_outcome_rng (st : RoundState) (pid : Z) (p : Patient)
    (vis tru : SeverityLevel) (decision : TriageDecision) (treated : bool) :
  rs_rng (resolve_outcome st pid p vis tru decision treated) = advance (rs_rng st).
Proof. reflexivity. Qed.

Lemma transfer_patient_rng (st : RoundState) (pid : Z) (p : Patient)
    (vis tru : SeverityLevel) :
  rs_rng (transfer_patient st pid p vis tru) = advance (rs_rng st).
Proof. reflexivity. Qed.

(** C9. The explanation is determined by its inputs: two calls that agree on
    the patient id, the visible severity, the true severity at decision time,
    the decision after coercion, the treated flag and the death flag append
    the same text, whatever else the patient records and the summaries hold,
    and change nothing else in the summary.  The quality clause inside the
    text is a function of the decision and the true severity alone.  The
    generator is not read: each of the two places that call the explanation
    leaves the generator exactly one draw further, the death sample. *)
Theorem explanation_is_deterministic :
  forall (s1 s2 : RoundSummary) (p1 p2 : Patient) (vis tru : SeverityLevel)
         (decision : TriageDecision) (treated died : bool),
    id p1 = id p2 ->
    (exists text : string,
        _explain_decision_and_outcome s1 p1 vis tru decision treated died
        = add_note s1 text
        /\ _explain_decision_and_outcome s2 p2 vis tru decision treated died
           = add_note s2 text
        /\ exists before after : list string,
            text = fstring (before ++ quality decision tru :: after))
    /\ quality decision tru
       = match decision, tru with
         | TREAT_NOW, (SEVERE | CRITICAL) => "aligned with the high true risk"
         | TREAT_NOW, (MILD | MODERATE) =>
             "conservative, using resources on a lower-risk patient"
         | (MONITOR | DEFER), (SEVERE | CRITICAL) =>
             "risky given the underlying severity"
         | TRANSFER, (SEVERE | CRITICAL) =>
             "high-risk, depending on external capacity"
         | _, _ => "reasonable for the estimated risk"
         end
    /\ (forall (st : RoundState) (pid : Z) (p : Patient),
           rs_rng (resolve_outcome st pid p vis tru decision treated)
           = advance (rs_rng st)
           /\ rs_rng (transfer_patient st pid p vis tru) = advance (rs_rng st)).
Proof.
  intros s1 s2 p1 p2 vis tru decision treated died Hid.
  split; [|split].
  - exists (explanation (id p1) vis tru decision treated died).
    unfold _explain_decision_and_outcome. rewrite <- Hid.
    split; [reflexivity|]. split; [reflexivity|].
    exists ["Patient "; str (id p1); ": appeared "; _describe_severity vis;
            ", true severity "; _describe_severity tru; ". ";
            "You chose to "; decision_label decision; ", which was "].
    eexists. unfold explanation. cbv zeta. cbn [app]. reflexivity.
  - destruct decision, tru; reflexivity.
  - intros st pid p. split; reflexivity.
Qed.

Lemma explanation_is_deterministic_witness :
  exists text : string,
    _explain_decision_and_outcome sample_summary sample_patient MILD SEVERE
      DEFER false true = add_note sample_summary text
    /\ _explain_decision_and_outcome (new_summary 5) sample_patient_later MILD SEVERE
         DEFER false true = add_note (new_summary 5) text
    /\ exists before after : list string,
        text = fstring (before ++ quality DEFER SEVERE :: after).
Proof.
  apply (explanation_is_deterministic sample_summary (new_summary 5) sample_patient
           sample_patient_later MILD SEVERE DEFER false true).
  reflexivity.
Defined.

(** *** The roster under in-place mutation *)

Lemma find_patient_id (ps : list Patient) (pid : Z) (p : Patient) :
  find_patient ps pid = Some p -> id p = pid.
Proof.
  induction ps as [|q ps IH]; simpl; [discriminate|].
  destruct (id q =? pid) eqn:E; [|exact IH].
  intros [= <-]. apply Z.eqb_eq, E.
Qed.

Lemma find_store_first (ps : list Patient) (p p' : Patient) :
  find_patient ps (id p') = Some p ->
  find_patient (store_first ps p') (id p') = Some p'.
Proof.
  induction ps as [|q ps IH]; simpl; [discriminate|].
  destruct (id q =? id p') eqn:E; simpl.
  - rewrite Z.eqb_refl. reflexivity.
  - rewrite E. exact IH.
Qed.

Lemma find_store_first_other (ps : list Patient) (p' : Patient) (pid : Z) :
  id p' <> pid ->
  find_patient (store_first ps p') pid = find_patient ps pid.
Proof.
  intros Hne. induction ps as [|q ps IH]; simpl; [reflexivity|].
  destruct (id q =? id p') eqn:E; simpl.
  - apply Z.eqb_eq in E.
    destruct (id p' =? pid) eqn:E1; [apply Z.eqb_eq in E1; contradiction|].
    rewrite E, E1. reflexivity.
  - destruct (id q =? pid); [reflexivity|exact IH].
Qed.

Lemma store_first_twice (ps : list Patient) (p1 p2 : Patient) :
  id p1 = id p2 ->
  store_first (store_first ps p1) p2 = store_first ps p2.
Proof.
  intros Hid. induction ps as [|q ps IH]; simpl; [reflexivity|].
  rewrite Hid. destruct (id q =? id p2) eqn:E; simpl.
  - rewrite Hid, Z.eqb_refl. reflexivity.
  - rewrite E, IH. reflexivity.
Qed.

Lemma store_first_identity (ps : list Patient) (p p' : Patient) :
  find_patient ps (id p') = Some p ->
  patient_identity p' = patient_identity p ->
  map patient_identity (store_first ps p') = map patient_identity ps.
Proof.
  intros Hfind Hsame. induction ps as [|q ps IH]; simpl in *; [reflexivity|].
  destruct (id q =? id p') eqn:E; simpl.
  - injection Hfind as ->. rewrite Hsame. reflexivity.
  - rewrite (IH Hfind). reflexivity.
Qed.

Lemma store_first_occupied (ps : list Patient) (p p' : Patient) :
  find_patient ps (id p') = Some p ->
  occupied_beds (store_first ps p') = occupied_beds ps - occupies_bed p + occupies_bed p'.
Proof.
  intros Hfind. induction ps as [|q ps IH]; simpl in *; [discriminate|].
  destruct (id q =? id p') eqn:E; simpl.
  - injection Hfind as ->. unfold occupies_bed. lia.
  - rewrite (IH Hfind). lia.
Qed.

Lemma occupied_beds_app (ps qs : list Patient) :
  occupied_beds (ps ++ qs) = occupied_beds ps + occupied_beds qs.
Proof. induction ps as [|q ps IH]; simpl; [reflexivity|]. rewrite IH. lia. Qed.

(** *** What the metric update touches *)

Lemma update_metrics_shape (g : GameState) (p : Patient) (died : bool)
    (decision : TriageDecision) :
  exists h : HospitalState,
    _update_metrics_for_patient_outcome g p died decision = set_hospital g h
    /\ available_beds h = available_beds (hospital g)
    /\ staff_capacity_this_round h = staff_capacity_this_round (hospital g).
Proof.
  unfold _update_metrics_for_patient_outcome.
  eexists. split; [reflexivity|].
  destruct died, decision; simpl; try (split; reflexivity);
    destruct ((available_beds (hospital g) <=? 0)
              || (staff_capacity_this_round (hospital g) <=? 0));
    split; reflexivity.
Qed.

(** *** One turn of the decision loop *)

Lemma resolve_outcome_game (st : RoundState) (pid : Z) (p : Patient)
    (vis tru : SeverityLevel) (decision : TriageDecision) (treated : bool) :
  exists (p' : Patient) (h' : HospitalState),
    (p' = p \/ p' = set_is_alive p false)
    /\ rs_game (resolve_outcome st pid p vis tru decision treated)
       = set_hospital (store_patient (rs_game st) p') h'
    /\ available_beds h' = available_beds (hospital (rs_game st))
    /\ staff_capacity_this_round h'
       = staff_capacity_this_round (hospital (rs_game st)).
Proof.
  unfold resolve_outcome, rng_random. cbn [rs_game].
  set (died := (as_float _ <? _)%float).
  set (p' := if died then set_is_alive p false else p).
  destruct (update_metrics_shape (store_patient (rs_game st) p') p' died decision)
    as (h' & Heq & Hb & Hs).
  exists p', h'. rewrite Heq.
  repeat split; try assumption.
  subst p'. destruct died; auto.
Qed.

Lemma transfer_patient_game (st : RoundState) (pid : Z) (p : Patient)
    (vis tru : SeverityLevel) :
  exists (alive : bool) (h' : HospitalState),
    rs_game (transfer_patient st pid p vis tru)
    = set_hospital
        (store_patient (rs_game st) (set_is_alive (set_has_left p true) alive)) h'
    /\ available_beds h' = available_beds (hospital (rs_game st))
    /\ staff_capacity_this_round h'
       = staff_capacity_this_round (hospital (rs_game st)).
Proof.
  unfold transfer_patient, rng_random. cbn [rs_game].
  set (died := (as_float _ <? _)%float).
  set (p' := set_is_alive (set_has_left p true) (negb died)).
  destruct (update_metrics_shape (store_patient (rs_game st) p') p' died TRANSFER)
    as (h' & Heq & Hb & Hs).
  exists (negb died), h'. rewrite Heq. repeat split; assumption.
Qed.

(** A turn either skips its entry or rewrites one patient, the first with the
    submitted id, and the hospital: the patient keeps its identity, and it is
    marked treated only when a bed and a staff slot were free, each of which
    the turn then takes. *)
Lemma decision_step_game (st : RoundState) (pid : Z) (decision : TriageDecision) :
  decision_step st (pid, decision) = st
  \/ exists (p p' : Patient) (h' : HospitalState),
      find_patient (patients (rs_game st)) pid = Some p
      /\ is_alive p = true /\ has_left p = false
      /\ patient_identity p' = patient_identity p
      /\ rs_game (decision_step st (pid, decision))
         = set_hospital
             (set_patients (rs_game st) (store_first (patients (rs_game st)) p')) h'
      /\ ((is_treated p' = is_treated p
           /\ available_beds h' = available_beds (hospital (rs_game st))
           /\ staff_capacity_this_round h'
              = staff_capacity_this_round (hospital (rs_game st)))
          \/ (0 < available_beds (hospital (rs_game st))
              /\ 0 < staff_capacity_this_round (hospital (rs_game st))
              /\ available_beds h' = available_beds (hospital (rs_game st)) - 1
              /\ staff_capacity_this_round h'
                 = staff_capacity_this_round (hospital (rs_game st)) - 1)).
Proof.
  unfold decision_step, get_patient_by_id.
  destruct (find_patient (patients (rs_game st)) pid) as [p|] eqn:Hfind; [|auto].
  destruct (is_alive p) eqn:Halive; [|auto].
  destruct (has_left p) eqn:Hleft; [auto|]. cbn [negb orb].
  right. destruct decision.
  - destruct ((0 <? staff_capacity_this_round (hospital (rs_game st)))
              && (0 <? available_beds (hospital (rs_game st)))) eqn:Hcap.
    + apply andb_true_iff in Hcap. destruct Hcap as [Hs Hb].
      apply Z.ltb_lt in Hs, Hb.
      match goal with
      | |- context [resolve_outcome ?s pid ?q ?v ?t ?d ?b] =>
          destruct (resolve_outcome_game s pid q v t d b)
            as (p' & h' & Hp' & Hgame & Hbeds & Hstaff)
      end.
      exists p, p', h'. rewrite Hgame. cbn in Hbeds, Hstaff |- *.
      unfold store_patient. cbn.
      rewrite store_first_twice by (destruct Hp'; subst p'; reflexivity).
      repeat split; try assumption.
      * destruct Hp'; subst p'; reflexivity.
      * right. repeat split; assumption.
    + match goal with
      | |- context [resolve_outcome ?s pid ?q ?v ?t ?d ?b] =>
          destruct (resolve_outcome_game s pid q v t d b)
            as (p' & h' & Hp' & Hgame & Hbeds & Hstaff)
      end.
      exists p, p', h'. rewrite Hgame. cbn in Hbeds, Hstaff |- *.
      repeat split; try assumption.
      * destruct Hp'; subst p'; reflexivity.
      * left. repeat split; try assumption. destruct Hp'; subst p'; reflexivity.
  - destruct (resolve_outcome_game st pid p (severity_visible p)
                (severity_hidden_true p) MONITOR false)
      as (p' & h' & Hp' & Hgame & Hbeds & Hstaff).
    exists p, p', h'. rewrite Hgame.
    repeat split; try assumption.
    + destruct Hp'; subst p'; reflexivity.
    + left. repeat split; try assumption. destruct Hp'; subst p'; reflexivity.
  - destruct (resolve_outcome_game st pid p (severity_visible p)
                (severity_hidden_true p) DEFER false)
      as (p' & h' & Hp' & Hgame & Hbeds & Hstaff).
    exists p, p', h'. rewrite Hgame.
    repeat split; try assumption.
    + destruct Hp'; subst p'; reflexivity.
    + left. repeat split; try assumption. destruct Hp'; subst p'; reflexivity.
  - destruct (transfer_patient_game st pid p (severity_visible p)
                (severity_hidden_true p))
      as (alive & h' & Hgame & Hbeds & Hstaff).
    exists p, (set_is_alive (set_has_left p true) alive), h'. rewrite Hgame.
    repeat split; try assumption.
    left. repeat split; assumption.
Qed.

(** *** The deterioration pass *)

Lemma deteriorate_patient_shape (g : GameState) (p : Patient) (prob : float) (r : Rng) :
  exists s : SeverityLevel,
    snd (fst (_deteriorate_severity_if_needed g p prob r))
    = set_severity_hidden_true p s.
Proof.
  unfold _deteriorate_severity_if_needed, rng_random.
  assert (Hsame : p = set_severity_hidden_true p (severity_hidden_true p))
    by (destruct p; reflexivity).
  destruct (negb (is_alive p) || is_treated p || has_left p);
    [exists (severity_hidden_true p); exact Hsame|].
  destruct (as_float (tape r (cursor r)) <? prob)%float;
    [|exists (severity_hidden_true p); exact Hsame].
  destruct (_severity_to_int (severity_hidden_true p) <? _severity_to_int CRITICAL);
    [|exists (severity_hidden_true p); exact Hsame].
  eexists. reflexivity.
Qed.

Lemma deterioration_pass_roster (g : GameState) (roster : list Patient)
    (prob : float) (summary : RoundSummary) (r : Rng) :
  Forall2 (fun p p' => exists s, p' = set_severity_hidden_true p s)
          roster (fst (fst (deterioration_pass g roster prob summary r))).
Proof.
  revert summary r.
  induction roster as [|p roster IH]; intros summary r; simpl; [constructor|].
  assert (Hsame : exists s, p = set_severity_hidden_true p s)
    by (exists (severity_hidden_true p); destruct p; reflexivity).
  destruct (negb (is_alive p) || has_left p).
  - specialize (IH summary r).
    destruct (deterioration_pass g roster prob summary r) as [[rest s'] r'].
    constructor; assumption.
  - destruct (is_treated p).
    + specialize (IH summary r).
      destruct (deterioration_pass g roster prob summary r) as [[rest s'] r'].
      constructor; assumption.
    + pose proof (deteriorate_patient_shape g p prob r) as Hp.
      destruct (_deteriorate_severity_if_needed g p prob r) as [[w p'] r1].
      simpl in Hp.
      match goal with
      | |- context [deterioration_pass g roster prob ?s1 r1] =>
          specialize (IH s1 r1);
          destruct (deterioration_pass g roster prob s1 r1) as [[rest s'] r']
      end.
      constructor; assumption.
Qed.

Lemma severity_only_identity (ps ps' : list Patient) :
  Forall2 (fun p p' => exists s, p' = set_severity_hidden_true p s) ps ps' ->
  map patient_identity ps' = map patient_identity ps
  /\ occupied_beds ps' = occupied_beds ps.
Proof.
  induction 1 as [|p p' ps ps' [s ->] _ [IHid IHocc]]; simpl; [auto|].
  rewrite IHid, IHocc. split; reflexivity.
Qed.

(** *** What a round leaves alone *)

Lemma same_frame_refl (g : GameState) : same_frame g g.
Proof. repeat split. Qed.

Lemma same_frame_trans (g1 g2 g3 : GameState) :
  same_frame g1 g2 -> same_frame g2 g3 -> same_frame g1 g3.
Proof.
  intros (A1 & A2 & A3 & A4 & A5) (B1 & B2 & B3 & B4 & B5).
  repeat split; congruence.
Qed.

Lemma decision_step_frame (st : RoundState) (entry : Z * TriageDecision) :
  same_frame (rs_game st) (rs_game (decision_step st entry)).
Proof.
  destruct entry as [pid decision].
  destruct (decision_step_game st pid decision)
    as [-> | (p & p' & h' & Hfind & _ & _ & Hsame & -> & _)];
    [apply same_frame_refl|].
  repeat split. cbn.
  apply (store_first_identity _ p p'); [|exact Hsame].
  assert (id p' = pid) as ->; [|exact Hfind].
  apply find_patient_id in Hfind.
  unfold patient_identity in Hsame. congruence.
Qed.

Lemma decision_loop_frame (submitted : list (Z * TriageDecision)) (st : RoundState) :
  same_frame (rs_game st) (rs_game (fold_left decision_step submitted st)).
Proof.
  revert st. induction submitted as [|entry rest IH]; intros st; simpl.
  - apply same_frame_refl.
  - eapply same_frame_trans; [apply decision_step_frame|apply IH].
Qed.

Lemma environment_shocks_frame (g g' : GameState) (s s' : RoundSummary)
    (base prob : float) (r r' : Rng) :
  _apply_environment_shocks g s base r = Some (prob, g', s', r') ->
  same_frame g g'
  /\ decisions s' = decisions s
  /\ exists more, notes s' = notes s ++ more.
Proof.
  unfold _apply_environment_shocks, rng_random.
  destruct (difficulty g).
  { intros [= <- <- <- <-]. repeat split. exists []. symmetry. apply app_nil_r. }
  destruct (_ <? 0.20)%float.
  { destruct (int_to_float _) as [f|]; [|discriminate].
    destruct (py_round _) as [n|]; [|discriminate].
    intros [= <- <- <- <-]. repeat split. cbn. rewrite <- app_assoc.
    eexists; reflexivity. }
  destruct (_ <? 0.40)%float.
  { destruct (0 <? available_beds (hospital g)).
    - intros [= <- <- <- <-]. repeat split. cbn. rewrite <- app_assoc.
      eexists; reflexivity.
    - intros [= <- <- <- <-]. repeat split. exists []. symmetry. apply app_nil_r. }
  destruct (_ <? 0.60)%float.
  { intros [= <- <- <- <-]. repeat split. cbn. rewrite <- app_assoc.
    eexists; reflexivity. }
  destruct (_ <? 0.5)%float; intros [= <- <- <- <-]; repeat split; cbn;
    eexists; reflexivity.
Qed.

Lemma finish_round_frame (prob : float) (st : RoundState) :
  same_frame (rs_game st) (rs_game (finish_round prob st)).
Proof.
  unfold finish_round.
  pose proof (deterioration_pass_roster (rs_game st) (patients (rs_game st)) prob
                (rs_summary st) (rs_rng st)) as Hroster.
  destruct (deterioration_pass _ _ _ _ _) as [[roster summary] r].
  apply severity_only_identity in Hroster. destruct Hroster as [Hid _].
  repeat split. exact Hid.
Qed.

Lemma start_round_frame (g : GameState) (submitted : list (Z * TriageDecision))
    (r : Rng) (prob : float) (st : RoundState) :
  start_round g submitted r = Some (prob, st) ->
  same_frame g (rs_game st) /\ decisions (rs_summary st) = submitted.
Proof.
  unfold start_round.
  destruct (_apply_environment_shocks _ _ _ _) as [[[[prob' g'] s'] r']|] eqn:Hshock;
    [|discriminate].
  intros [= <- <-]. apply environment_shocks_frame in Hshock.
  destruct Hshock as (Hframe & Hdec & _). split; assumption.
Qed.

(** C10. When [apply_player_decisions] returns, the round counter, the
    difficulty, the next patient id and the history are what they were, and the
    roster has the same patients in the same order, each with its id, name,
    visible severity and arrival round: only flags, true severities and the
    hospital can differ. *)
Theorem apply_player_decisions_frame :
  forall (g : GameState) (submitted : list (Z * TriageDecision)) (r : Rng)
         (out : RoundState),
    apply_player_decisions g submitted r = Some out ->
    current_round (rs_game out) = current_round g
    /\ difficulty (rs_game out) = difficulty g
    /\ next_patient_id (rs_game out) = next_patient_id g
    /\ history (rs_game out) = history g
    /\ List.length (patients (rs_game out)) = List.length (patients g)
    /\ map patient_identity (patients (rs_game out)) = map patient_identity (patients g).
Proof.
  intros g submitted r out Hrun. unfold apply_player_decisions in Hrun.
  destruct (start_round g submitted r) as [[prob st]|] eqn:Hstart; [|discriminate].
  injection Hrun as <-.
  apply start_round_frame in Hstart. destruct Hstart as [Hstart _].
  pose proof (same_frame_trans _ _ _ Hstart
                (same_frame_trans _ _ _ (decision_loop_frame submitted st)
                   (finish_round_frame prob (fold_left decision_step submitted st))))
    as (H1 & H2 & H3 & H4 & H5).
  repeat split; try assumption.
  apply (f_equal (@List.length _)) in H5. rewrite !length_map in H5. exact H5.
Qed.

Lemma apply_player_decisions_frame_witness :
  current_round (rs_game sample_basic_result) = current_round sample_basic_game
  /\ difficulty (rs_game sample_basic_result) = difficulty sample_basic_game
  /\ next_patient_id (rs_game sample_basic_result) = next_patient_id sample_basic_game
  /\ history (rs_game sample_basic_result) = history sample_basic_game
  /\ List.length (patients (rs_game sample_basic_result))
     = List.length (patients sample_basic_game)
  /\ map patient_identity (patients (rs_game sample_basic_result))
     = map patient_identity (patients sample_basic_game).
Proof.
  apply (apply_player_decisions_frame sample_basic_game sample_decisions
           sample_round_draws sample_basic_result).
  vm_compute. reflexivity.
Defined.

(** *** Beds: occupied plus free never exceeds [MAX_BEDS] *)

Lemma occupies_bed_bounds (p : Patient) :
  0 <= occupies_bed p <= (if is_treated p then 1 else 0).
Proof. unfold occupies_bed. destruct (is_alive p), (is_treated p), (has_left p); simpl; lia. Qed.

Lemma occupies_bed_present (p : Patient) :
  is_alive p = true -> has_left p = false ->
  occupies_bed p = (if is_treated p then 1 else 0).
Proof. unfold occupies_bed. intros -> ->. destruct (is_treated p); reflexivity. Qed.

Lemma decision_step_beds (st : RoundState) (entry : Z * TriageDecision) :
  beds_consistent (rs_game st) -> beds_consistent (rs_game (decision_step st entry)).
Proof.
  destruct entry as [pid decision]. intros [Hfree Hsum].
  destruct (decision_step_game st pid decision)
    as [-> | (p & p' & h' & Hfind & Halive & Hleft & Hsame & -> & Hcases)];
    [split; assumption|].
  assert (Hid : id p' = pid).
  { apply find_patient_id in Hfind. unfold patient_identity in Hsame. congruence. }
  unfold beds_consistent. cbn.
  rewrite (store_first_occupied _ p p') by (rewrite Hid; exact Hfind).
  pose proof (occupies_bed_bounds p') as Hp'.
  pose proof (occupies_bed_bounds p) as Hp.
  rewrite (occupies_bed_present p Halive Hleft) in *.
  destruct Hcases as [(Ht & Hb & _) | (Hb0 & _ & Hb & _)]; rewrite Hb.
  - rewrite Ht in Hp'. lia.
  - destruct (is_treated p'), (is_treated p); lia.
Qed.

Lemma decision_loop_beds (submitted : list (Z * TriageDecision)) (st : RoundState) :
  beds_consistent (rs_game st) ->
  beds_consistent (rs_game (fold_left decision_step submitted st)).
Proof.
  revert st. induction submitted as [|entry rest IH]; intros st H; simpl; [exact H|].
  apply IH, decision_step_beds, H.
Qed.

Lemma environment_shocks_beds (g g' : GameState) (s s' : RoundSummary)
    (base prob : float) (r r' : Rng) :
  _apply_environment_shocks g s base r = Some (prob, g', s', r') ->
  beds_consistent g -> beds_consistent g'.
Proof.
  unfold _apply_environment_shocks, rng_random, beds_consistent.
  destruct (difficulty g); [intros [= <- <- <- <-]; auto|].
  destruct (_ <? 0.20)%float.
  { destruct (int_to_float _) as [f|]; [|discriminate].
    destruct (py_round _) as [n|]; [|discriminate].
    intros [= <- <- <- <-]. auto. }
  destruct (_ <? 0.40)%float.
  { destruct (0 <? available_beds (hospital g)) eqn:Hpos;
      intros [= <- <- <- <-]; [|auto].
    apply Z.ltb_lt in Hpos. cbn. intros [Hfree Hsum]. lia. }
  destruct (_ <? 0.60)%float; [intros [= <- <- <- <-]; auto|].
  destruct (_ <? 0.5)%float; intros [= <- <- <- <-]; auto.
Qed.

Lemma finish_round_beds (prob : float) (st : RoundState) :
  beds_consistent (rs_game st) ->
  let g' := rs_game (finish_round prob st) in
  occupied_beds (patients g') <= MAX_BEDS
  /\ available_beds (hospital g') = MAX_BEDS - occupied_beds (patients g').
Proof.
  intros [Hfree Hsum]. unfold finish_round.
  pose proof (deterioration_pass_roster (rs_game st) (patients (rs_game st)) prob
                (rs_summary st) (rs_rng st)) as Hroster.
  destruct (deterioration_pass _ _ _ _ _) as [[roster summary] r].
  apply severity_only_identity in Hroster. destruct Hroster as [_ Hocc].
  read_fields. rewrite Hocc. split; lia.
Qed.

Lemma generate_loop_hospital (n : nat) (severe_prob : float) (g : GameState)
    (acc : list Patient) (r : Rng) :
  let g' := snd (fst (generate_loop n severe_prob g acc r)) in
  hospital g' = hospital g /\ occupied_beds (patients g') = occupied_beds (patients g).
Proof.
  revert g acc r. induction n as [|n IH]; intros g acc r; simpl; [auto|].
  destruct (_sample_true_severity severe_prob r) as [tru r1].
  destruct (_noisy_visible_severity tru (difficulty g) r1) as [vis r2].
  match goal with
  | |- context [generate_loop n severe_prob ?g1 ?acc1 r2] =>
      destruct (IH g1 acc1 r2) as [Hh Hocc]
  end.
  rewrite Hh, Hocc. cbn. rewrite occupied_beds_app. cbn. split; [reflexivity|lia].
Qed.

Lemma generate_hospital (g : GameState) (r : Rng) :
  let g' := snd (fst (generate_new_patients_for_round g r)) in
  hospital g' = hospital g /\ occupied_beds (patients g') = occupied_beds (patients g).
Proof.
  unfold generate_new_patients_for_round.
  destruct (_patients_per_round (difficulty g)) as [min_p max_p].
  destruct (rng_randint min_p max_p r) as [num_new r1].
  apply generate_loop_hospital.
Qed.

Lemma apply_player_decisions_beds (g : GameState)
    (submitted : list (Z * TriageDecision)) (r : Rng) (out : RoundState) :
  beds_consistent g ->
  apply_player_decisions g submitted r = Some out ->
  occupied_beds (patients (rs_game out)) <= MAX_BEDS
  /\ available_beds (hospital (rs_game out))
     = MAX_BEDS - occupied_beds (patients (rs_game out)).
Proof.
  intros Hinv Hrun. unfold apply_player_decisions, start_round in Hrun.
  destruct (_apply_environment_shocks _ _ _ _) as [[[[prob g1] s1] r1]|] eqn:Hshock;
    [|discriminate].
  injection Hrun as <-.
  apply finish_round_beds, decision_loop_beds. cbn.
  exact (environment_shocks_beds _ _ _ _ _ _ _ _ Hshock Hinv).
Qed.

Lemma reachable_beds_consistent (g : GameState) : reachable g -> beds_consistent g.
Proof.
  induction 1 as [d | g r _ IH | g submitted r out _ IH Hrun | g s _ IH | g _ IH].
  - unfold beds_consistent; cbn. unfold MAX_BEDS. lia.
  - destruct (generate_hospital g r) as [Hh Hocc]. unfold beds_consistent.
    rewrite Hh, Hocc. exact IH.
  - destruct (apply_player_decisions_beds g submitted r out IH Hrun) as [Hle Heq].
    unfold beds_consistent. rewrite Heq. lia.
  - exact IH.
  - exact IH.
Qed.

(** C2. In every game state the engine's own operations can produce, when
    [apply_player_decisions] returns, the free beds are exactly [MAX_BEDS]
    minus the number of patients that are alive, treated and still present;
    that number never exceeds [MAX_BEDS], so the clamp at 0 is idle. *)
Theorem available_beds_recomputed_exactly :
  forall (g : GameState) (submitted : list (Z * TriageDecision)) (r : Rng)
         (out : RoundState),
    reachable g ->
    apply_player_decisions g submitted r = Some out ->
    occupied_beds (patients (rs_game out)) <= MAX_BEDS
    /\ available_beds (hospital (rs_game out))
       = MAX_BEDS - occupied_beds (patients (rs_game out))
    /\ occupied_beds (patients (rs_game out))
       = Z.of_nat (List.length
                     (filter (fun p => is_alive p && is_treated p && negb (has_left p))
                             (patients (rs_game out)))).
Proof.
  intros g submitted r out Hreach Hrun.
  destruct (apply_player_decisions_beds g submitted r out
              (reachable_beds_consistent g Hreach) Hrun) as [Hle Heq].
  repeat split; try assumption.
  clear. induction (patients (rs_game out)) as [|p ps IH]; [reflexivity|].
  cbn [occupied_beds filter].
  destruct (is_alive p && is_treated p && negb (has_left p)); cbn [List.length]; lia.
Qed.

Lemma available_beds_recomputed_exactly_witness :
  occupied_beds (patients (rs_game sample_basic_result)) <= MAX_BEDS
  /\ available_beds (hospital (rs_game sample_basic_result))
     = MAX_BEDS - occupied_beds (patients (rs_game sample_basic_result))
  /\ occupied_beds (patients (rs_game sample_basic_result))
     = Z.of_nat (List.length
                   (filter (fun p => is_alive p && is_treated p && negb (has_left p))
                           (patients (rs_game sample_basic_result)))).
Proof.
  apply (available_beds_recomputed_exactly sample_basic_game sample_decisions
           sample_round_draws sample_basic_result).
  - apply reach_generate, reach_new.
  - vm_compute. reflexivity.
Defined.

(** *** The summary during a round *)

Lemma summary_grows_refl (s : RoundSummary) : summary_grows s s.
Proof. repeat split. exists []. symmetry. apply app_nil_r. Qed.

Lemma summary_grows_trans (s1 s2 s3 : RoundSummary) :
  summary_grows s1 s2 -> summary_grows s2 s3 -> summary_grows s1 s3.
Proof.
  intros (A1 & A2 & m1 & A3) (B1 & B2 & m2 & B3).
  repeat split; try congruence.
  exists (m1 ++ m2). rewrite B3, A3. symmetry. apply app_assoc.
Qed.

Lemma summary_grows_note (s : RoundSummary) (n : string) :
  summary_grows s (add_note s n).
Proof. repeat split. exists [n]. reflexivity. Qed.

Lemma summary_grows_list (s s' : RoundSummary) :
  decisions s' = decisions s -> round_number s' = round_number s ->
  notes s' = notes s -> summary_grows s s'.
Proof. intros H1 H2 H3. repeat split; try assumption. exists []. rewrite H3. symmetry. apply app_nil_r. Qed.

Lemma resolve_outcome_summary (st : RoundState) (pid : Z) (p : Patient)
    (vis tru : SeverityLevel) (decision : TriageDecision) (treated : bool) :
  summary_grows (rs_summary st)
                (rs_summary (resolve_outcome st pid p vis tru decision treated)).
Proof.
  unfold resolve_outcome, rng_random, _explain_decision_and_outcome. cbn [rs_summary].
  destruct (_ <? _)%float.
  - eapply summary_grows_trans; [|apply summary_grows_note].
    apply summary_grows_list; reflexivity.
  - apply summary_grows_note.
Qed.

Lemma transfer_patient_summary (st : RoundState) (pid : Z) (p : Patient)
    (vis tru : SeverityLevel) :
  summary_grows (rs_summary st) (rs_summary (transfer_patient st pid p vis tru)).
Proof.
  unfold transfer_patient, rng_random, _explain_decision_and_outcome. cbn [rs_summary].
  destruct (_ <? _)%float.
  - eapply summary_grows_trans; [|apply summary_grows_note].
    apply summary_grows_list; reflexivity.
  - apply summary_grows_note.
Qed.

Lemma decision_step_summary (st : RoundState) (entry : Z * TriageDecision) :
  summary_grows (rs_summary st) (rs_summary (decision_step st entry)).
Proof.
  destruct entry as [pid decision]. unfold decision_step.
  destruct (get_patient_by_id (rs_game st) pid) as [p|]; [|apply summary_grows_refl].
  destruct (negb (is_alive p) || has_left p); [apply summary_grows_refl|].
  destruct decision.
  - destruct (_ && _).
    + eapply summary_grows_trans; [|apply resolve_outcome_summary].
      apply summary_grows_list; reflexivity.
    + eapply summary_grows_trans; [|apply resolve_outcome_summary].
      apply summary_grows_note.
  - apply resolve_outcome_summary.
  - apply resolve_outcome_summary.
  - apply transfer_patient_summary.
Qed.

Lemma decision_loop_summary (submitted : list (Z * TriageDecision)) (st : RoundState) :
  summary_grows (rs_summary st) (rs_summary (fold_left decision_step submitted st)).
Proof.
  revert st. induction submitted as [|entry rest IH]; intros st; simpl.
  - apply summary_grows_refl.
  - eapply summary_grows_trans; [apply decision_step_summary|apply IH].
Qed.

Lemma deterioration_pass_summary (g : GameState) (roster : list Patient)
    (prob : float) (summary : RoundSummary) (r : Rng) :
  summary_grows summary (snd (fst (deterioration_pass g roster prob summary r))).
Proof.
  revert summary r.
  induction roster as [|p roster IH]; intros summary r; simpl;
    [apply summary_grows_refl|].
  destruct (negb (is_alive p) || has_left p).
  - specialize (IH summary r).
    destruct (deterioration_pass g roster prob summary r) as [[rest s'] r'].
    exact IH.
  - destruct (is_treated p).
    + specialize (IH summary r).
      destruct (deterioration_pass g roster prob summary r) as [[rest s'] r'].
      exact IH.
    + destruct (_deteriorate_severity_if_needed g p prob r) as [[w p'] r1].
      match goal with
      | |- context [deterioration_pass g roster prob ?s1 r1] =>
          specialize (IH s1 r1);
          destruct (deterioration_pass g roster prob s1 r1) as [[rest s'] r']
      end.
      cbn [fst snd] in *.
      eapply summary_grows_trans; [|exact IH].
      destruct w; [|apply summary_grows_refl].
      eapply summary_grows_trans; [|apply summary_grows_note].
      apply summary_grows_list; reflexivity.
Qed.

Lemma finish_round_summary (prob : float) (st : RoundState) :
  summary_grows (rs_summary st) (rs_summary (finish_round prob st)).
Proof.
  unfold finish_round.
  pose proof (deterioration_pass_summary (rs_game st) (patients (rs_game st)) prob
                (rs_summary st) (rs_rng st)) as H.
  destruct (deterioration_pass _ _ _ _ _) as [[roster summary] r]. exact H.
Qed.

(** *** The loop state at a given entry *)

Lemma firstn_succ_nth {A : Type} (l : list A) (k : nat) (x : A) :
  nth_error l k = Some x -> firstn (S k) l = firstn k l ++ [x].
Proof.
  revert k. induction l as [|a l IH]; intros [|k]; simpl; try discriminate.
  - intros [= ->]. reflexivity.
  - intros H. rewrite <- (IH k H). reflexivity.
Qed.

Lemma state_at_succ (g : GameState) (submitted : list (Z * TriageDecision)) (r : Rng)
    (k : nat) (st : RoundState) (entry : Z * TriageDecision) :
  state_at g submitted r k = Some st ->
  nth_error submitted k = Some entry ->
  state_at g submitted r (S k) = Some (decision_step st entry).
Proof.
  unfold state_at. destruct (start_round g submitted r) as [[prob st0]|]; [|discriminate].
  intros [= <-] Hnth. rewrite (firstn_succ_nth _ _ _ Hnth), fold_left_app. reflexivity.
Qed.

Lemma state_at_result (g : GameState) (submitted : list (Z * TriageDecision)) (r : Rng)
    (k : nat) (st out : RoundState) :
  state_at g submitted r k = Some st ->
  apply_player_decisions g submitted r = Some out ->
  decisions (rs_summary out) = submitted
  /\ summary_grows (rs_summary st) (rs_summary out).
Proof.
  unfold state_at, apply_player_decisions.
  destruct (start_round g submitted r) as [[prob st0]|] eqn:Hstart; [|discriminate].
  intros [= <-] [= <-].
  apply start_round_frame in Hstart. destruct Hstart as [_ Hdec].
  assert (Hout : summary_grows (rs_summary (fold_left decision_step (firstn k submitted) st0))
                   (rs_summary (finish_round prob (fold_left decision_step submitted st0)))).
  { rewrite <- (firstn_skipn k submitted) at 2. rewrite fold_left_app.
    eapply summary_grows_trans; [apply decision_loop_summary|apply finish_round_summary]. }
  split; [|exact Hout].
  pose proof (decision_loop_summary submitted st0) as (H1 & _).
  pose proof (finish_round_summary prob (fold_left decision_step submitted st0)) as (H2 & _).
  congruence.
Qed.

Lemma result_from_state_at (g : GameState) (submitted : list (Z * TriageDecision))
    (r : Rng) (k : nat) (st out : RoundState) :
  state_at g submitted r k = Some st ->
  apply_player_decisions g submitted r = Some out ->
  exists prob : float,
    out = finish_round prob (fold_left decision_step (skipn k submitted) st).
Proof.
  unfold state_at, apply_player_decisions.
  destruct (start_round g submitted r) as [[prob st0]|]; [|discriminate].
  intros [= <-] [= <-]. exists prob.
  rewrite <- (firstn_skipn k submitted) at 1. rewrite fold_left_app. reflexivity.
Qed.

(** *** A patient that later turns do not touch *)

Lemma decision_step_other_patient (st : RoundState) (pid' pid : Z)
    (decision : TriageDecision) :
  pid' <> pid ->
  get_patient_by_id (rs_game (decision_step st (pid', decision))) pid
  = get_patient_by_id (rs_game st) pid.
Proof.
  intros Hne.
  destruct (decision_step_game st pid' decision)
    as [-> | (p & p' & h' & Hfind & _ & _ & Hsame & -> & _)]; [reflexivity|].
  unfold get_patient_by_id. read_fields.
  apply find_store_first_other.
  apply find_patient_id in Hfind. unfold patient_identity in Hsame. congruence.
Qed.

Lemma decision_loop_other_patients (rest : list (Z * TriageDecision))
    (st : RoundState) (pid : Z) :
  Forall (fun entry => fst entry <> pid) rest ->
  get_patient_by_id (rs_game (fold_left decision_step rest st)) pid
  = get_patient_by_id (rs_game st) pid.
Proof.
  intros Hrest. revert st.
  induction Hrest as [|[pid' decision] rest Hne _ IH]; intros st; simpl; [reflexivity|].
  rewrite IH. apply decision_step_other_patient. exact Hne.
Qed.

Lemma decision_step_departed (st : RoundState) (entry : Z * TriageDecision) (pid : Z)
    (q : Patient) :
  get_patient_by_id (rs_game st) pid = Some q -> has_left q = true ->
  get_patient_by_id (rs_game (decision_step st entry)) pid = Some q.
Proof.
  intros Hfind Hleft. destruct entry as [pid' decision].
  destruct (Z.eq_dec pid' pid) as [-> | Hne].
  - unfold decision_step. rewrite Hfind, Hleft, orb_true_r. exact Hfind.
  - rewrite decision_step_other_patient by exact Hne. exact Hfind.
Qed.

Lemma decision_loop_departed (rest : list (Z * TriageDecision)) (st : RoundState)
    (pid : Z) (q : Patient) :
  get_patient_by_id (rs_game st) pid = Some q -> has_left q = true ->
  get_patient_by_id (rs_game (fold_left decision_step rest st)) pid = Some q.
Proof.
  revert st. induction rest as [|entry rest IH]; intros st Hfind Hleft; simpl;
    [exact Hfind|].
  apply IH; [|exact Hleft]. apply decision_step_departed; assumption.
Qed.

Lemma severity_only_find (ps ps' : list Patient) (pid : Z) (q : Patient) :
  Forall2 (fun p p' => exists s, p' = set_severity_hidden_true p s) ps ps' ->
  find_patient ps pid = Some q ->
  exists s, find_patient ps' pid = Some (set_severity_hidden_true q s).
Proof.
  induction 1 as [|p p' ps ps' [s ->] _ IH]; simpl; [discriminate|].
  destruct (id p =? pid); [intros [= ->]; exists s; reflexivity|exact IH].
Qed.

Lemma finish_round_patient (prob : float) (st : RoundState) (pid : Z) (q : Patient) :
  get_patient_by_id (rs_game st) pid = Some q ->
  exists s,
    get_patient_by_id (rs_game (finish_round prob st)) pid
    = Some (set_severity_hidden_true q s).
Proof.
  unfold finish_round, get_patient_by_id. intros Hfind.
  pose proof (deterioration_pass_roster (rs_game st) (patients (rs_game st)) prob
                (rs_summary st) (rs_rng st)) as Hroster.
  destruct (deterioration_pass _ _ _ _ _) as [[roster summary] r].
  read_fields. exact (severity_only_find _ _ _ _ Hroster Hfind).
Qed.

Lemma later_keys_differ (submitted : list (Z * TriageDecision)) (k : nat) (pid : Z)
    (decision : TriageDecision) :
  NoDup (map fst submitted) ->
  nth_error submitted k = Some (pid, decision) ->
  Forall (fun entry => fst entry <> pid) (skipn (S k) submitted).
Proof.
  revert k. induction submitted as [|entry rest IH]; intros [|k] Hnodup Hnth;
    simpl in *; try discriminate.
  - injection Hnth as ->. inversion Hnodup as [|? ? Hnotin _]; subst.
    apply Forall_forall. intros e He Heq. apply Hnotin.
    simpl. rewrite <- Heq. apply in_map, He.
  - inversion Hnodup; subst. apply (IH k); assumption.
Qed.

(** An entry whose id is not in the roster, or whose patient is dead or has
    left, is passed over: the turn changes nothing and draws nothing. *)
Lemma decision_step_skipped (st : RoundState) (pid : Z) (decision : TriageDecision) :
  match get_patient_by_id (rs_game st) pid with
  | None => True
  | Some p => is_alive p = false \/ has_left p = true
  end ->
  decision_step st (pid, decision) = st.
Proof.
  unfold decision_step.
  destruct (get_patient_by_id (rs_game st) pid) as [p|]; [|reflexivity].
  intros [-> | ->]; [reflexivity|]. rewrite orb_true_r. reflexivity.
Qed.

(** The first scenario of the design document: on the Basic tier, with 5 beds
    and 4 staff slots free, a Critical patient given TreatNow is marked
    treated, takes one bed and one staff slot and is entered in the treated
    list. *)
Example treat_now_with_capacity :
  let st := sample_state_at 0 in
  let st' := decision_step st (1, TREAT_NOW) in
  get_patient_by_id (rs_game st) 1 = Some sample_critical_patient
  /\ available_beds (hospital (rs_game st)) = 5
  /\ staff_capacity_this_round (hospital (rs_game st)) = 4
  /\ get_patient_by_id (rs_game st') 1
     = Some (set_is_treated sample_critical_patient true)
  /\ available_beds (hospital (rs_game st')) = 4
  /\ staff_capacity_this_round (hospital (rs_game st')) = 3
  /\ patients_treated (rs_summary st') = [1].
Proof. vm_compute. repeat split. Qed.

(** *** Transfers *)

Lemma decision_step_transfer (st : RoundState) (pid : Z) (p : Patient) :
  get_patient_by_id (rs_game st) pid = Some p ->
  is_alive p = true -> has_left p = false ->
  decision_step st (pid, TRANSFER)
  = transfer_patient st pid p (severity_visible p) (severity_hidden_true p).
Proof.
  intros Hfind Halive Hleft. unfold decision_step.
  rewrite Hfind, Halive, Hleft. reflexivity.
Qed.

Lemma transfer_death_probability (sev : SeverityLevel) :
  _death_probability sev false TRANSFER = (claimed_base_rate sev * 1.5)%float.
Proof. destruct sev; reflexivity. Qed.

Lemma get_stored_patient (g : GameState) (pid : Z) (p p' : Patient) :
  get_patient_by_id g pid = Some p -> id p' = id p ->
  get_patient_by_id (store_patient g p') pid = Some p'.
Proof.
  unfold get_patient_by_id, store_patient. intros Hfind Hid. read_fields.
  pose proof (find_patient_id _ _ _ Hfind) as Hpid.
  rewrite <- Hpid, <- Hid. apply (find_store_first _ p).
  rewrite Hid, Hpid. exact Hfind.
Qed.

Lemma update_metrics_patients (g : GameState) (p : Patient) (died : bool)
    (decision : TriageDecision) (pid : Z) :
  get_patient_by_id (_update_metrics_for_patient_outcome g p died decision) pid
  = get_patient_by_id g pid.
Proof. reflexivity. Qed.

Lemma update_metrics_transfer (g : GameState) (p : Patient) (died : bool) :
  let h := hospital g in
  let scarce := (available_beds h <=? 0) || (staff_capacity_this_round h <=? 0) in
  let after_outcome := (if died then reputation h - 2.0 else reputation h + 0.5)%float in
  hospital (_update_metrics_for_patient_outcome g p died TRANSFER)
  = mkHospital (available_beds h) (staff_capacity_this_round h)
      (clamp_metric (if died then survival_score h - 4.0 else survival_score h + 0.5)%float)
      (clamp_metric (if died then staff_stress h + 3.0 else staff_stress h)%float)
      (clamp_metric (if scarce then after_outcome + 0.5 else after_outcome - 1.0)%float).
Proof.
  unfold _update_metrics_for_patient_outcome.
  destruct died; read_fields;
    destruct ((available_beds (hospital g) <=? 0)
              || (staff_capacity_this_round (hospital g) <=? 0));
    reflexivity.
Qed.

(** C5. When the loop reaches a Transfer entry whose patient is in the roster,
    alive and present, it marks the patient as having left, samples death with
    the untreated Transfer probability (base rate times 1.5) on exactly one
    draw, records the outcome on the patient and in the died list, updates the
    metrics and appends exactly one explanation, and that is the whole turn:
    the shared outcome step is not run.  The decision part of the reputation
    change is +0.5 when no bed or no staff slot is free at that moment, and
    -1.0 when both are.  The patient is still marked as having left in the
    state that [apply_player_decisions] returns. *)
Theorem transfer_turn :
  forall (g : GameState) (submitted : list (Z * TriageDecision)) (r : Rng) (k : nat)
         (st out : RoundState) (pid : Z) (p : Patient),
    state_at g submitted r k = Some st ->
    nth_error submitted k = Some (pid, TRANSFER) ->
    get_patient_by_id (rs_game st) pid = Some p ->
    is_alive p = true ->
    has_left p = false ->
    apply_player_decisions g submitted r = Some out ->
    let st' := decision_step st (pid, TRANSFER) in
    let h := hospital (rs_game st) in
    let h' := hospital (rs_game st') in
    let died :=
      (next_float (rs_rng st) <? claimed_base_rate (severity_hidden_true p) * 1.5)%float in
    let after_outcome :=
      (if died then reputation h - 2.0 else reputation h + 0.5)%float in
    state_at g submitted r (S k) = Some st'
    /\ get_patient_by_id (rs_game st') pid
       = Some (set_is_alive (set_has_left p true) (negb died))
    /\ (claimed_base_rate (severity_hidden_true p) * 1.5)%float
       = _death_probability (severity_hidden_true p) false TRANSFER
    /\ rs_rng st' = advance (rs_rng st)
    /\ notes (rs_summary st')
       = notes (rs_summary st)
         ++ [explanation pid (severity_visible p) (severity_hidden_true p)
                         TRANSFER false died]
    /\ patients_died (rs_summary st')
       = (if died then patients_died (rs_summary st) ++ [pid]
          else patients_died (rs_summary st))
    /\ patients_treated (rs_summary st') = patients_treated (rs_summary st)
    /\ survival_score h'
       = clamp_metric (if died then survival_score h - 4.0 else survival_score h + 0.5)%float
    /\ staff_stress h'
       = clamp_metric (if died then staff_stress h + 3.0 else staff_stress h)%float
    /\ (available_beds h <= 0 \/ staff_capacity_this_round h <= 0 ->
        reputation h' = clamp_metric (after_outcome + 0.5)%float)
    /\ (0 < available_beds h /\ 0 < staff_capacity_this_round h ->
        reputation h' = clamp_metric (after_outcome - 1.0)%float)
    /\ available_beds h' = available_beds h
    /\ staff_capacity_this_round h' = staff_capacity_this_round h
    /\ (exists q : Patient,
           get_patient_by_id (rs_game out) pid = Some q
           /\ has_left q = true /\ is_alive q = negb died).
Proof.
  intros g submitted r k st out pid p Hat Hnth Hfind Halive Hleft Hrun
         st' h h' died after_outcome.
  pose proof (find_patient_id _ _ _ Hfind) as Hpid.
  assert (Hstep : st' = transfer_patient st pid p (severity_visible p)
                          (severity_hidden_true p))
    by (apply decision_step_transfer; assumption).
  pose proof (state_at_succ _ _ _ _ _ _ Hat Hnth) as Hnext. fold st' in Hnext.
  assert (Hafter : get_patient_by_id (rs_game st') pid
                   = Some (set_is_alive (set_has_left p true) (negb died))).
  { rewrite Hstep. unfold transfer_patient, rng_random.
    fold (next_float (rs_rng st)). cbn [severity_hidden_true set_has_left].
    rewrite transfer_death_probability. fold died. read_fields.
    rewrite update_metrics_patients. apply (get_stored_patient _ _ p); [exact Hfind|].
    reflexivity. }
  assert (Hfinal : exists q : Patient,
             get_patient_by_id (rs_game out) pid = Some q
             /\ has_left q = true /\ is_alive q = negb died).
  { destruct (result_from_state_at _ _ _ _ _ _ Hnext Hrun) as [prob ->].
    destruct (finish_round_patient prob _ pid _
                (decision_loop_departed (skipn (S k) submitted) st' pid _ Hafter eq_refl))
      as [s ->].
    eexists. split; [reflexivity|]. split; reflexivity. }
  split; [exact Hnext|]. split; [exact Hafter|].
  clear Hnext Hafter Hrun. subst h'. rewrite Hstep. clear Hstep st'.
  unfold transfer_patient, rng_random. fold (next_float (rs_rng st)).
  cbn [severity_hidden_true set_has_left].
  rewrite transfer_death_probability. fold died. read_fields.
  split; [reflexivity|]. split; [reflexivity|].
  split.
  { unfold _explain_decision_and_outcome. cbn [id set_is_alive set_has_left].
    rewrite Hpid. destruct died; reflexivity. }
  split; [destruct died; reflexivity|].
  split; [destruct died; reflexivity|].
  rewrite update_metrics_transfer. read_fields. fold h.
  split; [reflexivity|]. split; [reflexivity|].
  split.
  { intros Hscarce.
    assert (Hcond : (available_beds h <=? 0) || (staff_capacity_this_round h <=? 0) = true).
    { apply orb_true_iff. destruct Hscarce; [left|right]; apply Z.leb_le; assumption. }
    rewrite Hcond. reflexivity. }
  split.
  { intros [Hb Hs].
    assert (Hcond : (available_beds h <=? 0) || (staff_capacity_this_round h <=? 0) = false).
    { apply orb_false_iff. split; apply Z.leb_gt; assumption. }
    rewrite Hcond. reflexivity. }
  split; [reflexivity|]. split; [reflexivity|]. exact Hfinal.
Qed.

Lemma transfer_turn_witness :
  let st' := decision_step (sample_full_state_at 2) (2, TRANSFER) in
  get_patient_by_id (rs_game st') 2
  = Some (mkPatient 2 "Patient 2" MILD MILD 1 false true true)
  /\ rs_rng st' = advance (rs_rng (sample_full_state_at 2))
  /\ reputation (hospital (rs_game st'))
     = clamp_metric
         (reputation (hospital (rs_game (sample_full_state_at 2))) + 0.5 + 0.5)%float.
Proof.
  destruct (transfer_turn sample_full_game sample_full_decisions sample_round_draws 2
              (sample_full_state_at 2) sample_full_result 2 sample_mild_patient)
    as (_ & Hpatient & _ & Hrng & _ & _ & _ & _ & _ & Hscarce & _).
  - vm_compute. reflexivity.
  - reflexivity.
  - vm_compute. reflexivity.
  - reflexivity.
  - reflexivity.
  - vm_compute. reflexivity.
  - split; [exact Hpatient|]. split; [exact Hrng|].
    apply Hscarce. left. vm_compute. discriminate.
Defined.

(** *** Treat-now without capacity *)

Lemma decision_step_coerced (st : RoundState) (pid : Z) (p : Patient) :
  get_patient_by_id (rs_game st) pid = Some p ->
  is_alive p = true -> has_left p = false ->
  staff_capacity_this_round (hospital (rs_game st)) <= 0
  \/ available_beds (hospital (rs_game st)) <= 0 ->
  decision_step st (pid, TREAT_NOW)
  = resolve_outcome
      (mkRound (rs_game st) (add_note (rs_summary st) (coercion_note pid)) (rs_rng st))
      pid p (severity_visible p) (severity_hidden_true p) DEFER false.
Proof.
  intros Hfind Halive Hleft Hscarce. unfold decision_step.
  rewrite Hfind, Halive, Hleft. cbn [negb orb].
  assert (Hcond : (0 <? staff_capacity_this_round (hospital (rs_game st)))
                  && (0 <? available_beds (hospital (rs_game st))) = false).
  { apply andb_false_iff. destruct Hscarce; [left|right]; apply Z.ltb_ge; assumption. }
  rewrite Hcond, (find_patient_id _ _ _ Hfind). reflexivity.
Qed.

Lemma decision_step_defer (st : RoundState) (pid : Z) (p : Patient) :
  get_patient_by_id (rs_game st) pid = Some p ->
  is_alive p = true -> has_left p = false ->
  decision_step st (pid, DEFER)
  = resolve_outcome st pid p (severity_visible p) (severity_hidden_true p) DEFER false.
Proof.
  intros Hfind Halive Hleft. unfold decision_step.
  rewrite Hfind, Halive, Hleft. reflexivity.
Qed.

Lemma defer_death_probability (sev : SeverityLevel) :
  _death_probability sev false DEFER = (claimed_base_rate sev * 2.0)%float.
Proof. destruct sev; reflexivity. Qed.

Lemma update_metrics_defer (g : GameState) (p : Patient) (died : bool) :
  let h := hospital g in
  hospital (_update_metrics_for_patient_outcome g p died DEFER)
  = mkHospital (available_beds h) (staff_capacity_this_round h)
      (clamp_metric (if died then survival_score h - 4.0 else survival_score h + 0.5)%float)
      (clamp_metric (if died then staff_stress h + 3.0 else staff_stress h)%float)
      (clamp_metric
         ((if died then reputation h - 2.0 else reputation h + 0.5) - 1.0)%float).
Proof.
  unfold _update_metrics_for_patient_outcome. destruct died; reflexivity.
Qed.

(** C4. When the loop reaches a TreatNow entry whose patient is in the roster,
    alive and present, and no staff slot or no bed is free at that moment: the
    summary that [apply_player_decisions] returns still maps the patient id to
    TreatNow; the turn does not mark the patient treated and adds the id to no
    treated list; it appends the coercion note, which is still among the notes
    returned; and everything after that is the turn of a Defer entry: death is
    sampled with the untreated Defer probability (base rate times 2.0), the
    metrics take the Defer change (reputation -1.0, no staff-stress load) and
    the explanation names Defer and an untreated patient.  With the keys of the
    submitted map distinct, as in a [dict], the treated flag of the patient is
    still what it was when the round returns. *)
Theorem treat_now_without_capacity :
  forall (g : GameState) (submitted : list (Z * TriageDecision)) (r : Rng) (k : nat)
         (st out : RoundState) (pid : Z) (p : Patient),
    apply_player_decisions g submitted r = Some out ->
    state_at g submitted r k = Some st ->
    nth_error submitted k = Some (pid, TREAT_NOW) ->
    get_patient_by_id (rs_game st) pid = Some p ->
    is_alive p = true ->
    has_left p = false ->
    staff_capacity_this_round (hospital (rs_game st)) <= 0
    \/ available_beds (hospital (rs_game st)) <= 0 ->
    let st' := decision_step st (pid, TREAT_NOW) in
    let noted :=
      mkRound (rs_game st) (add_note (rs_summary st) (coercion_note pid)) (rs_rng st) in
    let h := hospital (rs_game st) in
    let h' := hospital (rs_game st') in
    let died :=
      (next_float (rs_rng st) <? claimed_base_rate (severity_hidden_true p) * 2.0)%float in
    let p' := if died then set_is_alive p false else p in
    decisions (rs_summary out) = submitted
    /\ In (pid, TREAT_NOW) (decisions (rs_summary out))
    /\ In (coercion_note pid) (notes (rs_summary out))
    /\ state_at g submitted r (S k) = Some st'
    /\ st' = decision_step noted (pid, DEFER)
    /\ get_patient_by_id (rs_game st') pid = Some p'
    /\ is_treated p' = is_treated p
    /\ patients_treated (rs_summary st') = patients_treated (rs_summary st)
    /\ notes (rs_summary st')
       = notes (rs_summary st)
         ++ [coercion_note pid;
             explanation pid (severity_visible p) (severity_hidden_true p)
                         DEFER false died]
    /\ (claimed_base_rate (severity_hidden_true p) * 2.0)%float
       = _death_probability (severity_hidden_true p) false DEFER
    /\ rs_game st' = _update_metrics_for_patient_outcome
                       (store_patient (rs_game st) p') p' died DEFER
    /\ reputation h'
       = clamp_metric
           ((if died then reputation h - 2.0 else reputation h + 0.5) - 1.0)%float
    /\ staff_stress h'
       = clamp_metric (if died then staff_stress h + 3.0 else staff_stress h)%float
    /\ available_beds h' = available_beds h
    /\ staff_capacity_this_round h' = staff_capacity_this_round h
    /\ (NoDup (map fst submitted) ->
        exists q : Patient,
          get_patient_by_id (rs_game out) pid = Some q
          /\ is_treated q = is_treated p).
Proof.
  intros g submitted r k st out pid p Hrun Hat Hnth Hfind Halive Hleft Hscarce
         st' noted h h' died p'.
  pose proof (find_patient_id _ _ _ Hfind) as Hpid.
  pose proof (state_at_succ _ _ _ _ _ _ Hat Hnth) as Hnext. fold st' in Hnext.
  destruct (state_at_result _ _ _ _ _ _ Hnext Hrun) as (Hdec & _ & _ & more & Hmore).
  assert (Hstep : st' = resolve_outcome noted pid p (severity_visible p)
                          (severity_hidden_true p) DEFER false)
    by (apply decision_step_coerced; assumption).
  assert (Hnotes : notes (rs_summary st')
                   = notes (rs_summary st)
                     ++ [coercion_note pid;
                         explanation pid (severity_visible p) (severity_hidden_true p)
                                     DEFER false died]).
  { rewrite Hstep. unfold resolve_outcome, rng_random, _explain_decision_and_outcome.
    cbn [rs_rng rs_summary noted]. fold (next_float (rs_rng st)).
    rewrite defer_death_probability. fold died.
    destruct died; cbn; rewrite Hpid, <- app_assoc; reflexivity. }
  split; [exact Hdec|].
  split; [rewrite Hdec; exact (nth_error_In _ _ Hnth)|].
  split.
  { rewrite Hmore, Hnotes. apply in_or_app. left. apply in_or_app. right. left.
    reflexivity. }
  split; [exact Hnext|].
  split; [rewrite Hstep; symmetry; apply (decision_step_defer noted pid p); assumption|].
  assert (Hafter : get_patient_by_id (rs_game st') pid = Some p').
  { rewrite Hstep. unfold resolve_outcome, rng_random. cbn [rs_rng rs_game noted].
    fold (next_float (rs_rng st)). rewrite defer_death_probability. fold died. fold p'.
    rewrite update_metrics_patients. apply (get_stored_patient _ _ p); [exact Hfind|].
    subst p'. destruct died; reflexivity. }
  assert (Hkept : is_treated p' = is_treated p)
    by (subst p'; destruct died; reflexivity).
  assert (Hfinal : NoDup (map fst submitted) ->
                   exists q : Patient,
                     get_patient_by_id (rs_game out) pid = Some q
                     /\ is_treated q = is_treated p).
  { intros Hkeys.
    destruct (result_from_state_at _ _ _ _ _ _ Hnext Hrun) as [prob ->].
    pose proof (decision_loop_other_patients _ st' pid
                  (later_keys_differ _ _ _ _ Hkeys Hnth)) as Hrest.
    rewrite Hafter in Hrest.
    destruct (finish_round_patient prob _ pid _ Hrest) as [s ->].
    eexists. split; [reflexivity|]. exact Hkept. }
  split; [exact Hafter|]. split; [exact Hkept|].
  subst h'. rewrite Hnotes. rewrite Hstep.
  clear Hstep Hnext Hmore Hnotes Hafter Hrun st'.
  unfold resolve_outcome, rng_random. cbn [rs_rng rs_summary rs_game noted].
  fold (next_float (rs_rng st)). rewrite defer_death_probability. fold died. fold p'.
  split; [destruct died; reflexivity|].
  split; [reflexivity|]. split; [reflexivity|]. split; [reflexivity|].
  rewrite update_metrics_defer. read_fields. fold h.
  split; [reflexivity|]. split; [reflexivity|]. split; [reflexivity|].
  split; [reflexivity|]. exact Hfinal.
Qed.

Lemma treat_now_without_capacity_witness :
  let st' := decision_step (sample_full_state_at 1) (1, TREAT_NOW) in
  In (1, TREAT_NOW) (decisions (rs_summary sample_full_result))
  /\ In (coercion_note 1) (notes (rs_summary sample_full_result))
  /\ st' = decision_step
             (mkRound (rs_game (sample_full_state_at 1))
                      (add_note (rs_summary (sample_full_state_at 1)) (coercion_note 1))
                      (rs_rng (sample_full_state_at 1)))
             (1, DEFER)
  /\ get_patient_by_id (rs_game st') 1
     = Some (mkPatient 1 "Patient 1" CRITICAL CRITICAL 1 false false false).
Proof.
  destruct (treat_now_without_capacity sample_full_game sample_full_decisions
              sample_round_draws 1 (sample_full_state_at 1) sample_full_result 1
              sample_critical_patient)
    as (_ & Hmap & Hnote & _ & Hdefer & Hpatient & _).
  - vm_compute. reflexivity.
  - vm_compute. reflexivity.
  - reflexivity.
  - vm_compute. reflexivity.
  - reflexivity.
  - reflexivity.
  - right. vm_compute. discriminate.
  - split; [exact Hmap|]. split; [exact Hnote|]. split; [exact Hdefer|]. exact Hpatient.
Defined.

(** *** The round resolves on every reachable state *)

Lemma staff_shortage_rounding (n : Z) :
  0 <= n <= MAX_STAFF_CAPACITY ->
  exists (f : float) (m : Z),
    int_to_float n = Some f
    /\ py_round (f * 0.6)%float = Some m
    /\ 1 <= Z.max 1 m <= MAX_STAFF_CAPACITY.
Proof.
  unfold MAX_STAFF_CAPACITY. intros Hn.
  assert (Hcases : n = 0 \/ n = 1 \/ n = 2 \/ n = 3 \/ n = 4) by lia.
  destruct Hcases as [-> | [-> | [-> | [-> | ->]]]];
    do 2 eexists;
    (split; [vm_compute; reflexivity|]);
    (split; [vm_compute; reflexivity|]); lia.
Qed.

Lemma environment_shocks_staff (g : GameState) (s : RoundSummary) (base : float)
    (r : Rng) :
  staff_in_range g ->
  exists prob g' s' r',
    _apply_environment_shocks g s base r = Some (prob, g', s', r')
    /\ staff_in_range g'.
Proof.
  intros Hstaff. unfold _apply_environment_shocks, rng_random.
  destruct (difficulty g); [do 4 eexists; split; [reflexivity|exact Hstaff]|].
  destruct (_ <? 0.20)%float.
  { destruct (staff_shortage_rounding _ Hstaff) as (f & m & -> & -> & Hm).
    do 4 eexists. split; [reflexivity|]. unfold staff_in_range. read_fields. lia. }
  destruct (_ <? 0.40)%float.
  { destruct (0 <? available_beds (hospital g));
      do 4 eexists; (split; [reflexivity|exact Hstaff]). }
  destruct (_ <? 0.60)%float; [do 4 eexists; split; [reflexivity|exact Hstaff]|].
  destruct (_ <? 0.5)%float; do 4 eexists; (split; [reflexivity|exact Hstaff]).
Qed.

Lemma decision_step_staff (st : RoundState) (entry : Z * TriageDecision) :
  staff_in_range (rs_game st) -> staff_in_range (rs_game (decision_step st entry)).
Proof.
  destruct entry as [pid decision]. unfold staff_in_range. intros Hstaff.
  destruct (decision_step_game st pid decision)
    as [-> | (p & p' & h' & _ & _ & _ & _ & -> & Hcases)]; [exact Hstaff|].
  read_fields. destruct Hcases as [(_ & _ & ->) | (_ & Hpos & _ & ->)]; lia.
Qed.

Lemma decision_loop_staff (submitted : list (Z * TriageDecision)) (st : RoundState) :
  staff_in_range (rs_game st) ->
  staff_in_range (rs_game (fold_left decision_step submitted st)).
Proof.
  revert st. induction submitted as [|entry rest IH]; intros st H; simpl; [exact H|].
  apply IH, decision_step_staff, H.
Qed.

Lemma finish_round_staff (prob : float) (st : RoundState) :
  staff_capacity_this_round (hospital (rs_game (finish_round prob st)))
  = staff_capacity_this_round (hospital (rs_game st)).
Proof.
  unfold finish_round.
  destruct (deterioration_pass _ _ _ _ _) as [[roster summary] r]. reflexivity.
Qed.

Lemma apply_player_decisions_staff (g : GameState)
    (submitted : list (Z * TriageDecision)) (r : Rng) :
  staff_in_range g ->
  exists out : RoundState,
    apply_player_decisions g submitted r = Some out /\ staff_in_range (rs_game out).
Proof.
  intros Hstaff. unfold apply_player_decisions, start_round.
  destruct (environment_shocks_staff g
              (set_decisions (new_summary (current_round g)) submitted)
              (_deterioration_probability (difficulty g)) r Hstaff)
    as (prob & g1 & s1 & r1 & -> & Hstaff1).
  eexists. split; [reflexivity|].
  unfold staff_in_range. rewrite finish_round_staff.
  apply (decision_loop_staff submitted (mkRound g1 s1 r1)). exact Hstaff1.
Qed.

Lemma reachable_staff_in_range (g : GameState) : reachable g -> staff_in_range g.
Proof.
  induction 1 as [d | g r _ IH | g submitted r out _ IH Hrun | g s _ IH | g _ IH].
  - unfold staff_in_range; cbn. unfold MAX_STAFF_CAPACITY. lia.
  - destruct (generate_hospital g r) as [Hh _]. unfold staff_in_range.
    rewrite Hh. exact IH.
  - destruct (apply_player_decisions_staff g submitted r IH) as (out' & Hrun' & Hout).
    rewrite Hrun in Hrun'. injection Hrun' as ->. exact Hout.
  - exact IH.
  - unfold staff_in_range; cbn. unfold MAX_STAFF_CAPACITY. lia.
Qed.

(** On every reachable state, whatever is submitted and drawn,
    [apply_player_decisions] returns: the only statement that can raise, the
    rounding in the staff-shortage branch, is given a staff capacity between 0
    and [MAX_STAFF_CAPACITY]. *)
Lemma apply_player_decisions_returns (g : GameState)
    (submitted : list (Z * TriageDecision)) (r : Rng) :
  reachable g ->
  exists out : RoundState, apply_player_decisions g submitted r = Some out.
Proof.
  intros Hreach.
  destruct (apply_player_decisions_staff g submitted r (reachable_staff_in_range g Hreach))
    as (out & Hrun & _).
  exists out. exact Hrun.
Qed.

(* ===================================================================== *)
(** ** Further properties of the engine and of the game state *)
(* ===================================================================== *)

(** *** Severity ranks *)

(** X1. The two rank conversions are inverse of each other on the four
    severities, and [_int_to_severity] accepts every integer: an index below
    0 gives Mild, one above 3 gives Critical, and the rank of the result is the
    index clamped to [0,3]. *)
Theorem severity_rank_round_trip :
  forall (sev : SeverityLevel) (idx : Z),
    _int_to_severity (_severity_to_int sev) = sev
    /\ _severity_to_int (_int_to_severity idx) = Z.max 0 (Z.min 3 idx)
    /\ (idx <= 0 -> _int_to_severity idx = MILD)
    /\ (3 <= idx -> _int_to_severity idx = CRITICAL)
    /\ (_int_to_severity idx = sev <-> Z.max 0 (Z.min 3 idx) = _severity_to_int sev).
Proof.
  intros sev idx.
  assert (Hinj : forall a b, _severity_to_int a = _severity_to_int b -> a = b)
    by (intros [] []; simpl; (reflexivity || discriminate)).
  split; [destruct sev; reflexivity|].
  split; [apply int_to_severity_rank|].
  split.
  { intros Hle. apply Hinj. rewrite int_to_severity_rank. simpl. lia. }
  split.
  { intros Hge. apply Hinj. rewrite int_to_severity_rank. simpl. lia. }
  split.
  - intros <-. symmetry. apply int_to_severity_rank.
  - intros Heq. apply Hinj. rewrite int_to_severity_rank. exact Heq.
Qed.

(** X2. [_sample_true_severity] always takes exactly two draws.  The first
    picks the bucket: below [severe_prob] the patient is Severe or Critical
    (Severe when the second draw is below 0.6), otherwise Mild or Moderate
    (Mild when the second draw is below 0.5). *)
Theorem sample_true_severity_buckets :
  forall (severe_prob : float) (r : Rng),
    let x := next_float r in
    let y := next_float (advance r) in
    let '(sev, r') := _sample_true_severity severe_prob r in
    r' = advance (advance r)
    /\ ((x <? severe_prob)%float = true ->
        sev = if (y <? 0.6)%float then SEVERE else CRITICAL)
    /\ ((x <? severe_prob)%float = false ->
        sev = if (y <? 0.5)%float then MILD else MODERATE)
    /\ (2 <= _severity_to_int sev <-> (x <? severe_prob)%float = true).
Proof.
  intros severe_prob r x y. unfold _sample_true_severity, rng_random.
  fold (next_float r). fold x. fold (next_float (advance r)). fold y.
  destruct (x <? severe_prob)%float.
  - repeat split; try reflexivity; try discriminate.
    destruct (y <? 0.6)%float; simpl; lia.
  - repeat split; try reflexivity; try discriminate.
    destruct (y <? 0.5)%float; simpl; lia.
Qed.

(** *** Looking a patient up *)

(** X3. [get_patient_by_id] answers [None] exactly when no roster entry has
    the id; otherwise it answers the first entry with that id: the patient is
    in the roster, carries the id, and no entry before it does. *)
Theorem get_patient_by_id_first_match :
  forall (g : GameState) (pid : Z),
    match get_patient_by_id g pid with
    | None => forall p, In p (patients g) -> id p <> pid
    | Some p =>
        id p = pid
        /\ exists before after,
            patients g = before ++ p :: after
            /\ forall q, In q before -> id q <> pid
    end.
Proof.
  intros g pid. unfold get_patient_by_id.
  induction (patients g) as [|q ps IH]; simpl.
  - intros p [].
  - destruct (id q =? pid) eqn:E.
    + apply Z.eqb_eq in E. split; [exact E|].
      exists [], ps. split; [reflexivity|]. intros q' [].
    + apply Z.eqb_neq in E.
      destruct (find_patient ps pid) as [p|].
      * destruct IH as (Hid & before & after & Hsplit & Hbefore).
        split; [exact Hid|].
        exists (q :: before), after. split; [rewrite Hsplit; reflexivity|].
        intros q' [<- | Hin]; [exact E|apply Hbefore, Hin].
      * intros p [<- | Hin]; [exact E|apply IH, Hin].
Qed.

(** *** End of game *)

Lemma SFleb_trans (a b c : spec_float) :
  SFleb a b = true -> SFleb b c = true -> SFleb a c = true.
Proof.
  unfold SFleb, SFcompare.
  destruct a as [sa|sa| |sa ma ea], b as [sb|sb| |sb mb eb], c as [sc|sc| |sc mc ec];
    try discriminate;
    try (destruct sa; try discriminate); try (destruct sb; try discriminate);
    try (destruct sc; try discriminate); try reflexivity;
    change (Pos.compare_cont Eq ma mb) with (Pos.compare ma mb);
    change (Pos.compare_cont Eq mb mc) with (Pos.compare mb mc);
    change (Pos.compare_cont Eq ma mc) with (Pos.compare ma mc);
    destruct (Z.compare_spec ea eb), (Z.compare_spec eb ec), (Z.compare_spec ea ec);
    try discriminate; try reflexivity; try lia; subst;
    destruct (Pos.compare_spec ma mb), (Pos.compare_spec mb mc),
             (Pos.compare_spec ma mc);
    simpl; try discriminate; try reflexivity; try lia.
Qed.

Lemma leb_trans (a b c : float) :
  (a <=? b)%float = true -> (b <=? c)%float = true -> (a <=? c)%float = true.
Proof. rewrite !leb_spec. apply SFleb_trans. Qed.

(** X4. The verdict of [has_player_won]: it is undecided exactly while the
    game is not over; it is a win exactly when all rounds have been played
    and the three thresholds are met; a game that ends before the last round
    has been played is never a win; and a win is never declared on a state
    that also meets one of the three metric failure tests. *)
Theorem has_player_won_verdict :
  forall g : GameState,
    let h := hospital g in
    (has_player_won g = None <-> is_game_over g = false)
    /\ (has_player_won g = Some true <->
        TOTAL_ROUNDS < current_round g
        /\ (MIN_SURVIVAL_TO_WIN <=? survival_score h)%float = true
        /\ (staff_stress h <=? MAX_STAFF_STRESS_TO_WIN)%float = true
        /\ (MIN_REPUTATION_TO_WIN <=? reputation h)%float = true)
    /\ (is_game_over g = true -> current_round g <= TOTAL_ROUNDS ->
        has_player_won g = Some false)
    /\ (has_player_won g = Some true ->
        (survival_score h <=? 0.0)%float = false
        /\ (100.0 <=? staff_stress h)%float = false
        /\ (reputation h <=? 0.0)%float = false).
Proof.
  intros g h.
  assert (Hwin : has_player_won g = Some true <->
                 TOTAL_ROUNDS < current_round g
                 /\ (MIN_SURVIVAL_TO_WIN <=? survival_score h)%float = true
                 /\ (staff_stress h <=? MAX_STAFF_STRESS_TO_WIN)%float = true
                 /\ (MIN_REPUTATION_TO_WIN <=? reputation h)%float = true).
  { unfold has_player_won, is_game_over. fold h.
    destruct (TOTAL_ROUNDS <? current_round g) eqn:Hlate.
    - apply Z.ltb_lt in Hlate. cbn [negb].
      destruct (current_round g <=? TOTAL_ROUNDS) eqn:Hearly;
        [apply Z.leb_le in Hearly; lia|].
      destruct (MIN_SURVIVAL_TO_WIN <=? survival_score h)%float,
               (staff_stress h <=? MAX_STAFF_STRESS_TO_WIN)%float,
               (MIN_REPUTATION_TO_WIN <=? reputation h)%float; cbn [andb];
        split; try discriminate; try (intros (_ & ? & ? & ?); discriminate);
        intros _; repeat split; assumption.
    - apply Z.ltb_ge in Hlate.
      assert (Hearly : (current_round g <=? TOTAL_ROUNDS) = true)
        by (apply Z.leb_le; exact Hlate).
      rewrite Hearly.
      destruct (survival_score h <=? 0.0)%float; cbn [negb];
        [split; [discriminate|lia]|].
      destruct (100.0 <=? staff_stress h)%float; cbn [negb];
        [split; [discriminate|lia]|].
      destruct (reputation h <=? 0.0)%float; cbn [negb];
        split; (discriminate || lia). }
  split.
  { unfold has_player_won. destruct (is_game_over g); cbn [negb].
    - destruct (current_round g <=? TOTAL_ROUNDS); [split; discriminate|].
      destruct (_ && _ && _)%bool; split; discriminate.
    - split; reflexivity. }
  split; [exact Hwin|].
  split.
  { intros Hover Hearly. unfold has_player_won. rewrite Hover. cbn [negb].
    apply Z.leb_le in Hearly. rewrite Hearly. reflexivity. }
  intros Hyes. apply Hwin in Hyes. destruct Hyes as (_ & Hs & Ht & Hr).
  repeat split.
  - destruct (survival_score h <=? 0.0)%float eqn:E; [|reflexivity].
    pose proof (leb_trans _ _ _ Hs E) as Habs. vm_compute in Habs. discriminate.
  - destruct (100.0 <=? staff_stress h)%float eqn:E; [|reflexivity].
    pose proof (leb_trans _ _ _ E Ht) as Habs. vm_compute in Habs. discriminate.
  - destruct (reputation h <=? 0.0)%float eqn:E; [|reflexivity].
    pose proof (leb_trans _ _ _ Hr E) as Habs. vm_compute in Habs. discriminate.
Qed.

(** *** Arrivals *)

Lemma randint_in_range (a b : Z) (r : Rng) :
  a <= b -> a <= fst (rng_randint a b r) <= b.
Proof.
  intros Hab. unfold rng_randint, rng_randbelow. cbn [fst].
  assert (Hpos : Z.to_nat (b - a + 1) <> 0%nat) by lia.
  pose proof (Nat.mod_upper_bound (as_index (tape r (cursor r)))
                (Z.to_nat (b - a + 1)) Hpos) as Hlt.
  lia.
Qed.

Lemma noise_delta_bound (d : DifficultyLevel) (r : Rng) :
  Z.abs (fst (noise_delta d r)) <= noise_bound d.
Proof.
  unfold noise_delta, rng_random.
  destruct d; simpl noise_bound.
  - destruct (_ <? 0.8)%float; [simpl; lia|].
    destruct (choice_of_two (-1) 1 (advance r)) as [_ [-> | ->]]; lia.
  - destruct (_ <? 0.6)%float; [simpl; lia|].
    destruct (_ <? 0.9)%float.
    + destruct (choice_of_two (-1) 1 (advance r)) as [_ [-> | ->]]; lia.
    + destruct (choice_of_two (-2) 2 (advance r)) as [_ [-> | ->]]; lia.
Qed.

Lemma noisy_visible_severity_distance (tru : SeverityLevel) (d : DifficultyLevel)
    (r : Rng) :
  Z.abs (_severity_to_int (fst (_noisy_visible_severity tru d r))
         - _severity_to_int tru)
  <= noise_bound d.
Proof.
  unfold _noisy_visible_severity.
  pose proof (noise_delta_bound d r) as Hdelta.
  destruct (noise_delta d r) as [delta r']. cbn [fst] in *.
  rewrite int_to_severity_rank.
  pose proof (severity_to_int_range tru). lia.
Qed.

Lemma generate_loop_batch (n : nat) (severe_prob : float) (g : GameState)
    (acc : list Patient) (r : Rng) :
  exists batch : list Patient,
    let g' := snd (fst (generate_loop n severe_prob g acc r)) in
    fst (fst (generate_loop n severe_prob g acc r)) = acc ++ batch
    /\ List.length batch = n
    /\ patients g' = patients g ++ batch
    /\ next_patient_id g' = next_patient_id g + Z.of_nat n
    /\ map id batch
       = map (fun i => next_patient_id g + Z.of_nat i) (seq 0 n)
    /\ Forall (freshly_arrived g) batch
    /\ hospital g' = hospital g /\ history g' = history g
    /\ current_round g' = current_round g /\ difficulty g' = difficulty g.
Proof.
  revert g acc r. induction n as [|n IH]; intros g acc r.
  - exists []. cbn. rewrite !app_nil_r. repeat split; try reflexivity; try lia.
    constructor.
  - cbn [generate_loop].
    destruct (_sample_true_severity severe_prob r) as [tru r1].
    pose proof (noisy_visible_severity_distance tru (difficulty g) r1) as Hdist.
    destruct (_noisy_visible_severity tru (difficulty g) r1) as [vis r2].
    cbn [fst] in Hdist.
    set (p := new_patient (next_patient_id g)
                (fstring ["Patient "; str (next_patient_id g)]) vis tru
                (current_round (set_next_patient_id g (next_patient_id g + 1)))).
    set (g1 := set_patients (set_next_patient_id g (next_patient_id g + 1))
                 (patients (set_next_patient_id g (next_patient_id g + 1)) ++ [p])).
    destruct (IH g1 (acc ++ [p]) r2)
      as (batch & Hacc & Hlen & Hroster & Hnext & Hids & Hfresh & Hh & Hhist & Hround & Hd).
    exists (p :: batch). cbv zeta in *.
    rewrite Hacc, Hroster, Hnext, Hh, Hhist, Hround, Hd.
    subst g1. read_fields.
    split; [rewrite <- app_assoc; reflexivity|].
    split; [cbn; rewrite Hlen; reflexivity|].
    split; [rewrite <- app_assoc; reflexivity|].
    split; [lia|].
    split.
    { cbn [map seq]. rewrite Hids. read_fields. f_equal; [subst p; cbn; f_equal; lia|].
      rewrite <- seq_shift, map_map. apply map_ext. intros i. lia. }
    split; [|repeat split].
    constructor.
    + subst p. unfold freshly_arrived. cbn. repeat split. exact Hdist.
    + eapply Forall_impl; [|exact Hfresh]. intros q Hq. exact Hq.
Qed.

Lemma generate_batch_shape (g : GameState) (r : Rng) :
  let '(batch, g', r') := generate_new_patients_for_round g r in
  let n := Z.of_nat (List.length batch) in
  fst (_patients_per_round (difficulty g)) <= n
       <= snd (_patients_per_round (difficulty g))
  /\ patients g' = patients g ++ batch
  /\ map id batch
     = map (fun i => next_patient_id g + Z.of_nat i) (seq 0 (List.length batch))
  /\ next_patient_id g' = next_patient_id g + n
  /\ hospital g' = hospital g /\ history g' = history g
  /\ current_round g' = current_round g /\ difficulty g' = difficulty g.
Proof.
  unfold generate_new_patients_for_round.
  assert (Hrange : 0 <= fst (_patients_per_round (difficulty g))
                   <= snd (_patients_per_round (difficulty g)))
    by (destruct (difficulty g); simpl; lia).
  destruct (_patients_per_round (difficulty g)) as [min_p max_p]. cbn [fst snd] in *.
  destruct Hrange as [Hmin Hrange].
  pose proof (randint_in_range min_p max_p r Hrange) as Hnum.
  destruct (rng_randint min_p max_p r) as [num_new r1]. cbn [fst] in Hnum.
  destruct (generate_loop_batch (Z.to_nat num_new) (_severe_probability (difficulty g))
              g [] r1)
    as (batch & Hacc & Hlen & Hroster & Hnext & Hids & _ & Hh & Hhist & Hround & Hd).
  destruct (generate_loop _ _ g [] r1) as [[batch' g'] r'].
  cbn [fst snd app] in *. subst batch'. rewrite Hlen.
  repeat split; try assumption; try lia.
Qed.

(** X5. [generate_new_patients_for_round] draws a batch whose size lies in the
    range of the tier (3 to 4 on Basic, 4 to 7 on Stochastic), appends it to
    the roster behind the patients already there, which keep their places,
    numbers it with consecutive ids starting at [next_patient_id], and moves
    [next_patient_id] past the batch.  The round counter, the difficulty, the
    history and the hospital are untouched: arrivals are not gated on beds or
    staff. *)
Theorem generate_new_patients_batch :
  forall (g : GameState) (r : Rng),
    let '(batch, g', r') := generate_new_patients_for_round g r in
    let n := Z.of_nat (List.length batch) in
    fst (_patients_per_round (difficulty g)) <= n
         <= snd (_patients_per_round (difficulty g))
    /\ (match difficulty g with BASIC => 3 <= n <= 4 | STOCHASTIC => 4 <= n <= 7 end)
    /\ patients g' = patients g ++ batch
    /\ (forall i, (i < List.length (patients g))%nat ->
        nth_error (patients g') i = nth_error (patients g) i)
    /\ map id batch
       = map (fun i => next_patient_id g + Z.of_nat i) (seq 0 (List.length batch))
    /\ next_patient_id g' = next_patient_id g + n
    /\ hospital g' = hospital g /\ history g' = history g
    /\ current_round g' = current_round g /\ difficulty g' = difficulty g.
Proof.
  intros g r. pose proof (generate_batch_shape g r) as Hshape.
  destruct (generate_new_patients_for_round g r) as [[batch g'] r'].
  cbv zeta in *.
  destruct Hshape as (Hcount & Hroster & Hids & Hnext & Hh & Hhist & Hround & Hd).
  split; [exact Hcount|].
  split; [destruct (difficulty g); exact Hcount|].
  split; [exact Hroster|].
  split; [intros i Hi; rewrite Hroster; apply nth_error_app1; exact Hi|].
  split_ands; assumption.
Qed.

(** X6. Every patient that [generate_new_patients_for_round] returns is alive,
    untreated and present, arrived in the current round, is named after its
    id, and shows a severity at most one rank away from the true one on Basic
    and at most two ranks away on Stochastic. *)
Theorem generated_patients_are_fresh :
  forall (g : GameState) (r : Rng) (p : Patient),
    In p (fst (fst (generate_new_patients_for_round g r))) ->
    is_alive p = true /\ is_treated p = false /\ has_left p = false
    /\ arrival_round p = current_round g
    /\ name p = fstring ["Patient "; str (id p)]
    /\ Z.abs (_severity_to_int (severity_visible p)
              - _severity_to_int (severity_hidden_true p))
       <= (match difficulty g with BASIC => 1 | STOCHASTIC => 2 end).
Proof.
  intros g r p. unfold generate_new_patients_for_round.
  destruct (_patients_per_round (difficulty g)) as [min_p max_p].
  destruct (rng_randint min_p max_p r) as [num_new r1].
  destruct (generate_loop_batch (Z.to_nat num_new) (_severe_probability (difficulty g))
              g [] r1)
    as (batch & Hacc & _ & _ & _ & _ & Hfresh & _).
  rewrite Hacc. cbn [app]. intros Hin.
  rewrite Forall_forall in Hfresh. exact (Hfresh p Hin).
Qed.

Lemma generated_patients_are_fresh_witness :
  is_alive sample_critical_patient = true
  /\ is_treated sample_critical_patient = false
  /\ has_left sample_critical_patient = false
  /\ arrival_round sample_critical_patient = 1
  /\ name sample_critical_patient = fstring ["Patient "; str 1]
  /\ Z.abs (_severity_to_int (severity_visible sample_critical_patient)
            - _severity_to_int (severity_hidden_true sample_critical_patient))
     <= 1.
Proof.
  apply (generated_patients_are_fresh (new_game BASIC)
           (draws [mkDraw 0 0; flt 0.1; flt 0.7; flt 0.9; mkDraw 0 1;
                   flt 0.5; flt 0.2; flt 0.1; flt 0.9; flt 0.9])
           sample_critical_patient).
  vm_compute. left. reflexivity.
Defined.

(** *** Invariants of the reachable states *)

Lemma apply_player_decisions_same_frame (g : GameState)
    (submitted : list (Z * TriageDecision)) (r : Rng) (out : RoundState) :
  apply_player_decisions g submitted r = Some out -> same_frame g (rs_game out).
Proof.
  unfold apply_player_decisions.
  destruct (start_round g submitted r) as [[prob st]|] eqn:Hstart; [|discriminate].
  intros [= <-]. apply start_round_frame in Hstart. destruct Hstart as [Hstart _].
  eapply same_frame_trans; [exact Hstart|].
  eapply same_frame_trans; [apply decision_loop_frame|apply finish_round_frame].
Qed.

Lemma same_frame_ids (g g' : GameState) :
  same_frame g g' -> map id (patients g') = map id (patients g).
Proof.
  intros (_ & _ & _ & _ & Hid).
  apply (f_equal (map (fun t : Z * string * SeverityLevel * Z => fst (fst (fst t)))))
    in Hid.
  rewrite !map_map in Hid. exact Hid.
Qed.

Lemma reachable_ids_in_order (g : GameState) : reachable g -> ids_in_order g.
Proof.
  induction 1 as [d | g r _ IH | g submitted r out _ IH Hrun | g s _ IH | g _ IH].
  - repeat split; cbn; (constructor || lia).
  - pose proof (generate_batch_shape g r) as Hgen.
    destruct (generate_new_patients_for_round g r) as [[batch g'] r'].
    cbn [fst snd]. destruct Hgen as (_ & Hroster & Hids & Hnext & _).
    destruct IH as (Hnodup & Hbound & Hone).
    unfold ids_in_order. rewrite Hroster, Hnext, map_app, Hids.
    assert (Hnew : forall i, In i (map (fun k => next_patient_id g + Z.of_nat k)
                                       (seq 0 (List.length batch))) ->
                             next_patient_id g <= i
                             < next_patient_id g + Z.of_nat (List.length batch)).
    { intros i Hin. apply in_map_iff in Hin. destruct Hin as (k & <- & Hk).
      apply in_seq in Hk. lia. }
    rewrite Forall_forall in Hbound.
    split; [|split; [|lia]].
    + apply NoDup_app; [exact Hnodup| |].
      * apply NoDup_map_NoDup_ForallPairs; [|apply seq_NoDup].
        intros a b _ _ Heq. lia.
      * intros i Hold Hin. specialize (Hbound i Hold). specialize (Hnew i Hin). lia.
    + apply Forall_app. split; apply Forall_forall; intros i Hin.
      * specialize (Hbound i Hin). lia.
      * specialize (Hnew i Hin). lia.
  - pose proof (apply_player_decisions_same_frame g submitted r out Hrun) as Hframe.
    pose proof (same_frame_ids _ _ Hframe) as Hids.
    destruct Hframe as (_ & _ & Hnext & _).
    unfold ids_in_order. rewrite Hids, Hnext. exact IH.
  - exact IH.
  - exact IH.
Qed.

Lemma find_patient_no_duplicate (ps : list Patient) (p : Patient) :
  NoDup (map id ps) -> In p ps -> find_patient ps (id p) = Some p.
Proof.
  induction ps as [|q ps IH]; simpl; [intros _ []|].
  intros Hnodup [-> | Hin].
  - rewrite Z.eqb_refl. reflexivity.
  - inversion Hnodup as [|? ? Hnotin Hrest]; subst.
    destruct (id q =? id p) eqn:E.
    + apply Z.eqb_eq in E. exfalso. apply Hnotin. rewrite E. apply in_map, Hin.
    + apply IH; assumption.
Qed.

(** X7. In every state the engine can produce, patient ids are handed out
    once and in order: no two roster entries share an id, every id is at
    least 1 and below [next_patient_id], and so [get_patient_by_id] on the id
    of any roster entry gives back that very entry. *)
Theorem reachable_ids_are_unique :
  forall g : GameState,
    reachable g ->
    NoDup (map id (patients g))
    /\ (forall p, In p (patients g) -> 1 <= id p < next_patient_id g)
    /\ (forall p, In p (patients g) -> get_patient_by_id g (id p) = Some p).
Proof.
  intros g Hreach. destruct (reachable_ids_in_order g Hreach) as (Hnodup & Hbound & _).
  split; [exact Hnodup|]. split.
  - intros p Hin. rewrite Forall_forall in Hbound. apply Hbound, in_map, Hin.
  - intros p Hin. apply find_patient_no_duplicate; assumption.
Qed.

Lemma reachable_ids_are_unique_witness :
  NoDup (map id (patients (rs_game sample_basic_result)))
  /\ (forall p, In p (patients (rs_game sample_basic_result)) ->
      1 <= id p < next_patient_id (rs_game sample_basic_result))
  /\ (forall p, In p (patients (rs_game sample_basic_result)) ->
      get_patient_by_id (rs_game sample_basic_result) (id p) = Some p).
Proof.
  apply (reachable_ids_are_unique (rs_game sample_basic_result)).
  apply (reach_apply sample_basic_game sample_decisions sample_round_draws).
  - apply reach_generate, reach_new.
  - vm_compute. reflexivity.
Defined.

Lemma reachable_metrics_in_range (g : GameState) :
  reachable g -> metrics_in_range (hospital g).
Proof.
  induction 1 as [d | g r _ IH | g submitted r out _ IH Hrun | g s _ IH | g _ IH].
  - repeat split.
  - destruct (generate_hospital g r) as [-> _]. exact IH.
  - unfold apply_player_decisions in Hrun.
    destruct (start_round g submitted r) as [[prob st]|]; [|discriminate].
    injection Hrun as <-.
    destruct (finish_round_hospital prob (fold_left decision_step submitted st))
      as [h ->].
    apply clamp_metrics_in_range.
  - exact IH.
  - exact IH.
Qed.

(** X8. In every state the engine can produce, the free beds lie between 0
    and [MAX_BEDS], the beds taken by living, treated, present patients plus
    the free beds never exceed [MAX_BEDS], the staff capacity lies between 0
    and [MAX_STAFF_CAPACITY], and the three metrics lie in [0,100]. *)
Theorem reachable_hospital_bounds :
  forall g : GameState,
    reachable g ->
    0 <= available_beds (hospital g) <= MAX_BEDS
    /\ occupied_beds (patients g) + available_beds (hospital g) <= MAX_BEDS
    /\ 0 <= staff_capacity_this_round (hospital g) <= MAX_STAFF_CAPACITY
    /\ metric_in_range (survival_score (hospital g)) = true
    /\ metric_in_range (staff_stress (hospital g)) = true
    /\ metric_in_range (reputation (hospital g)) = true.
Proof.
  intros g Hreach.
  destruct (reachable_beds_consistent g Hreach) as [Hfree Hsum].
  pose proof (reachable_staff_in_range g Hreach) as Hstaff.
  destruct (reachable_metrics_in_range g Hreach) as (H1 & H2 & H3).
  assert (Hocc : 0 <= occupied_beds (patients g)).
  { clear. induction (patients g) as [|p ps IH]; simpl; [lia|].
    destruct (is_alive p && is_treated p && negb (has_left p)); lia. }
  repeat split; try assumption; try (apply Hstaff); lia.
Qed.

Lemma reachable_hospital_bounds_witness :
  0 <= available_beds (hospital full_ward_game) <= MAX_BEDS
  /\ occupied_beds (patients full_ward_game) + available_beds (hospital full_ward_game)
     <= MAX_BEDS
  /\ 0 <= staff_capacity_this_round (hospital full_ward_game) <= MAX_STAFF_CAPACITY
  /\ metric_in_range (survival_score (hospital full_ward_game)) = true
  /\ metric_in_range (staff_stress (hospital full_ward_game)) = true
  /\ metric_in_range (reputation (hospital full_ward_game)) = true.
Proof.
  apply (reachable_hospital_bounds full_ward_game).
  apply reach_increment, reach_summary.
  apply (reach_apply full_ward_round_2 [(5, TREAT_NOW)] (draws []));
    [|vm_compute; reflexivity].
  apply reach_generate, reach_increment, reach_summary.
  apply (reach_apply full_ward_round_1
           [(1, TREAT_NOW); (2, TREAT_NOW); (3, TREAT_NOW); (4, TREAT_NOW)]
           (draws []));
    [|vm_compute; reflexivity].
  apply reach_generate, reach_new.
Defined.





(** The rounding does raise once the staff capacity is too large for a float:
    [float(2 ** 1024)] is an [OverflowError]. *)
Example staff_shortage_overflow :
  apply_player_decisions
    (set_hospital (new_game STOCHASTIC)
       (set_staff_capacity_this_round new_hospital (2 ^ 1024)))
    [] (draws [flt 0.1])
  = None.
Proof. vm_compute. reflexivity. Qed.

(** *** Environment shocks, band by band *)

Lemma py_min_capped (cap x : float) :
  (cap <=? cap)%float = true -> (py_min cap x <=? cap)%float = true.
Proof.
  intros Hrefl. unfold py_min.
  destruct (x <? cap)%float eqn:E; [apply ltb_leb, E|exact Hrefl].
Qed.


(** X10. Whatever band the roll falls in, a shock never touches the roster or
    the three metrics, never adds a bed and never makes a non-negative bed
    count negative, leaves the staff capacity alone or sets it to at least 1,
    hands back either the base deterioration probability or
    [min(0.9, base * 1.7)], which is at most 0.9, appends at most two notes and
    takes one or two draws.  On the Basic tier it does nothing at all and
    takes no draw. *)
Theorem environment_shock_effects :
  forall (g g' : GameState) (s s' : RoundSummary) (base prob : float) (r r' : Rng),
    _apply_environment_shocks g s base r = Some (prob, g', s', r') ->
    patients g' = patients g
    /\ survival_score (hospital g') = survival_score (hospital g)
    /\ staff_stress (hospital g') = staff_stress (hospital g)
    /\ reputation (hospital g') = reputation (hospital g)
    /\ available_beds (hospital g') <= available_beds (hospital g)
    /\ (0 <= available_beds (hospital g) -> 0 <= available_beds (hospital g'))
    /\ (staff_capacity_this_round (hospital g') = staff_capacity_this_round (hospital g)
        \/ 1 <= staff_capacity_this_round (hospital g'))
    /\ (prob = base
        \/ prob = py_min 0.9 (base * 1.7)%float /\ (prob <=? 0.9)%float = true)
    /\ (exists more, notes s' = notes s ++ more /\ (List.length more <= 2)%nat)
    /\ match difficulty g with
       | BASIC => g' = g /\ s' = s /\ r' = r /\ prob = base
       | STOCHASTIC => r' = advance r \/ r' = advance (advance r)
       end.
Proof.
  intros g g' s s' base prob r r'.
  unfold _apply_environment_shocks, rng_random.
  assert (Hnone : exists more : list string,
             notes s = notes s ++ more /\ (List.length more <= 2)%nat).
  { exists []. rewrite app_nil_r. split; [reflexivity|simpl; lia]. }
  assert (Hone : forall a, exists more : list string,
             notes (add_note s a) = notes s ++ more /\ (List.length more <= 2)%nat).
  { intros a. exists [a]. split; [reflexivity|simpl; lia]. }
  assert (Htwo : forall a b, exists more : list string,
             notes (add_note (add_note s a) b) = notes s ++ more
             /\ (List.length more <= 2)%nat).
  { intros a b. exists [a; b]. cbn. rewrite <- app_assoc.
    split; [reflexivity|simpl; lia]. }
  destruct (difficulty g).
  { intros [= <- <- <- <-]. split_ands; try reflexivity; try lia; auto. }
  destruct (_ <? 0.20)%float.
  { destruct (int_to_float _) as [f|]; [|discriminate].
    destruct (py_round _) as [n|]; [|discriminate].
    intros [= <- <- <- <-]. read_fields.
    split_ands; try reflexivity; try lia; auto; try (right; lia). }
  destruct (_ <? 0.40)%float.
  { destruct (0 <? available_beds (hospital g)) eqn:Hpos; intros [= <- <- <- <-].
    - apply Z.ltb_lt in Hpos. read_fields.
      split_ands; try reflexivity; try lia; auto.
    - split_ands; try reflexivity; try lia; auto. }
  destruct (_ <? 0.60)%float.
  { intros [= <- <- <- <-]. split_ands; try reflexivity; try lia; auto.
    all: try (right; split; [reflexivity|apply py_min_capped; reflexivity]). }
  destruct (_ <? 0.5)%float; intros [= <- <- <- <-];
    split_ands; try reflexivity; try lia; auto.
Qed.

Lemma environment_shock_effects_witness :
  patients (stochastic_game_with_beds 3) = patients (stochastic_game_with_beds 5)
  /\ available_beds (hospital (stochastic_game_with_beds 3))
     <= available_beds (hospital (stochastic_game_with_beds 5)).
Proof.
  destruct (environment_shock_effects (stochastic_game_with_beds 5)
              (stochastic_game_with_beds 3) sample_summary
              (add_note (add_note sample_summary bed_outage_scenario)
                        (bed_outage_event 5 3))
              0.35 0.35 outage_roll (advance outage_roll))
    as (Hroster & _ & _ & _ & Hbeds & _).
  - vm_compute. reflexivity.
  - split; [exact Hroster|exact Hbeds].
Defined.

(** X11. The staff-shortage band.  On the Stochastic tier, with a roll below
    0.20 and a staff capacity between 0 and [MAX_STAFF_CAPACITY], the capacity
    becomes [max(1, int(round(0.6 * capacity)))]: 1 for a capacity of 0, 1 or
    2 and 2 for a capacity of 3 or 4.  So a capacity of 0 is raised to 1, and
    every other capacity is lowered or kept.  Two notes are appended; beds,
    roster and deterioration probability are untouched and one draw is taken. *)
Theorem staff_shortage_band :
  forall (g : GameState) (s : RoundSummary) (base : float) (r : Rng),
    difficulty g = STOCHASTIC ->
    (next_float r <? 0.20)%float = true ->
    0 <= staff_capacity_this_round (hospital g) <= MAX_STAFF_CAPACITY ->
    let original := staff_capacity_this_round (hospital g) in
    let new_capacity := if original <=? 2 then 1 else 2 in
    exists scenario event : string,
      _apply_environment_shocks g s base r
      = Some (base,
              set_hospital g (set_staff_capacity_this_round (hospital g) new_capacity),
              add_note (add_note s scenario) event, advance r)
      /\ (original = 0 -> new_capacity = 1)
      /\ (0 < original -> new_capacity <= original).
Proof.
  intros g s base r Hd Hroll Hstaff original new_capacity.
  unfold _apply_environment_shocks, rng_random. fold (next_float r).
  rewrite Hd, Hroll. fold original.
  assert (Hcases : original = 0 \/ original = 1 \/ original = 2
                   \/ original = 3 \/ original = 4)
    by (unfold MAX_STAFF_CAPACITY in Hstaff; fold original in Hstaff; lia).
  subst new_capacity.
  destruct Hcases as [-> | [-> | [-> | [-> | ->]]]];
    do 2 eexists; (split; [vm_compute int_to_float; cbv iota beta;
                           vm_compute py_round; cbv iota beta; reflexivity|]);
    split; intros; cbn; lia.
Qed.

Lemma staff_shortage_band_witness :
  exists scenario event : string,
    _apply_environment_shocks (new_game STOCHASTIC) sample_summary 0.35 (draws [flt 0.1])
    = Some (0.35%float,
            set_hospital (new_game STOCHASTIC)
              (set_staff_capacity_this_round new_hospital 2),
            add_note (add_note sample_summary scenario) event,
            advance (draws [flt 0.1])).
Proof.
  destruct (staff_shortage_band (new_game STOCHASTIC) sample_summary 0.35
              (draws [flt 0.1]))
    as (scenario & event & Hrun & _);
    [reflexivity|reflexivity|vm_compute; split; discriminate|].
  exists scenario, event. exact Hrun.
Defined.



(** *** The turns of the decision loop *)

Lemma treated_death_probability (sev : SeverityLevel) (decision : TriageDecision) :
  _death_probability sev true decision
  = (claimed_base_rate sev
     * match sev with SEVERE | CRITICAL => 0.25 | MILD | MODERATE => 0.10 end)%float.
Proof. destruct sev; reflexivity. Qed.

(** X13. A TreatNow entry for a patient that is in the roster, alive and
    present, reached while a staff slot and a bed are free, marks the patient
    treated, takes one bed and one staff slot, enters the id in the treated
    list, and samples death on one draw with the treated probability (base
    rate times 0.25 for Severe or Critical, times 0.10 otherwise).  A patient
    that dies keeps the treated mark.  The metrics take the outcome change and
    the TreatNow change (staff stress +1.0, reputation +0.5), and one
    explanation is appended. *)
Theorem treat_now_with_capacity_turn :
  forall (st : RoundState) (pid : Z) (p : Patient),
    get_patient_by_id (rs_game st) pid = Some p ->
    is_alive p = true ->
    has_left p = false ->
    0 < staff_capacity_this_round (hospital (rs_game st)) ->
    0 < available_beds (hospital (rs_game st)) ->
    let st' := decision_step st (pid, TREAT_NOW) in
    let h := hospital (rs_game st) in
    let h' := hospital (rs_game st') in
    let died :=
      (next_float (rs_rng st)
       <? claimed_base_rate (severity_hidden_true p)
          * match severity_hidden_true p with
            | SEVERE | CRITICAL => 0.25
            | MILD | MODERATE => 0.10
            end)%float in
    get_patient_by_id (rs_game st') pid
    = Some (if died then set_is_alive (set_is_treated p true) false
            else set_is_treated p true)
    /\ available_beds h' = available_beds h - 1
    /\ staff_capacity_this_round h' = staff_capacity_this_round h - 1
    /\ patients_treated (rs_summary st') = patients_treated (rs_summary st) ++ [pid]
    /\ patients_died (rs_summary st')
       = (if died then patients_died (rs_summary st) ++ [pid]
          else patients_died (rs_summary st))
    /\ rs_rng st' = advance (rs_rng st)
    /\ notes (rs_summary st')
       = notes (rs_summary st)
         ++ [explanation pid (severity_visible p) (severity_hidden_true p)
                         TREAT_NOW true died]
    /\ survival_score h'
       = clamp_metric (if died then survival_score h - 4.0 else survival_score h + 0.5)%float
    /\ staff_stress h'
       = clamp_metric ((if died then staff_stress h + 3.0 else staff_stress h) + 1.0)%float
    /\ reputation h'
       = clamp_metric
           ((if died then reputation h - 2.0 else reputation h + 0.5) + 0.5)%float.
Proof.
  intros st pid p Hfind Halive Hleft Hstaff Hbeds st' h h' died.
  pose proof (find_patient_id _ _ _ Hfind) as Hpid.
  subst st' h'. unfold decision_step. rewrite Hfind, Halive, Hleft. cbn [negb orb].
  apply Z.ltb_lt in Hstaff, Hbeds. rewrite Hstaff, Hbeds. cbn [andb].
  unfold resolve_outcome, rng_random. read_fields.
  fold (next_float (rs_rng st)).
  cbn [severity_hidden_true set_is_treated].
  rewrite treated_death_probability. fold died. fold h.
  split.
  { rewrite update_metrics_patients.
    assert (Hstored : get_patient_by_id
                        (set_hospital
                           (set_patients (rs_game st)
                              (store_first (patients (rs_game st))
                                 (set_is_treated p true)))
                           (set_available_beds
                              (set_staff_capacity_this_round h
                                 (staff_capacity_this_round h - 1))
                              (available_beds h - 1))) pid
                      = Some (set_is_treated p true)).
    { apply (get_stored_patient (rs_game st) pid p); [exact Hfind|reflexivity]. }
    destruct died; (eapply get_stored_patient; [exact Hstored|reflexivity]). }
  unfold _update_metrics_for_patient_outcome, _explain_decision_and_outcome.
  destruct died; read_fields; cbn [id set_is_alive set_is_treated];
    rewrite Hpid; split_ands; reflexivity.
Qed.

Lemma treat_now_with_capacity_turn_witness :
  let st' := decision_step (sample_state_at 0) (1, TREAT_NOW) in
  get_patient_by_id (rs_game st') 1 = Some (set_is_treated sample_critical_patient true)
  /\ available_beds (hospital (rs_game st')) = 4
  /\ staff_capacity_this_round (hospital (rs_game st')) = 3.
Proof.
  destruct (treat_now_with_capacity_turn (sample_state_at 0) 1 sample_critical_patient)
    as (Hpatient & Hbeds & Hstaff & _).
  - vm_compute. reflexivity.
  - reflexivity.
  - reflexivity.
  - vm_compute. reflexivity.
  - vm_compute. reflexivity.
  - split; [exact Hpatient|]. split; [exact Hbeds|exact Hstaff].
Defined.

Lemma untreated_death_probability (sev : SeverityLevel) (decision : TriageDecision) :
  _death_probability sev false decision
  = (claimed_base_rate sev
     * match decision with
       | MONITOR => 1.2 | DEFER => 2.0 | TRANSFER => 1.5 | TREAT_NOW => 1.0
       end)%float.
Proof. destruct sev, decision; reflexivity. Qed.

(** X14. A Monitor or Defer entry for a patient that is in the roster, alive
    and present takes no bed and no staff slot and enters nothing in the
    treated list; it samples death on one draw with the untreated probability
    (base rate times 1.2 for Monitor, times 2.0 for Defer) and changes nothing
    in the patient but [is_alive], and that only on death.  Beyond the outcome
    change, Monitor costs 0.5 of staff stress and Defer costs 1.0 of
    reputation. *)
Theorem monitor_or_defer_turn :
  forall (st : RoundState) (pid : Z) (p : Patient) (decision : TriageDecision),
    get_patient_by_id (rs_game st) pid = Some p ->
    is_alive p = true ->
    has_left p = false ->
    decision = MONITOR \/ decision = DEFER ->
    let st' := decision_step st (pid, decision) in
    let h := hospital (rs_game st) in
    let h' := hospital (rs_game st') in
    let died :=
      (next_float (rs_rng st)
       <? claimed_base_rate (severity_hidden_true p)
          * match decision with MONITOR => 1.2 | _ => 2.0 end)%float in
    get_patient_by_id (rs_game st') pid
    = Some (if died then set_is_alive p false else p)
    /\ available_beds h' = available_beds h
    /\ staff_capacity_this_round h' = staff_capacity_this_round h
    /\ patients_treated (rs_summary st') = patients_treated (rs_summary st)
    /\ patients_died (rs_summary st')
       = (if died then patients_died (rs_summary st) ++ [pid]
          else patients_died (rs_summary st))
    /\ rs_rng st' = advance (rs_rng st)
    /\ notes (rs_summary st')
       = notes (rs_summary st)
         ++ [explanation pid (severity_visible p) (severity_hidden_true p)
                         decision false died]
    /\ survival_score h'
       = clamp_metric (if died then survival_score h - 4.0 else survival_score h + 0.5)%float
    /\ staff_stress h'
       = clamp_metric
           (match decision with
            | MONITOR => (if died then staff_stress h + 3.0 else staff_stress h) + 0.5
            | _ => if died then staff_stress h + 3.0 else staff_stress h
            end)%float
    /\ reputation h'
       = clamp_metric
           (match decision with
            | MONITOR => if died then reputation h - 2.0 else reputation h + 0.5
            | _ => (if died then reputation h - 2.0 else reputation h + 0.5) - 1.0
            end)%float.
Proof.
  intros st pid p decision Hfind Halive Hleft Hdecision st' h h' died.
  pose proof (find_patient_id _ _ _ Hfind) as Hpid.
  subst st' h'. unfold decision_step. rewrite Hfind, Halive, Hleft. cbn [negb orb].
  assert (Hstep : match decision with
                  | TREAT_NOW | TRANSFER => False
                  | _ => True
                  end) by (destruct Hdecision; subst; exact I).
  assert (Hprob : _death_probability (severity_hidden_true p) false decision
                  = (claimed_base_rate (severity_hidden_true p)
                     * match decision with MONITOR => 1.2 | _ => 2.0 end)%float).
  { rewrite untreated_death_probability. destruct Hdecision; subst; reflexivity. }
  destruct decision; try contradiction;
    unfold resolve_outcome, rng_random; read_fields;
    fold (next_float (rs_rng st)); rewrite Hprob; fold died; fold h;
    (split;
     [rewrite update_metrics_patients;
      apply (get_stored_patient _ _ p); [exact Hfind|destruct died; reflexivity]|]);
    unfold _update_metrics_for_patient_outcome, _explain_decision_and_outcome;
    destruct died; read_fields; cbn [id set_is_alive];
    rewrite Hpid; split_ands; reflexivity.
Qed.

Lemma monitor_or_defer_turn_witness :
  let st' := decision_step (sample_full_state_at 0) (3, MONITOR) in
  available_beds (hospital (rs_game st'))
  = available_beds (hospital (rs_game (sample_full_state_at 0)))
  /\ patients_treated (rs_summary st')
     = patients_treated (rs_summary (sample_full_state_at 0))
  /\ rs_rng st' = advance (rs_rng (sample_full_state_at 0)).
Proof.
  destruct (monitor_or_defer_turn (sample_full_state_at 0) 3
              (mkPatient 3 "Patient 3" MILD MODERATE 1 false true false) MONITOR)
    as (_ & Hbeds & _ & Htreated & _ & Hrng & _).
  - vm_compute. reflexivity.
  - reflexivity.
  - reflexivity.
  - left. reflexivity.
  - split; [exact Hbeds|]. split; [exact Htreated|exact Hrng].
Defined.

(** *** A round only moves patients forward *)

Lemma turns_advance_refl (p : Patient) : turns_advance p p.
Proof. unfold turns_advance. split_ands; auto. Qed.

Lemma turns_advance_trans (p1 p2 p3 : Patient) :
  turns_advance p1 p2 -> turns_advance p2 p3 -> turns_advance p1 p3.
Proof.
  intros (A1 & A2 & A3 & A4 & A5 & A6) (B1 & B2 & B3 & B4 & B5 & B6).
  unfold turns_advance. split_ands; try congruence; auto.
  intros Hgone. rewrite <- (A6 Hgone). apply B6. rewrite (A6 Hgone). exact Hgone.
Qed.

Lemma Forall2_same {A : Type} (R : A -> A -> Prop) (l : list A) :
  (forall a, R a a) -> Forall2 R l l.
Proof. intros Hrefl. induction l; constructor; auto. Qed.

Lemma Forall2_compose {A : Type} (R S T : A -> A -> Prop) (l1 l2 l3 : list A) :
  (forall a b c, R a b -> S b c -> T a c) ->
  Forall2 R l1 l2 -> Forall2 S l2 l3 -> Forall2 T l1 l3.
Proof.
  intros Hcomp H12. revert l3.
  induction H12 as [|a b l1 l2 Hab _ IH]; intros l3 H23; inversion H23; subst;
    constructor; eauto.
Qed.

Lemma store_first_related (R : Patient -> Patient -> Prop) (ps : list Patient)
    (p p' : Patient) :
  (forall q, R q q) ->
  find_patient ps (id p') = Some p -> R p p' ->
  Forall2 R ps (store_first ps p').
Proof.
  intros Hrefl Hfind Hrel. induction ps as [|q ps IH]; simpl in *; [constructor|].
  destruct (id q =? id p').
  - injection Hfind as ->. constructor; [exact Hrel|apply Forall2_same, Hrefl].
  - constructor; [apply Hrefl|apply IH, Hfind].
Qed.

Lemma decision_step_roster (st : RoundState) (pid : Z) (decision : TriageDecision) :
  Forall2 turns_advance (patients (rs_game st))
          (patients (rs_game (decision_step st (pid, decision)))).
Proof.
  unfold decision_step, get_patient_by_id.
  destruct (find_patient (patients (rs_game st)) pid) as [p|] eqn:Hfind;
    [|apply Forall2_same, turns_advance_refl].
  destruct (is_alive p) eqn:Halive; [|apply Forall2_same, turns_advance_refl].
  destruct (has_left p) eqn:Hleft; [apply Forall2_same, turns_advance_refl|].
  cbn [negb orb].
  pose proof (find_patient_id _ _ _ Hfind) as Hpid.
  assert (Hstore : forall (p' : Patient) (h' : HospitalState) (g0 : GameState),
             patients g0 = patients (rs_game st) ->
             id p' = id p -> turns_advance p p' ->
             Forall2 turns_advance (patients (rs_game st))
                     (patients (set_hospital (store_patient g0 p') h'))).
  { intros p' h' g0 Hsame Hid Hadv. read_fields. rewrite Hsame.
    apply (store_first_related _ _ p p'); [apply turns_advance_refl| |exact Hadv].
    rewrite Hid, Hpid. exact Hfind. }
  assert (Hdead : forall q, is_alive q = true -> has_left q = false ->
                            turns_advance q (set_is_alive q false)).
  { intros q Hq1 Hq2. unfold turns_advance. cbn. rewrite Hq1, Hq2.
    split_ands; auto; try discriminate. intros [H | H]; discriminate. }
  assert (Htreated : turns_advance p (set_is_treated p true)).
  { unfold turns_advance. cbn. rewrite Halive, Hleft.
    split_ands; auto; try discriminate. intros [H | H]; discriminate. }
  destruct decision.
  - destruct (_ && _).
    + match goal with
      | |- context [resolve_outcome ?s pid ?q ?v ?t ?d ?b] =>
          destruct (resolve_outcome_game s pid q v t d b)
            as (p' & h' & Hp' & -> & _)
      end.
      cbn [rs_game]. unfold store_patient at 2. read_fields.
      rewrite store_first_twice by (destruct Hp'; subst p'; reflexivity).
      apply (store_first_related _ _ p p'); [apply turns_advance_refl| |].
      * destruct Hp'; subst p'; cbn [id set_is_alive set_is_treated];
          rewrite Hpid; exact Hfind.
      * destruct Hp' as [-> | ->]; [exact Htreated|].
        eapply turns_advance_trans; [exact Htreated|].
        apply Hdead; [exact Halive|exact Hleft].
    + match goal with
      | |- context [resolve_outcome ?s pid ?q ?v ?t ?d ?b] =>
          destruct (resolve_outcome_game s pid q v t d b)
            as (p' & h' & Hp' & -> & _)
      end.
      apply Hstore; [reflexivity|destruct Hp'; subst p'; reflexivity|].
      destruct Hp' as [-> | ->]; [apply turns_advance_refl|apply Hdead; assumption].
  - destruct (resolve_outcome_game st pid p (severity_visible p)
                (severity_hidden_true p) MONITOR false) as (p' & h' & Hp' & -> & _).
    apply Hstore; [reflexivity|destruct Hp'; subst p'; reflexivity|].
    destruct Hp' as [-> | ->]; [apply turns_advance_refl|apply Hdead; assumption].
  - destruct (resolve_outcome_game st pid p (severity_visible p)
                (severity_hidden_true p) DEFER false) as (p' & h' & Hp' & -> & _).
    apply Hstore; [reflexivity|destruct Hp'; subst p'; reflexivity|].
    destruct Hp' as [-> | ->]; [apply turns_advance_refl|apply Hdead; assumption].
  - destruct (transfer_patient_game st pid p (severity_visible p)
                (severity_hidden_true p)) as (alive & h' & -> & _).
    apply Hstore; [reflexivity|reflexivity|].
    unfold turns_advance. cbn. rewrite Halive, Hleft.
    split_ands; auto; try discriminate. intros [H | H]; discriminate.
Qed.

Lemma decision_loop_roster (submitted : list (Z * TriageDecision)) (st : RoundState) :
  Forall2 turns_advance (patients (rs_game st))
          (patients (rs_game (fold_left decision_step submitted st))).
Proof.
  revert st. induction submitted as [|[pid decision] rest IH]; intros st; simpl.
  - apply Forall2_same, turns_advance_refl.
  - eapply Forall2_compose; [|apply decision_step_roster|apply IH].
    intros a b c. apply turns_advance_trans.
Qed.

Lemma deteriorate_patient_cases (g : GameState) (p : Patient) (prob : float) (r : Rng) :
  is_alive p = true -> is_treated p = false -> has_left p = false ->
  let '(worsened, p', r') := _deteriorate_severity_if_needed g p prob r in
  r' = advance r
  /\ may_deteriorate p p'
  /\ (worsened = true <-> p' <> p).
Proof.
  intros Halive Htreated Hleft. unfold _deteriorate_severity_if_needed, rng_random.
  rewrite Halive, Htreated, Hleft. cbn [negb orb].
  destruct (_ <? prob)%float.
  - destruct (_severity_to_int (severity_hidden_true p) <? _severity_to_int CRITICAL)
      eqn:Hlt.
    + apply Z.ltb_lt in Hlt. cbn in Hlt.
      split; [reflexivity|]. split.
      * right. split_ands; auto.
      * split; [|reflexivity]. intros _ Heq.
        apply (f_equal (fun q => _severity_to_int (severity_hidden_true q))) in Heq.
        cbn in Heq. rewrite int_to_severity_rank in Heq. lia.
    + split; [reflexivity|]. split; [left; reflexivity|].
      split; [discriminate|intros H; contradiction].
  - split; [reflexivity|]. split; [left; reflexivity|].
    split; [discriminate|intros H; contradiction].
Qed.

Lemma deterioration_pass_account (g : GameState) (roster : list Patient)
    (prob : float) (s : RoundSummary) (r : Rng) :
  let candidates :=
    filter (fun p => is_alive p && negb (is_treated p) && negb (has_left p)) roster in
  let '(roster', s', r') := deterioration_pass g roster prob s r in
  Forall2 may_deteriorate roster roster'
  /\ tape r' = tape r
  /\ cursor r' = (cursor r + List.length candidates)%nat
  /\ patients_treated s' = patients_treated s
  /\ patients_died s' = patients_died s
  /\ exists (ds : list Z) (ns : list string),
      patients_deteriorated s' = patients_deteriorated s ++ ds
      /\ notes s' = notes s ++ ns
      /\ List.length ns = List.length ds
      /\ (List.length ds <= List.length candidates)%nat
      /\ Forall (fun pid => exists p, In p candidates /\ id p = pid) ds.
Proof.
  revert s r. induction roster as [|p roster IH]; intros s r.
  - cbn. split; [constructor|]. split; [reflexivity|]. split; [lia|].
    split; [reflexivity|]. split; [reflexivity|].
    exists [], []. rewrite !app_nil_r.
    split; [reflexivity|]. split; [reflexivity|]. split; [reflexivity|].
    split; [cbn; lia|constructor].
  - cbn [deterioration_pass filter].
    destruct (is_alive p) eqn:Halive; cbn [negb orb andb].
    2: { specialize (IH s r). cbv zeta in IH |- *.
         destruct (deterioration_pass g roster prob s r) as [[rest s'] r'].
         destruct IH as (Hroster & Hrest).
         split; [constructor; [left; reflexivity|exact Hroster]|exact Hrest]. }
    destruct (has_left p) eqn:Hleft; cbn [negb orb andb].
    { rewrite andb_false_r. specialize (IH s r). cbv zeta in IH |- *.
      destruct (deterioration_pass g roster prob s r) as [[rest s'] r'].
      destruct IH as (Hroster & Hrest).
      split; [constructor; [left; reflexivity|exact Hroster]|exact Hrest]. }
    destruct (is_treated p) eqn:Htreated; cbn [negb orb andb].
    { specialize (IH s r). cbv zeta in IH |- *.
      destruct (deterioration_pass g roster prob s r) as [[rest s'] r'].
      destruct IH as (Hroster & Hrest).
      split; [constructor; [left; reflexivity|exact Hroster]|exact Hrest]. }
    pose proof (deteriorate_patient_cases g p prob r Halive Htreated Hleft) as Hone.
    destruct (_deteriorate_severity_if_needed g p prob r) as [[worsened p1] r1].
    destruct Hone as (Hr1 & Hp1 & Hworse).
    assert (Hid : id p1 = id p).
    { destruct Hp1 as [-> | (_ & _ & _ & _ & ->)]; reflexivity. }
    match goal with
    | |- context [deterioration_pass g roster prob ?s1 r1] =>
        specialize (IH s1 r1); set (s1' := s1) in *
    end.
    cbv zeta in IH |- *.
    destruct (deterioration_pass g roster prob s1' r1) as [[rest s'] r'].
    destruct IH as (Hroster & Htape & Hcursor & Ht & Hd & ds & ns & Hds & Hns & Hlen
                    & Hle & Hin).
    subst r1. cbn [tape cursor advance] in Htape, Hcursor.
    split; [constructor; assumption|].
    split; [exact Htape|].
    split; [rewrite Hcursor; cbn [List.length]; lia|].
    assert (Hweaken : Forall (fun pid => exists q,
                                In q (p :: filter (fun p => is_alive p
                                                     && negb (is_treated p)
                                                     && negb (has_left p)) roster)
                                /\ id q = pid) ds).
    { eapply Forall_impl; [|exact Hin]. intros pid (q & Hq & Hqid).
      exists q. split; [right; exact Hq|exact Hqid]. }
    subst s1'. destruct worsened; cbn in Ht, Hd, Hds, Hns.
    + split; [exact Ht|]. split; [exact Hd|].
      exists (id p1 :: ds), (deterioration_note (id p1) :: ns).
      rewrite Hds, Hns, <- !app_assoc. cbn [app List.length].
      split_ands; try reflexivity; try lia.
      constructor; [|exact Hweaken].
      exists p. split; [left; reflexivity|symmetry; exact Hid].
    + split; [exact Ht|]. split; [exact Hd|].
      exists ds, ns. cbn [List.length].
      split_ands; try assumption; lia.
Qed.

Lemma finish_round_account (prob : float) (st : RoundState) :
  let out := finish_round prob st in
  let candidates := alive_patients (rs_game st) in
  Forall2 may_deteriorate (patients (rs_game st)) (patients (rs_game out))
  /\ tape (rs_rng out) = tape (rs_rng st)
  /\ cursor (rs_rng out) = (cursor (rs_rng st) + List.length candidates)%nat
  /\ patients_treated (rs_summary out) = patients_treated (rs_summary st)
  /\ patients_died (rs_summary out) = patients_died (rs_summary st)
  /\ exists (ds : list Z) (ns : list string),
      patients_deteriorated (rs_summary out)
      = patients_deteriorated (rs_summary st) ++ ds
      /\ notes (rs_summary out) = notes (rs_summary st) ++ ns
      /\ List.length ns = List.length ds
      /\ (List.length ds <= List.length candidates)%nat
      /\ Forall (fun pid => exists p, In p candidates /\ id p = pid) ds.
Proof.
  unfold finish_round, alive_patients.
  pose proof (deterioration_pass_account (rs_game st) (patients (rs_game st)) prob
                (rs_summary st) (rs_rng st)) as Hpass.
  cbv zeta in Hpass |- *.
  destruct (deterioration_pass _ _ _ _ _) as [[roster summary] r].
  exact Hpass.
Qed.

Lemma advance_then_pass (p q q' : Patient) :
  turns_advance p q -> may_deteriorate q q' -> only_advances p q'.
Proof.
  intros (A1 & A2 & A3 & A4 & A5 & A6) [-> | (Halive & Htreated & Hleft & Hrank & ->)].
  - unfold only_advances. rewrite A2. split_ands; auto; lia.
  - unfold only_advances. cbn. rewrite int_to_severity_rank, A2.
    pose proof (severity_to_int_range (severity_hidden_true p)).
    rewrite A2 in Hrank.
    split; [exact A1|].
    split; [intros H0; rewrite (A3 H0) in Halive; discriminate|].
    split; [intros H0; rewrite (A4 H0) in Hleft; discriminate|].
    split; [intros H0; rewrite (A5 H0) in Htreated; discriminate|].
    split; [lia|].
    intros Hgone. pose proof (A6 Hgone) as ->.
    destruct Hgone as [H0 | H0]; [rewrite H0 in Halive|rewrite H0 in Hleft];
      discriminate.
Qed.

Lemma environment_shocks_roster (g g' : GameState) (s s' : RoundSummary)
    (base prob : float) (r r' : Rng) :
  _apply_environment_shocks g s base r = Some (prob, g', s', r') ->
  patients g' = patients g
  /\ survival_score (hospital g') = survival_score (hospital g)
  /\ staff_stress (hospital g') = staff_stress (hospital g)
  /\ reputation (hospital g') = reputation (hospital g)
  /\ available_beds (hospital g') <= available_beds (hospital g)
  /\ patients_treated s' = patients_treated s
  /\ patients_died s' = patients_died s
  /\ patients_deteriorated s' = patients_deteriorated s
  /\ round_number s' = round_number s.
Proof.
  unfold _apply_environment_shocks, rng_random.
  destruct (difficulty g);
    [intros [= <- <- <- <-]; split_ands; (reflexivity || lia)|].
  destruct (_ <? 0.20)%float.
  { destruct (int_to_float _) as [f|]; [|discriminate].
    destruct (py_round _) as [n|]; [|discriminate].
    intros [= <- <- <- <-]. read_fields. split_ands; (reflexivity || lia). }
  destruct (_ <? 0.40)%float.
  { destruct (0 <? available_beds (hospital g)) eqn:Hpos; intros [= <- <- <- <-];
      [apply Z.ltb_lt in Hpos|]; read_fields; split_ands; (reflexivity || lia). }
  destruct (_ <? 0.60)%float;
    [intros [= <- <- <- <-]; split_ands; (reflexivity || lia)|].
  destruct (_ <? 0.5)%float; intros [= <- <- <- <-]; split_ands; (reflexivity || lia).
Qed.

Lemma start_round_shape (g : GameState) (submitted : list (Z * TriageDecision))
    (r : Rng) (prob : float) (st : RoundState) :
  start_round g submitted r = Some (prob, st) ->
  patients (rs_game st) = patients g
  /\ survival_score (hospital (rs_game st)) = survival_score (hospital g)
  /\ staff_stress (hospital (rs_game st)) = staff_stress (hospital g)
  /\ reputation (hospital (rs_game st)) = reputation (hospital g)
  /\ available_beds (hospital (rs_game st)) <= available_beds (hospital g)
  /\ patients_treated (rs_summary st) = []
  /\ patients_died (rs_summary st) = []
  /\ patients_deteriorated (rs_summary st) = []
  /\ round_number (rs_summary st) = current_round g.
Proof.
  unfold start_round.
  destruct (_apply_environment_shocks _ _ _ _) as [[[[prob' g'] s'] r']|] eqn:Hshock;
    [|discriminate].
  intros [= <- <-]. apply environment_shocks_roster in Hshock. exact Hshock.
Qed.

(** X15. Over a whole round no roster entry moves backwards: identity, order
    and number of entries stay; a dead patient stays dead, a departed one
    stays away, a treated one stays marked; the true severity never drops and
    rises by at most one rank; and an entry that was dead or had left when
    the round started comes out exactly as it went in. *)
Theorem round_only_advances_patients :
  forall (g : GameState) (submitted : list (Z * TriageDecision)) (r : Rng)
         (out : RoundState),
    apply_player_decisions g submitted r = Some out ->
    Forall2 only_advances (patients g) (patients (rs_game out)).
Proof.
  intros g submitted r out Hrun. unfold apply_player_decisions in Hrun.
  destruct (start_round g submitted r) as [[prob st]|] eqn:Hstart; [|discriminate].
  injection Hrun as <-.
  apply start_round_shape in Hstart. destruct Hstart as (<- & _).
  destruct (finish_round_account prob (fold_left decision_step submitted st))
    as (Hpass & _).
  eapply Forall2_compose; [|apply (decision_loop_roster submitted st)|exact Hpass].
  intros a b c. apply advance_then_pass.
Qed.

Lemma round_only_advances_patients_witness :
  Forall2 only_advances (patients sample_full_game)
          (patients (rs_game sample_full_result)).
Proof.
  apply (round_only_advances_patients sample_full_game sample_full_decisions
           sample_round_draws sample_full_result).
  vm_compute. reflexivity.
Defined.

(** *** The lists of the summary *)

Lemma resolve_outcome_lists (st : RoundState) (pid : Z) (p : Patient)
    (vis tru : SeverityLevel) (decision : TriageDecision) (treated : bool) :
  let s' := rs_summary (resolve_outcome st pid p vis tru decision treated) in
  patients_treated s' = patients_treated (rs_summary st)
  /\ patients_deteriorated s' = patients_deteriorated (rs_summary st)
  /\ (patients_died s' = patients_died (rs_summary st)
      \/ patients_died s' = patients_died (rs_summary st) ++ [pid]).
Proof.
  unfold resolve_outcome, rng_random, _explain_decision_and_outcome.
  destruct (_ <? _)%float; cbn; auto.
Qed.

Lemma transfer_patient_lists (st : RoundState) (pid : Z) (p : Patient)
    (vis tru : SeverityLevel) :
  let s' := rs_summary (transfer_patient st pid p vis tru) in
  patients_treated s' = patients_treated (rs_summary st)
  /\ patients_deteriorated s' = patients_deteriorated (rs_summary st)
  /\ (patients_died s' = patients_died (rs_summary st)
      \/ patients_died s' = patients_died (rs_summary st) ++ [pid]).
Proof.
  unfold transfer_patient, rng_random, _explain_decision_and_outcome.
  destruct (_ <? _)%float; cbn; auto.
Qed.

Lemma decision_step_lists (st : RoundState) (pid : Z) (decision : TriageDecision) :
  let st' := decision_step st (pid, decision) in
  let h := hospital (rs_game st) in
  let h' := hospital (rs_game st') in
  patients_deteriorated (rs_summary st') = patients_deteriorated (rs_summary st)
  /\ (patients_died (rs_summary st') = patients_died (rs_summary st)
      \/ patients_died (rs_summary st') = patients_died (rs_summary st) ++ [pid])
  /\ ((patients_treated (rs_summary st') = patients_treated (rs_summary st)
       /\ available_beds h' = available_beds h
       /\ staff_capacity_this_round h' = staff_capacity_this_round h)
      \/ (decision = TREAT_NOW
          /\ patients_treated (rs_summary st') = patients_treated (rs_summary st) ++ [pid]
          /\ 0 < available_beds h /\ 0 < staff_capacity_this_round h
          /\ available_beds h' = available_beds h - 1
          /\ staff_capacity_this_round h' = staff_capacity_this_round h - 1)).
Proof.
  cbv zeta. unfold decision_step.
  destruct (get_patient_by_id (rs_game st) pid) as [p|]; [|auto 6].
  destruct (negb (is_alive p) || has_left p); [auto 6|].
  destruct decision.
  - destruct ((0 <? staff_capacity_this_round (hospital (rs_game st)))
              && (0 <? available_beds (hospital (rs_game st)))) eqn:Hcap.
    + apply andb_true_iff in Hcap. destruct Hcap as [Hs Hb].
      apply Z.ltb_lt in Hs, Hb.
      match goal with
      | |- context [resolve_outcome ?s pid ?q ?v ?t ?d ?b] =>
          destruct (resolve_outcome_game s pid q v t d b)
            as (p' & h' & _ & Hgame & Hbeds & Hstaff);
          destruct (resolve_outcome_lists s pid q v t d b) as (Ht & Hdet & Hdied)
      end.
      rewrite Hgame, Ht, Hdet. read_fields. cbn in Hdied |- *.
      split; [reflexivity|]. split; [exact Hdied|].
      right. split_ands; auto.
    + match goal with
      | |- context [resolve_outcome ?s pid ?q ?v ?t ?d ?b] =>
          destruct (resolve_outcome_game s pid q v t d b)
            as (p' & h' & _ & Hgame & Hbeds & Hstaff);
          destruct (resolve_outcome_lists s pid q v t d b) as (Ht & Hdet & Hdied)
      end.
      rewrite Hgame, Ht, Hdet. read_fields. cbn in Hdied |- *.
      split; [reflexivity|]. split; [exact Hdied|]. left. auto.
  - destruct (resolve_outcome_game st pid p (severity_visible p)
                (severity_hidden_true p) MONITOR false)
      as (p' & h' & _ & Hgame & Hbeds & Hstaff).
    destruct (resolve_outcome_lists st pid p (severity_visible p)
                (severity_hidden_true p) MONITOR false) as (Ht & Hdet & Hdied).
    rewrite Hgame, Ht, Hdet. read_fields.
    split; [reflexivity|]. split; [exact Hdied|]. left. auto.
  - destruct (resolve_outcome_game st pid p (severity_visible p)
                (severity_hidden_true p) DEFER false)
      as (p' & h' & _ & Hgame & Hbeds & Hstaff).
    destruct (resolve_outcome_lists st pid p (severity_visible p)
                (severity_hidden_true p) DEFER false) as (Ht & Hdet & Hdied).
    rewrite Hgame, Ht, Hdet. read_fields.
    split; [reflexivity|]. split; [exact Hdied|]. left. auto.
  - destruct (transfer_patient_game st pid p (severity_visible p)
                (severity_hidden_true p)) as (alive & h' & Hgame & Hbeds & Hstaff).
    destruct (transfer_patient_lists st pid p (severity_visible p)
                (severity_hidden_true p)) as (Ht & Hdet & Hdied).
    rewrite Hgame, Ht, Hdet. read_fields.
    split; [reflexivity|]. split; [exact Hdied|]. left. auto.
Qed.

Lemma decision_loop_lists (submitted entries : list (Z * TriageDecision))
    (st : RoundState) :
  (forall entry, In entry entries -> In entry submitted) ->
  let st' := fold_left decision_step entries st in
  let h := hospital (rs_game st) in
  let h' := hospital (rs_game st') in
  patients_deteriorated (rs_summary st') = patients_deteriorated (rs_summary st)
  /\ (exists died : list Z,
         patients_died (rs_summary st') = patients_died (rs_summary st) ++ died
         /\ Forall (fun pid => exists d, In (pid, d) submitted) died)
  /\ (exists treated : list Z,
         patients_treated (rs_summary st') = patients_treated (rs_summary st) ++ treated
         /\ Forall (fun pid => In (pid, TREAT_NOW) submitted) treated
         /\ available_beds h' = available_beds h - Z.of_nat (List.length treated)
         /\ staff_capacity_this_round h'
            = staff_capacity_this_round h - Z.of_nat (List.length treated)
         /\ (treated = []
             \/ 0 <= available_beds h' /\ 0 <= staff_capacity_this_round h')).
Proof.
  revert st. induction entries as [|[pid decision] rest IH]; intros st Hsub.
  - cbn. split; [reflexivity|]. split.
    + exists []. rewrite app_nil_r. split; [reflexivity|constructor].
    + exists []. rewrite app_nil_r. cbn.
      split_ands; try reflexivity; try lia; [constructor|left; reflexivity].
  - cbn [fold_left].
    assert (Hhere : In (pid, decision) submitted) by (apply Hsub; left; reflexivity).
    assert (Hrest : forall entry, In entry rest -> In entry submitted)
      by (intros entry Hin; apply Hsub; right; exact Hin).
    destruct (decision_step_lists st pid decision) as (Hdet1 & Hdied1 & Htreat1).
    destruct (IH (decision_step st (pid, decision)) Hrest)
      as (Hdet2 & (died & Hdied2 & Hdied_in)
          & (treated & Htreat2 & Htreat_in & Hbeds2 & Hstaff2 & Hsign)).
    cbv zeta in *.
    split; [congruence|]. split.
    + destruct Hdied1 as [Hsame | Hmore].
      * exists died. rewrite Hdied2, Hsame. split; [reflexivity|exact Hdied_in].
      * exists (pid :: died). rewrite Hdied2, Hmore, <- app_assoc.
        split; [reflexivity|]. constructor; [exists decision; exact Hhere|exact Hdied_in].
    + destruct Htreat1 as [(Hsame & Hb & Hs) | (-> & Hmore & Hb0 & Hs0 & Hb & Hs)].
      * exists treated. rewrite Htreat2, Hsame, Hbeds2, Hstaff2, Hb, Hs.
        split_ands; try reflexivity; try assumption.
        destruct Hsign as [-> | Hsign]; [left; reflexivity|right].
        rewrite Hbeds2, Hstaff2, Hb, Hs in Hsign. exact Hsign.
      * exists (pid :: treated). rewrite Htreat2, Hmore, <- app_assoc, Hbeds2, Hstaff2, Hb, Hs.
        cbn [List.length app].
        split; [reflexivity|]. split; [constructor; assumption|].
        split; [lia|]. split; [lia|]. right.
        destruct Hsign as [-> | Hsign]; [cbn; lia|].
        rewrite Hbeds2, Hstaff2, Hb, Hs in Hsign. lia.
Qed.

(** X16. What the returned summary lists can hold.  The summary carries the
    round number of the state; every id in the treated list was submitted with
    TreatNow, and every id in the died list was submitted; the treated list is
    never longer than the number of beds that were free when the round
    started, nor, when the staff capacity started between 0 and
    [MAX_STAFF_CAPACITY], longer than [MAX_STAFF_CAPACITY]. *)
Theorem summary_lists_are_sound :
  forall (g : GameState) (submitted : list (Z * TriageDecision)) (r : Rng)
         (out : RoundState),
    apply_player_decisions g submitted r = Some out ->
    let s := rs_summary out in
    round_number s = current_round g
    /\ Forall (fun pid => In (pid, TREAT_NOW) submitted) (patients_treated s)
    /\ Forall (fun pid => exists d, In (pid, d) submitted) (patients_died s)
    /\ Z.of_nat (List.length (patients_treated s))
       <= Z.max 0 (available_beds (hospital g))
    /\ (0 <= staff_capacity_this_round (hospital g) <= MAX_STAFF_CAPACITY ->
        Z.of_nat (List.length (patients_treated s)) <= MAX_STAFF_CAPACITY).
Proof.
  intros g submitted r out Hrun s. subst s.
  pose proof Hrun as Hrun'. unfold apply_player_decisions in Hrun.
  destruct (start_round g submitted r) as [[prob st]|] eqn:Hstart; [|discriminate].
  injection Hrun as <-.
  pose proof (start_round_shape _ _ _ _ _ Hstart)
    as (_ & _ & _ & _ & Hbeds0 & Ht0 & Hd0 & _ & Hround0).
  destruct (finish_round_account prob (fold_left decision_step submitted st))
    as (_ & _ & _ & -> & -> & _).
  destruct (decision_loop_lists submitted submitted st (fun entry H => H))
    as (_ & (died & Hdied & Hdied_in)
        & (treated & Htreated & Htreated_in & Hbeds & Hstaff & Hsign)).
  cbv zeta in *. rewrite Hdied, Hd0, Htreated, Ht0. cbn [app].
  split.
  { destruct (finish_round_summary prob (fold_left decision_step submitted st))
      as (_ & -> & _).
    destruct (decision_loop_summary submitted st) as (_ & -> & _). exact Hround0. }
  split; [exact Htreated_in|]. split; [exact Hdied_in|].
  split.
  { destruct Hsign as [-> | [Hb _]]; [cbn; lia|]. lia. }
  intros Hrange.
  assert (Hstaff0 : staff_in_range (rs_game st)).
  { unfold start_round in Hstart.
    destruct (environment_shocks_staff g
                (set_decisions (new_summary (current_round g)) submitted)
                (_deterioration_probability (difficulty g)) r Hrange)
      as (prob1 & g1 & s1 & r1 & Hshock & Hin).
    rewrite Hshock in Hstart. injection Hstart as _ <-. exact Hin. }
  unfold staff_in_range in Hstaff0.
  destruct Hsign as [-> | [_ Hs]]; [cbn; unfold MAX_STAFF_CAPACITY; lia|]. lia.
Qed.

Lemma summary_lists_are_sound_witness :
  round_number (rs_summary sample_basic_result) = current_round sample_basic_game
  /\ Forall (fun pid => In (pid, TREAT_NOW) sample_decisions)
            (patients_treated (rs_summary sample_basic_result))
  /\ Forall (fun pid => exists d, In (pid, d) sample_decisions)
            (patients_died (rs_summary sample_basic_result)).
Proof.
  destruct (summary_lists_are_sound sample_basic_game sample_decisions
              sample_round_draws sample_basic_result)
    as (Hround & Htreated & Hdied & _).
  - vm_compute. reflexivity.
  - split; [exact Hround|]. split; [exact Htreated|exact Hdied].
Defined.

(** X17. The deterioration pass runs on the roster as the decision loop left
    it and takes exactly one draw for each patient that [alive_patients]
    lists there (alive, untreated, present), and none for the others, who are
    not written.  A listed patient either stays as it is or goes up exactly
    one rank, which it can only do below Critical.  Every id entered in the
    deteriorated list belongs to a listed patient, and each entry comes with
    exactly one note.  The pass leaves the treated and died lists alone. *)
Theorem deterioration_pass_accounting :
  forall (g : GameState) (submitted : list (Z * TriageDecision)) (r : Rng)
         (st out : RoundState),
    state_at g submitted r (List.length submitted) = Some st ->
    apply_player_decisions g submitted r = Some out ->
    let candidates := alive_patients (rs_game st) in
    Forall2 may_deteriorate (patients (rs_game st)) (patients (rs_game out))
    /\ tape (rs_rng out) = tape (rs_rng st)
    /\ cursor (rs_rng out) = (cursor (rs_rng st) + List.length candidates)%nat
    /\ patients_treated (rs_summary out) = patients_treated (rs_summary st)
    /\ patients_died (rs_summary out) = patients_died (rs_summary st)
    /\ (List.length (patients_deteriorated (rs_summary out))
        <= List.length candidates)%nat
    /\ Forall (fun pid => exists p, In p candidates /\ id p = pid)
              (patients_deteriorated (rs_summary out))
    /\ exists ns : list string,
        notes (rs_summary out) = notes (rs_summary st) ++ ns
        /\ List.length ns = List.length (patients_deteriorated (rs_summary out)).
Proof.
  intros g submitted r st out Hat Hrun candidates.
  destruct (result_from_state_at _ _ _ _ _ _ Hat Hrun) as [prob ->].
  rewrite skipn_all. cbn [fold_left].
  assert (Hnone : patients_deteriorated (rs_summary st) = []).
  { unfold state_at in Hat.
    destruct (start_round g submitted r) as [[prob0 st0]|] eqn:Hstart; [|discriminate].
    injection Hat as <-. rewrite firstn_all.
    destruct (decision_loop_lists submitted submitted st0 (fun entry H => H))
      as (-> & _).
    apply start_round_shape in Hstart. apply Hstart. }
  destruct (finish_round_account prob st)
    as (Hroster & Htape & Hcursor & Ht & Hd & ds & ns & Hds & Hns & Hlen & Hle & Hin).
  rewrite Hnone in Hds. cbn [app] in Hds. rewrite Hds.
  split_ands; try assumption.
  exists ns. split; assumption.
Qed.

Lemma deterioration_pass_accounting_witness :
  let st := sample_full_state_at 3 in
  cursor (rs_rng sample_full_result)
  = (cursor (rs_rng st) + List.length (alive_patients (rs_game st)))%nat
  /\ patients_treated (rs_summary sample_full_result) = patients_treated (rs_summary st).
Proof.
  destruct (deterioration_pass_accounting sample_full_game sample_full_decisions
              sample_round_draws (sample_full_state_at 3) sample_full_result)
    as (_ & _ & Hcursor & Htreated & _).
  - vm_compute. reflexivity.
  - vm_compute. reflexivity.
  - split; [exact Hcursor|exact Htreated].
Defined.

(** *** Entries that name nobody to decide on *)

Lemma stale_loop (entries : list (Z * TriageDecision)) (st : RoundState) :
  Forall (stale_entry (rs_game st)) entries ->
  fold_left decision_step entries st = st.
Proof.
  induction 1 as [|[pid decision] rest Hstale _ IH]; cbn [fold_left]; [reflexivity|].
  rewrite (decision_step_skipped st pid decision Hstale). exact IH.
Qed.

(** X18. A map whose every entry names an id that is not in the roster, or a
    patient that is dead or has left (the empty map among them), is recorded
    in the summary and otherwise ignored: the decision loop changes nothing
    and draws nothing, nobody is treated or dies, and the round is the shock
    followed by the deterioration pass, the recount of the beds and the clamp
    of the metrics. *)
Theorem stale_decisions_are_ignored :
  forall (g : GameState) (submitted : list (Z * TriageDecision)) (r : Rng)
         (out : RoundState),
    apply_player_decisions g submitted r = Some out ->
    Forall (stale_entry g) submitted ->
    (exists (prob : float) (st : RoundState),
        start_round g submitted r = Some (prob, st)
        /\ state_at g submitted r (List.length submitted) = Some st
        /\ out = finish_round prob st)
    /\ decisions (rs_summary out) = submitted
    /\ patients_treated (rs_summary out) = []
    /\ patients_died (rs_summary out) = []
    /\ Forall2 may_deteriorate (patients g) (patients (rs_game out))
    /\ survival_score (hospital (rs_game out))
       = clamp_metric (survival_score (hospital g))
    /\ staff_stress (hospital (rs_game out)) = clamp_metric (staff_stress (hospital g))
    /\ reputation (hospital (rs_game out)) = clamp_metric (reputation (hospital g))
    /\ available_beds (hospital (rs_game out))
       = Z.max 0 (MAX_BEDS - occupied_beds (patients g)).
Proof.
  intros g submitted r out Hrun Hstale.
  pose proof Hrun as Hrun0. unfold apply_player_decisions in Hrun.
  destruct (start_round g submitted r) as [[prob st]|] eqn:Hstart; [|discriminate].
  injection Hrun as <-.
  pose proof (start_round_shape _ _ _ _ _ Hstart)
    as (Hroster & Hsurv & Hstress & Hrep & _ & Ht0 & Hd0 & _).
  assert (Hstale' : Forall (stale_entry (rs_game st)) submitted).
  { eapply Forall_impl; [|exact Hstale]. intros entry.
    unfold stale_entry, get_patient_by_id. rewrite Hroster. exact (fun H => H). }
  rewrite (stale_loop submitted st Hstale') in *.
  split.
  { exists prob, st. split; [reflexivity|]. split; [|reflexivity].
    unfold state_at. rewrite Hstart, firstn_all, (stale_loop submitted st Hstale').
    reflexivity. }
  split; [exact (proj1 (state_at_result g submitted r 0 st _
                          ltac:(unfold state_at; rewrite Hstart; reflexivity) Hrun0))|].
  destruct (finish_round_account prob st) as (Hpass & _ & _ & -> & -> & _).
  split; [exact Ht0|]. split; [exact Hd0|].
  rewrite <- Hroster. split; [exact Hpass|].
  rewrite <- Hsurv, <- Hstress, <- Hrep.
  unfold finish_round.
  pose proof (deterioration_pass_roster (rs_game st) (patients (rs_game st)) prob
                (rs_summary st) (rs_rng st)) as Hsame.
  destruct (deterioration_pass _ _ _ _ _) as [[roster summary] r'].
  apply severity_only_identity in Hsame. destruct Hsame as [_ Hocc].
  read_fields. rewrite Hocc. split_ands; reflexivity.
Qed.

Lemma stale_decisions_are_ignored_witness :
  decisions (rs_summary
               (result_of (apply_player_decisions sample_basic_game
                             [(9, TREAT_NOW); (0, TRANSFER)] sample_round_draws)
                          (sample_state_at 0)))
  = [(9, TREAT_NOW); (0, TRANSFER)]
  /\ patients_treated
       (rs_summary
          (result_of (apply_player_decisions sample_basic_game
                        [(9, TREAT_NOW); (0, TRANSFER)] sample_round_draws)
                     (sample_state_at 0))) = [].
Proof.
  destruct (stale_decisions_are_ignored sample_basic_game
              [(9, TREAT_NOW); (0, TRANSFER)] sample_round_draws
              (result_of (apply_player_decisions sample_basic_game
                            [(9, TREAT_NOW); (0, TRANSFER)] sample_round_draws)
                         (sample_state_at 0)))
    as (_ & Hmap & Htreated & _).
  - vm_compute. reflexivity.
  - repeat constructor.
  - split; [exact Hmap|exact Htreated].
Defined.

(** *** The metric update, whatever the decision *)

(** X19. [_update_metrics_for_patient_outcome] writes the three metrics and
    nothing else: beds, staff capacity, roster, round counter, difficulty,
    history and next id are as before, and the patient it is handed is not
    read.  Each metric it leaves lies in [0,100], whatever value, NaN and the
    infinities included, it started from. *)
Theorem update_metrics_writes_only_metrics :
  forall (g : GameState) (p q : Patient) (died : bool) (decision : TriageDecision),
    let g' := _update_metrics_for_patient_outcome g p died decision in
    available_beds (hospital g') = available_beds (hospital g)
    /\ staff_capacity_this_round (hospital g') = staff_capacity_this_round (hospital g)
    /\ patients g' = patients g
    /\ current_round g' = current_round g /\ difficulty g' = difficulty g
    /\ history g' = history g /\ next_patient_id g' = next_patient_id g
    /\ g' = _update_metrics_for_patient_outcome g q died decision
    /\ metric_in_range (survival_score (hospital g')) = true
    /\ metric_in_range (staff_stress (hospital g')) = true
    /\ metric_in_range (reputation (hospital g')) = true.
Proof.
  intros g p q died decision g'.
  destruct (update_metrics_shape g p died decision) as (h & Heq & Hbeds & Hstaff).
  destruct (update_metrics_in_range g p died decision) as (H1 & H2 & H3).
  subst g'. split; [rewrite Heq; exact Hbeds|]. split; [rewrite Heq; exact Hstaff|].
  split_ands; try reflexivity; assumption.
Qed.

(** *** Draws taken by the arrivals *)

Lemma noisy_visible_severity_rng (tru : SeverityLevel) (d : DifficultyLevel) (r : Rng) :
  snd (_noisy_visible_severity tru d r) = advance r
  \/ snd (_noisy_visible_severity tru d r) = advance (advance r).
Proof.
  unfold _noisy_visible_severity, noise_delta, rng_random.
  destruct d.
  - destruct (_ <? 0.8)%float; [left; reflexivity|right].
    destruct (choice_of_two (-1) 1 (advance r)) as [Hr _].
    destruct (rng_choice (-1) [1] (advance r)); exact Hr.
  - destruct (_ <? 0.6)%float; [left; reflexivity|right].
    destruct (_ <? 0.9)%float.
    + destruct (choice_of_two (-1) 1 (advance r)) as [Hr _].
      destruct (rng_choice (-1) [1] (advance r)); exact Hr.
    + destruct (choice_of_two (-2) 2 (advance r)) as [Hr _].
      destruct (rng_choice (-2) [2] (advance r)); exact Hr.
Qed.

Lemma sample_true_severity_rng (severe_prob : float) (r : Rng) :
  snd (_sample_true_severity severe_prob r) = advance (advance r).
Proof.
  unfold _sample_true_severity, rng_random.
  destruct (_ <? severe_prob)%float; reflexivity.
Qed.

Lemma generate_loop_draws (n : nat) (severe_prob : float) (g : GameState)
    (acc : list Patient) (r : Rng) :
  tape (snd (generate_loop n severe_prob g acc r)) = tape r
  /\ (cursor r + 3 * n <= cursor (snd (generate_loop n severe_prob g acc r))
      <= cursor r + 4 * n)%nat.
Proof.
  revert g acc r. induction n as [|n IH]; intros g acc r; cbn [generate_loop].
  - cbn. split; [reflexivity|lia].
  - pose proof (sample_true_severity_rng severe_prob r) as Hr1.
    destruct (_sample_true_severity severe_prob r) as [tru r1]. cbn [snd] in Hr1.
    pose proof (noisy_visible_severity_rng tru (difficulty g) r1) as Hr2.
    destruct (_noisy_visible_severity tru (difficulty g) r1) as [vis r2].
    cbn [snd] in Hr2.
    match goal with
    | |- context [generate_loop n severe_prob ?g1 ?acc1 r2] =>
        destruct (IH g1 acc1 r2) as [Htape Hcursor]
    end.
    rewrite Htape. subst r1.
    destruct Hr2 as [-> | ->]; cbn [tape cursor advance] in *;
      (split; [reflexivity|lia]).
Qed.

(** X20. [generate_new_patients_for_round] takes one draw for the size of the
    batch and, for each patient, two draws for the true severity and one or
    two for the visible one: between [1 + 3n] and [1 + 4n] draws for a batch
    of [n], all from the generator it was handed, in order. *)
Theorem generate_draw_count :
  forall (g : GameState) (r : Rng),
    let '(batch, g', r') := generate_new_patients_for_round g r in
    let n := List.length batch in
    tape r' = tape r
    /\ (cursor r + 1 + 3 * n <= cursor r' <= cursor r + 1 + 4 * n)%nat.
Proof.
  intros g r. unfold generate_new_patients_for_round.
  destruct (_patients_per_round (difficulty g)) as [min_p max_p].
  unfold rng_randint, rng_randbelow.
  set (num_new := min_p + Z.of_nat _).
  pose proof (generate_loop_draws (Z.to_nat num_new)
                (_severe_probability (difficulty g)) g [] (advance r)) as Hdraws.
  destruct (generate_loop_batch (Z.to_nat num_new)
              (_severe_probability (difficulty g)) g [] (advance r))
    as (batch & Hacc & Hlen & _).
  destruct (generate_loop _ _ g [] (advance r)) as [[batch' g'] r'].
  cbn [fst snd app tape cursor advance] in *. subst batch'. rewrite Hlen.
  destruct Hdraws as [Htape Hcursor]. split; [exact Htape|lia].
Qed.
